(** * AssetOpsBench: the planning workflow and the scenario validator

    A shallow embedding of [agent_hive/workflows/track1_planning.py]
    (class [NewPlanningWorkflow]) and of the scenario validator exercised by
    [tests/test_scenario_validation.py].

    Conventions of the embedding.
    - Python text is a [string] holding the bytes of its UTF-8 encoding.
      The regular-expression class [\d] is the decimal digits of Unicode, as
      [re] has it for a [str] pattern, and [int] reads them, up to the limit
      on the number of digits that CPython 3.11 sets.
    - A Python exception is a value of [exn]; code that may raise returns a
      [result].
    - [Task] objects built by [generate_steps] live in a store and are named
      by references, since the context of a sub-task holds the very objects
      appended to [planned_tasks] earlier. *)

From stdpp Require Import base list strings gmap pretty.
From Stdlib Require Import ZArith Ascii.
From Stdlib Require QArith.

Local Open Scope string_scope.
Set Warnings "-register-all".

(** ** A small model of the Python runtime *)

Module Py.

(** The exceptions met; [OSError] stands for the class and its subclasses
    ([FileNotFoundError], [PermissionError] and the like). *)
Inductive exn : Type :=
| ValueError (msg : string)
| IndexError
| TypeError
| OSError (msg : string).

Inductive result (A : Type) : Type :=
| Ok (a : A)
| Raise (e : exn).
Arguments Ok {A} a.
Arguments Raise {A} e.

#[export] Instance result_ret : MRet result := fun A a => Ok a.
#[export] Instance result_bind : MBind result := fun A B f m =>
  match m with
  | Ok a => f a
  | Raise e => Raise e
  end.

(** [l[i]] on a Python list: a negative index counts from the end, and an
    index outside [-len(l) .. len(l)-1] raises [IndexError]. *)
Definition getitem {A} (l : list A) (i : Z) : result A :=
  let n := Z.of_nat (length l) in
  let j := if (i <? 0)%Z then (i + n)%Z else i in
  if ((j <? 0)%Z || (n <=? j)%Z)%bool then Raise IndexError
  else match l !! Z.to_nat j with
       | Some x => Ok x
       | None => Raise IndexError
       end.

(** *** The fragment of [re] the workflow uses *)

(** The ASCII digits, for statements about texts; the class [\d] of the
    patterns is [decimal] below. *)
Definition is_digit (c : ascii) : bool :=
  let n := nat_of_ascii c in (48 <=? n)%nat && (n <=? 57)%nat.

(** [.] without DOTALL: every character but the line feed. *)
Definition is_dot (c : ascii) : bool :=
  negb (Ascii.eqb c (ascii_of_nat 10)).

(** A literal at the head of the subject; what follows it on success. *)
Fixpoint literal (p s : string) : option string :=
  match p with
  | EmptyString => Some s
  | String a p' =>
      match s with
      | EmptyString => None
      | String b s' => if Ascii.eqb a b then literal p' s' else None
      end
  end.

(** A greedy run [c*] of a character class: the run and what follows. *)
Fixpoint span (cls : ascii -> bool) (s : string) : string * string :=
  match s with
  | EmptyString => (EmptyString, EmptyString)
  | String c s' =>
      if cls c then let '(r, rest) := span cls s' in (String c r, rest)
      else (EmptyString, s)
  end.

(** **** Decimal digits

    On a [str] the class [\d] is the decimal digits of Unicode (category
    Nd), those of the other scripts with the ASCII ones, and [int] reads
    them all.  A text being held as UTF-8, a digit is decoded from one to
    four bytes. *)

Definition byte (c : ascii) : Z := Z.of_nat (nat_of_ascii c).

(** The first byte of a code point of more than one byte: how many bytes
    follow it, the bits it brings, and the least code point that takes so
    many bytes. *)
Definition lead (b0 : Z) : option (nat * Z * Z) :=
  if (b0 <? 192)%Z then None
  else if (b0 <? 224)%Z then Some (1%nat, (b0 - 192)%Z, 128%Z)
  else if (b0 <? 240)%Z then Some (2%nat, (b0 - 224)%Z, 2048%Z)
  else if (b0 <? 248)%Z then Some (3%nat, (b0 - 240)%Z, 65536%Z)
  else None.

(** [k] continuation bytes, of six bits each, at the head of a text: the
    bits gathered, the bytes and what follows. *)
Fixpoint continuations (k : nat) (bits : Z) (s : string)
  : option (Z * string * string) :=
  match k with
  | O => Some (bits, EmptyString, s)
  | S k' =>
      match s with
      | EmptyString => None
      | String c s' =>
          if ((128 <=? byte c) && (byte c <? 192))%Z then
            '(cp, p, rest) ← continuations k' (bits * 64 + (byte c - 128))%Z s';
            Some (cp, String c p, rest)
          else None
      end
  end.

(** A code point is encoded in the shortest form, and none lies among the
    surrogates or beyond U+10FFFF. *)
Definition scalar (lowest cp : Z) : bool :=
  ((lowest <=? cp) && (cp <=? 1114111)
   && negb ((55296 <=? cp) && (cp <=? 57343)))%Z.

(** The code point at the head of a text, the bytes that encode it and
    what follows. *)
Definition code_point (s : string) : option (Z * string * string) :=
  match s with
  | EmptyString => None
  | String c0 s1 =>
      if (byte c0 <? 128)%Z then Some (byte c0, String c0 EmptyString, s1)
      else
        '(k, bits, lowest) ← lead (byte c0);
        '(cp, p, rest) ← continuations k bits s1;
        if scalar lowest cp then Some (cp, String c0 p, rest) else None
  end.

(** The code points of the digit zero of every script with decimal digits
    (category Nd of Unicode 14.0, the database of CPython 3.11); the nine
    other digits of a script follow its zero. *)
Definition decimal_zeros : list Z :=
  [48; 1632; 1776; 1984; 2406; 2534; 2662; 2790; 2918; 3046; 3174; 3302;
   3430; 3558; 3664; 3792; 3872; 4160; 4240; 6112; 6160; 6470; 6608; 6784;
   6800; 6992; 7088; 7232; 7248; 42528; 43216; 43264; 43472; 43504; 43600;
   44016; 65296; 66720; 68912; 69734; 69872; 69942; 70096; 70384; 70736;
   70864; 71248; 71360; 71472; 71904; 72016; 72784; 73040; 73120; 92768;
   92864; 93008; 120782; 120792; 120802; 120812; 120822; 123200; 123632;
   125264; 130032]%Z.

(** The value of a code point as a decimal digit. *)
Fixpoint digit_of (zeros : list Z) (cp : Z) : option Z :=
  match zeros with
  | [] => None
  | z :: zeros' =>
      if ((z <=? cp) && (cp <=? z + 9))%Z then Some (cp - z)%Z
      else digit_of zeros' cp
  end.

(** [\d] at the head of a text: the value of the digit, its bytes and what
    follows. *)
Definition decimal (s : string) : option (Z * string * string) :=
  '(cp, p, rest) ← code_point s;
  v ← digit_of decimal_zeros cp;
  Some (v, p, rest).

(** [\d*], greedy: the values of the digits, the run and what follows.  A
    digit takes a byte at least, so that the length of the text is fuel
    enough. *)
Fixpoint decimals_fuel (fuel : nat) (s : string) : list Z * string * string :=
  match fuel with
  | O => ([], EmptyString, s)
  | S fuel' =>
      match decimal s with
      | Some (v, p, rest) =>
          let '(vs, r, rest') := decimals_fuel fuel' rest in
          (v :: vs, p +:+ r, rest')
      | None => ([], EmptyString, s)
      end
  end.

Definition decimals (s : string) : list Z * string * string :=
  decimals_fuel (String.length s) s.

(** A matcher tries the pattern at the head of the subject and answers the
    captured group with the number of bytes matched. *)
Definition matcher := string -> option (string * nat).

(** [#<label>\d+: (.+)], the shape of the four section patterns.  After the
    greedy digits comes a colon, which no digit is, and nothing follows the
    greedy [.+], so the first attempt is the only one. *)
Definition section_pattern (label : string) : matcher := fun s =>
  r1 ← literal ("#" +:+ label) s;
  let '(_, ds, r2) := decimals r1 in
  if String.eqb ds "" then None else
  r3 ← literal ": " r2;
  let '(g, _) := span is_dot r3 in
  if String.eqb g "" then None
  else Some (g, (String.length label + 1 + String.length ds + 2 + String.length g)%nat).

(** [#S(\d+)] *)
Definition step_ref_pattern : matcher := fun s =>
  r1 ← literal "#S" s;
  let '(_, ds, _) := decimals r1 in
  if String.eqb ds "" then None
  else Some (ds, (2 + String.length ds)%nat).

(** [re.findall] for a pattern with one group: scan left to right, keep the
    group of every match and resume after the match.  [skip] counts the
    bytes of the last match still to step over.  The scan goes byte by
    byte: the patterns begin with [#], a byte that is a character of its
    own wherever it stands. *)
Fixpoint findall_from (m : matcher) (skip : nat) (s : string) : list string :=
  match s with
  | EmptyString => []
  | String _ s' =>
      match skip with
      | S k => findall_from m k s'
      | O =>
          match m s with
          | Some (g, len) => g :: findall_from m (len - 1) s'
          | None => findall_from m 0 s'
          end
      end
  end.

Definition findall (m : matcher) (s : string) : list string :=
  findall_from m 0 s.

(** *** [int]

    [int(s)] for a text [s] of decimal digits, which is all that the group
    of [#S(\d+)] holds.  CPython refuses a text of more digits than
    [sys.get_int_max_str_digits()], 4300 unless the interpreter is told
    otherwise, which the workflow does not do.  The other texts that [int]
    reads (a sign, blanks around the digits, underscores between them) never
    reach it here and are not modelled: on a text that is not made of digits
    this definition answers the [ValueError] of a text without a number. *)

Definition digit_value (c : ascii) : Z := (Z.of_nat (nat_of_ascii c) - 48)%Z.

Definition int_max_str_digits : nat := 4300.

(** The message of the [ValueError] for a text of [k] digits. *)
Definition exceeds_limit (k : nat) : string :=
  "Exceeds the limit (4300 digits) for integer string conversion: value has "
  +:+ pretty k
  +:+ " digits; use sys.set_int_max_str_digits() to increase the limit".

Definition invalid_literal : string := "invalid literal for int() with base 10".

(** The number that digits write, the first one the most significant. *)
Definition digits_value (vs : list Z) : Z :=
  fold_left (fun acc v => (10 * acc + v)%Z) vs 0%Z.

Definition int (s : string) : result Z :=
  let '(vs, _, rest) := decimals s in
  if negb (String.eqb rest "") || (length vs =? 0)%nat
  then Raise (ValueError invalid_literal)
  else if (int_max_str_digits <? length vs)%nat
  then Raise (ValueError (exceeds_limit (length vs)))
  else Ok (digits_value vs).

End Py.

Import Py.

(** ** The planning workflow *)

Module Planner.

Record Agent : Type := mkAgent {
  name : string;
  agent_description : string
}.

(** A reference to a [Task] object built during one run of
    [generate_steps]: its position in the store. *)
Definition ref : Type := nat.

(** [Task(description, expected_output, agents, context)], the class of the
    hosting framework, whose constructor is taken to store its four
    arguments.  [agents] may be [None]; [context] holds references to other
    task objects. *)
Record Task : Type := mkTask {
  description : string;
  expected_output : string;
  agents : option (list Agent);
  context : list ref
}.

(** The value bound to the [tasks] parameter of the constructor. *)
Inductive tasks_arg : Type :=
| NotAList
| TaskList (l : list Task).

Record NewPlanningWorkflow : Type := mkWorkflow {
  tasks : list Task;
  memory : list string;
  max_memory : nat;
  llm : string;
  max_retries : nat
}.

(** *** Effects: exceptions and the calls made to the model *)

(** One entry per call of [watsonx_llm]: the prompt and the model id. *)
Definition calls : Type := list (string * string).

Definition M (A : Type) : Type := calls -> result A * calls.

#[export] Instance M_ret : MRet M := fun A a w => (Ok a, w).
#[export] Instance M_bind : MBind M := fun A B f m w =>
  match m w with
  | (Ok a, w') => f a w'
  | (Raise e, w') => (Raise e, w')
  end.

Definition lift {A} (r : result A) : M A := fun w => (r, w).

(** *** Construction *)

(** Lines 36-43.  The checks return nothing in the source; here they hand
    back the list they accepted, which is what the object holds. *)
Definition _verify_tasks (self_tasks : tasks_arg) : result (list Task) :=
  match self_tasks with
  | NotAList => Raise (ValueError "tasks must be a list of Task objects")
  | TaskList l =>
      if negb (length l =? 1)%nat
      then Raise (ValueError "Planning only supports one task")
      else
        task ← getitem l 0;
        match agents task with
        | None => Raise (ValueError "Task must have at least one agent")
        | Some roster =>
            if (length roster <? 1)%nat
            then Raise (ValueError "Task must have at least one agent")
            else Ok l
        end
  end.

(** Lines 28-34. *)
Definition __init__ (tasks : tasks_arg) (llm : string) : M NewPlanningWorkflow :=
  l ← lift (_verify_tasks tasks);
  mret (mkWorkflow l [] 10 llm 5).

(** *** Plan generation *)

Definition task_pattern : matcher := section_pattern "Task".
Definition agent_pattern : matcher := section_pattern "Agent".
Definition dependency_pattern : matcher := section_pattern "Dependency".
Definition output_pattern : matcher := section_pattern "ExpectedOutput".

(** The objects built so far, and the list [planned_tasks] of references to
    them. *)
Record store : Type := mkStore {
  heap : list Task;
  planned_tasks : list ref
}.

Definition empty_store : store := {| heap := []; planned_tasks := [] |}.

(** The task object that position [i] of [planned_tasks] refers to. *)
Definition task_at (st : store) (i : nat) : option Task :=
  r ← planned_tasks st !! i; heap st !! r.

(** Lines 155-161: the first roster agent of that name, else
    [task.agents[0]]. *)
Definition select_agent (roster : list Agent) (agent_name : string) : result Agent :=
  match List.find (fun agent => String.eqb (name agent) agent_name) roster with
  | Some agent => Ok agent
  | None => getitem roster 0
  end.

(** Lines 164-165: the integers of the [#S(\d+)] tokens, in order.  The
    tokens are all found before the first one is converted, and [int]
    raises on a token of too many digits. *)
Definition numbers (dependency : string) : result (list Z) :=
  mapM int (findall step_ref_pattern dependency).

(** Lines 163-168.  The tokens are all converted before the first one is
    looked up. *)
Definition build_context (planned_tasks : list ref) (dependency : string)
  : result (list ref) :=
  if negb (String.eqb dependency "None") then
    ns ← numbers dependency;
    mapM (fun i => getitem planned_tasks (i - 1)%Z) ns
  else Ok [].

(** Lines 146-153: the dependency text and the expected output of step
    [i], with their defaults when the section is too short. *)
Definition dependency_at (dependencies : list string) (i : nat) : string :=
  default "None" (dependencies !! i).

Definition output_at (outputs : list string) (i : nat) : string :=
  default "" (outputs !! i).

Section Loop.

Context (roster : list Agent).
Context (tasks agents dependencies outputs : list string).

(** Lines 145-176: one turn of the loop after the [break] test. *)
Definition body (i : nat) (task_description : string) (st : store) : result store :=
  agent_name ← getitem agents (Z.of_nat i);
  dependency ←
    (if (i <? length dependencies)%nat then getitem dependencies (Z.of_nat i)
     else Ok "None");
  expected_output ←
    (if (i <? length outputs)%nat then getitem outputs (Z.of_nat i)
     else Ok "");
  selected_agent ← select_agent roster agent_name;
  context ← build_context (planned_tasks st) dependency;
  let a_task := mkTask task_description expected_output
                       (Some [selected_agent]) context in
  Ok {| heap := heap st ++ [a_task];
        planned_tasks := planned_tasks st ++ [length (heap st)] |}.

(** Lines 141-176: [for i in range(len(tasks))], leaving at
    [i == len(agents)]. *)
Fixpoint loop (range : list nat) (st : store) : result store :=
  match range with
  | [] => Ok st
  | i :: range' =>
      task_description ← getitem tasks (Z.of_nat i);
      if (i =? length agents)%nat then Ok st
      else st' ← body i task_description st; loop range' st'
  end.

(** Lines 140-176. *)
Definition build_planned_tasks : result store :=
  loop (seq 0 (length tasks)) empty_store.

(** The stores the loop passes through: [built i st] when [st] is the
    store after the turns [0 .. i-1] all went through. *)
Inductive built : nat -> store -> Prop :=
| built_O : built 0 empty_store
| built_S i d st st' :
    built i st ->
    tasks !! i = Some d ->
    i < length agents ->
    body i d st = Ok st' ->
    built (S i) st'.

End Loop.

(** The first [i] turns of the loop, for [i] no more than the tasks and
    the agents: the store they leave, or what one of them raises. *)
Definition first_turns (roster : list Agent)
    (tasks agents dependencies outputs : list string) (i : nat) : result store :=
  loop roster tasks agents dependencies outputs (seq 0 i) empty_store.

(** What the loop can raise: [IndexError], for a number that is no position
    of the sub-tasks built so far or for a roster without agent, and the
    [ValueError] of [int] for a token of more than 4300 digits. *)
Inductive plan_error : exn -> Prop :=
| out_of_range : plan_error IndexError
| too_many_digits (k : nat) :
    int_max_str_digits < k -> plan_error (ValueError (exceeds_limit k)).

(** Every token [#S<n>] of every dependency text is one that [int] reads,
    of 4300 digits at most, and names an earlier step: [1 <= n <= i] on the
    text at index [i], where [i] sub-tasks are built when the step runs.
    The first text of [dependencies] has index [i]. *)
Fixpoint refs_in_range_from (i : nat) (dependencies : list string) : bool :=
  match dependencies with
  | [] => true
  | dependency :: rest =>
      match numbers dependency with
      | Ok ns => forallb (fun n => (1 <=? n)%Z && (n <=? Z.of_nat i)%Z) ns
      | Raise _ => false
      end
      && refs_in_range_from (S i) rest
  end.

Definition refs_in_range (dependencies : list string) : bool :=
  refs_in_range_from 0 dependencies.

(** *** A reply with matched sections

    The format the prompt requires of the model (lines 208-219): every line
    that is not blank is a [#Task], [#Agent], [#Dependency] or
    [#ExpectedOutput] line, and the four sections have the same number of
    entries.  These predicates describe replies; the workflow does not
    compute them. *)

Fixpoint lines (s : string) : list string :=
  match s with
  | EmptyString => [EmptyString]
  | String c s' =>
      match lines s' with
      | l :: ls =>
          if Ascii.eqb c (ascii_of_nat 10) then EmptyString :: l :: ls
          else String c l :: ls
      | [] => [String c EmptyString]
      end
  end.

Definition section_line (l : string) : bool :=
  existsb (fun m : matcher => match m l with Some _ => true | None => false end)
    [task_pattern; agent_pattern; dependency_pattern; output_pattern].

Definition well_formed_reply (final_plan : string) : bool :=
  forallb (fun l => String.eqb l "" || section_line l) (lines final_plan)
  && (length (findall task_pattern final_plan)
      =? length (findall agent_pattern final_plan))%nat
  && (length (findall task_pattern final_plan)
      =? length (findall dependency_pattern final_plan))%nat
  && (length (findall task_pattern final_plan)
      =? length (findall output_pattern final_plan))%nat.

Section Workflow.

(** The model call, and the two pieces of prompt formatting (lines 56-112
    and 182-237), which only produce text. *)
Context (watsonx_llm : string -> string -> string).
Context (agent_descriptions : list Agent -> string).
Context (get_prompt : string -> string -> string).

Definition call_llm (prompt model_id : string) : M string := fun w =>
  (Ok (watsonx_llm prompt model_id), (w ++ [(prompt, model_id)])%list).

(** [enumerate(task.agents)]: iterating [None] is a [TypeError]. *)
Definition iter_agents (task : Task) : result (list Agent) :=
  match agents task with
  | Some roster => Ok roster
  | None => Raise TypeError
  end.

(** [generate_steps] with its default arguments ([save_plan=False], so
    that nothing is written to a file).  The result is the store with
    its list [planned_tasks]; logging and the reset of [self.memory] are
    left out. *)
Definition generate_steps (self : NewPlanningWorkflow) : M store :=
  task ← lift (getitem (Planner.tasks self) 0);
  roster ← lift (iter_agents task);
  let prompt := get_prompt (description task) (agent_descriptions roster) in
  llm_response ← call_llm prompt (llm self);
  let final_plan := llm_response in
  let tasks := findall task_pattern final_plan in
  let agents := findall agent_pattern final_plan in
  let dependencies := findall dependency_pattern final_plan in
  let outputs := findall output_pattern final_plan in
  lift (build_planned_tasks roster tasks agents dependencies outputs).

End Workflow.

End Planner.

(** ** The scenario validator

    [assetopsbench/core/validator.py] is imported by the tests but is not
    among the sources: the definitions of this module follow section 4.2 of
    the specification. *)

Module Validator.

(** Modelled from the spec: the values of the fields of a scenario record,
    as read from a JSON or JSONL file; the validator and its record type
    are not among the sources. *)
Inductive json : Type :=
| JNull
| JBool (b : bool)
| JInt (z : Z)
| JStr (s : string)
| JList (l : list json)
| JDict (d : gmap string json).

(** Modelled from the spec: the declared shapes of the fields (string,
    boolean, string or null, mapping); the validator's schema is not among
    the sources. *)
Inductive shape : Type :=
| SString
| SBoolean
| SStringOrNull
| SMapping.

(** Modelled from the spec: whether a value has a declared shape; the
    validator's schema is not among the sources. *)
Definition has_shape (sh : shape) (v : json) : bool :=
  match sh, v with
  | SString, JStr _ => true
  | SBoolean, JBool _ => true
  | SStringOrNull, (JStr _ | JNull) => true
  | SMapping, JDict _ => true
  | _, _ => false
  end.

(** Modelled from the spec: the wording of a shape in an error string,
    which the specification leaves open; the validator's messages are not
    among the sources. *)
Definition shape_name (sh : shape) : string :=
  match sh with
  | SString => "a string"
  | SBoolean => "a boolean"
  | SStringOrNull => "a string or null"
  | SMapping => "a mapping"
  end.

(** Modelled from the spec: the optional fields of a scenario record and
    their declared shapes (sections 4.2 and 9); the validator's schema is
    not among the sources. *)
Definition optional_fields : list (string * shape) :=
  [("type", SString); ("category", SString); ("deterministic", SBoolean);
   ("characteristic_form", SStringOrNull); ("expected_result", SMapping);
   ("data", SMapping); ("source", SString)].

(** Modelled from the spec: an integer [id] is coerced to its string form,
    any other value passes through; the validator is not among the
    sources. *)
Definition coerce_id (v : json) : json :=
  match v with
  | JInt z => JStr (pretty z)
  | _ => v
  end.

(** Modelled from the spec: [validate(record)], the list of error strings
    of a scenario record, empty on success.  [id] and [text] are required,
    [id] string-coercible and [text] a string; an optional field that is
    present must have its declared shape, a mismatch giving one error that
    names the field; other fields are ignored.  The validator is not among
    the sources. *)
Definition validate_scenario (record : gmap string json) : list string :=
  let id_errors :=
    match coerce_id <$> record !! "id" with
    | None => ["id: field required"]
    | Some v => if has_shape SString v then [] else ["id: expected a string"]
    end in
  let text_errors :=
    match record !! "text" with
    | None => ["text: field required"]
    | Some v => if has_shape SString v then [] else ["text: expected a string"]
    end in
  let optional_errors :=
    flat_map (fun '(field, sh) =>
                match record !! field with
                | None => []
                | Some v =>
                    if has_shape sh v then []
                    else [field +:+ ": expected " +:+ shape_name sh]
                end) optional_fields in
  (id_errors ++ text_errors ++ optional_errors)%list.

(** Modelled from the spec: an error message references a field when the
    name of the field occurs in it, as the test of the missing text field
    looks for it; the validator's messages are not among the sources. *)
Definition mentions (field message : string) : bool :=
  match String.index 0 field message with
  | Some _ => true
  | None => false
  end.

(** *** Scanning a directory *)

(** Modelled from the spec: a directory entry, a file or a sub-directory
    with its entries; the directory helper is not among the sources. *)
Inductive entry : Type :=
| File (name : string)
| Dir (name : string) (entries : list entry).

(** Modelled from the spec: the extension of a file name, its end from the
    last dot on, empty when the name has no dot; the directory helper is
    not among the sources. *)
Fixpoint extension (name : string) : string :=
  match name with
  | EmptyString => EmptyString
  | String c rest =>
      match extension rest with
      | EmptyString => if Ascii.eqb c "." then name else EmptyString
      | ext => ext
      end
  end.

(** Modelled from the spec: a data file has a .json or a .jsonl extension;
    the directory helper is not among the sources. *)
Definition is_data_file (name : string) : bool :=
  String.eqb (extension name) ".json" || String.eqb (extension name) ".jsonl".

(** Modelled from the spec: the data files below one entry, looking into
    sub-directories when the scan is recursive; the directory helper is not
    among the sources.  Paths are relative to the directory scanned. *)
Fixpoint find_in (recursive : bool) (parent : string) (e : entry) : list string :=
  match e with
  | File name => if is_data_file name then [parent +:+ name] else []
  | Dir name entries =>
      if recursive
      then flat_map (find_in recursive (parent +:+ name +:+ "/")) entries
      else []
  end.

(** Modelled from the spec: [find_json_files], which enumerates the files
    of a directory with a .json or .jsonl extension, in the directory
    itself only or in its sub-directories too, as configured; the helper is
    not among the sources. *)
Definition find_json_files (directory : list entry) (recursive : bool) : list string :=
  flat_map (find_in recursive "") directory.

End Validator.

(** ** Sample inputs *)

Module Examples.
Import Planner Validator.

Definition nl : string := String (ascii_of_nat 10) EmptyString.

Definition iot : Agent := mkAgent "IoT" "sites, assets and sensor data".

(** An input task with exactly one agent. *)
Definition goal : Task := mkTask "List the sensors of Chiller 6" "" (Some [iot]) [].

Definition workflow : NewPlanningWorkflow := mkWorkflow [goal] [] 10 "llama" 5.

(** A model that answers [reply] whatever it is asked, and prompt
    formatting that keeps the goal text only. *)
Definition answering (reply : string) : string -> string -> string :=
  fun _ _ => reply.
Definition no_descriptions : list Agent -> string := fun _ => EmptyString.
Definition goal_prompt : string -> string -> string := fun d _ => d.

Definition generate (reply : string) (self : NewPlanningWorkflow) : result store * calls :=
  generate_steps (answering reply) no_descriptions goal_prompt self [].

(** Two matched steps, the second one depending on the first. *)
Definition reply_two_steps : string :=
  "#Task1: find the sensors" +:+ nl +:+
  "#Agent1: IoT" +:+ nl +:+
  "#Dependency1: None" +:+ nl +:+
  "#ExpectedOutput1: sensor list" +:+ nl +:+ nl +:+
  "#Task2: rank the sensors" +:+ nl +:+
  "#Agent2: Planner" +:+ nl +:+
  "#Dependency2: #S1" +:+ nl +:+
  "#ExpectedOutput2: ranking".

(** Matched sections, but the first step refers to itself. *)
Definition reply_self_reference : string :=
  "#Task1: find the sensors" +:+ nl +:+
  "#Agent1: IoT" +:+ nl +:+
  "#Dependency1: #S1" +:+ nl +:+
  "#ExpectedOutput1: sensor list".

(** Two steps, the second one with the token [#S0]. *)
Definition reply_S0 : string :=
  "#Task1: find the sensors" +:+ nl +:+
  "#Agent1: IoT" +:+ nl +:+
  "#Dependency1: None" +:+ nl +:+
  "#ExpectedOutput1: sensor list" +:+ nl +:+
  "#Task2: rank the sensors" +:+ nl +:+
  "#Agent2: IoT" +:+ nl +:+
  "#Dependency2: #S0" +:+ nl +:+
  "#ExpectedOutput2: ranking".

(** The token [#S0] on the first step. *)
Definition reply_S0_first : string :=
  "#Task1: find the sensors" +:+ nl +:+
  "#Agent1: IoT" +:+ nl +:+
  "#Dependency1: #S0" +:+ nl +:+
  "#ExpectedOutput1: sensor list".

(** Two tasks and two agents, one dependency line and no expected output. *)
Definition reply_short_sections : string :=
  "#Task1: find the sensors" +:+ nl +:+
  "#Agent1: IoT" +:+ nl +:+
  "#Dependency1: None" +:+ nl +:+
  "#Task2: rank the sensors" +:+ nl +:+
  "#Agent2: IoT".

(** Two tasks and one agent. *)
Definition reply_short_agents : string :=
  "#Task1: find the sensors" +:+ nl +:+
  "#Agent1: IoT" +:+ nl +:+
  "#Task2: rank the sensors".

(** A reply that is not of the asked shape: no dependency and no expected
    output line, and a line of free text. *)
Definition reply_partial : string :=
  "Here is my plan." +:+ nl +:+
  "#Task1: find the sensors" +:+ nl +:+
  "#Agent1: IoT".

Definition plan_two_steps : store :=
  mkStore
    [mkTask "find the sensors" "sensor list" (Some [iot]) [];
     mkTask "rank the sensors" "ranking" (Some [iot]) [0]]
    [0; 1].

Definition plan_S0 : store :=
  mkStore
    [mkTask "find the sensors" "sensor list" (Some [iot]) [];
     mkTask "rank the sensors" "ranking" (Some [iot]) [0]]
    [0; 1].

Definition plan_short_sections : store :=
  mkStore
    [mkTask "find the sensors" "" (Some [iot]) [];
     mkTask "rank the sensors" "" (Some [iot]) []]
    [0; 1].

(** Three steps, the third one depending on the second and on the first. *)
Definition reply_three_steps : string :=
  "#Task1: find the sensors" +:+ nl +:+
  "#Agent1: IoT" +:+ nl +:+
  "#Dependency1: None" +:+ nl +:+
  "#ExpectedOutput1: sensor list" +:+ nl +:+ nl +:+
  "#Task2: download the readings" +:+ nl +:+
  "#Agent2: IoT" +:+ nl +:+
  "#Dependency2: #S1" +:+ nl +:+
  "#ExpectedOutput2: readings" +:+ nl +:+ nl +:+
  "#Task3: rank the sensors" +:+ nl +:+
  "#Agent3: IoT" +:+ nl +:+
  "#Dependency3: #S2 and #S1" +:+ nl +:+
  "#ExpectedOutput3: ranking".

Definition plan_three_steps : store :=
  mkStore
    [mkTask "find the sensors" "sensor list" (Some [iot]) [];
     mkTask "download the readings" "readings" (Some [iot]) [0];
     mkTask "rank the sensors" "ranking" (Some [iot]) [1; 0]]
    [0; 1; 2].

(** The second step refers to a third one. *)
Definition reply_forward_reference : string :=
  "#Task1: find the sensors" +:+ nl +:+
  "#Agent1: IoT" +:+ nl +:+
  "#Dependency1: None" +:+ nl +:+
  "#ExpectedOutput1: sensor list" +:+ nl +:+
  "#Task2: rank the sensors" +:+ nl +:+
  "#Agent2: IoT" +:+ nl +:+
  "#Dependency2: #S3" +:+ nl +:+
  "#ExpectedOutput2: ranking".

(** The plan of [reply_short_agents], two tasks and one agent. *)
Definition plan_first_agent : store :=
  mkStore [mkTask "find the sensors" "" (Some [iot]) []] [0].

(** The store after the first step of the replies above. *)
Definition plan_first_step : store :=
  mkStore [mkTask "find the sensors" "sensor list" (Some [iot]) []] [0].

(** A token written twice, and a dependency text without token that is
    not None. *)
Definition reply_repeated : string :=
  "#Task1: find the sensors" +:+ nl +:+
  "#Agent1: IoT" +:+ nl +:+
  "#Dependency1: nothing yet" +:+ nl +:+
  "#ExpectedOutput1: sensor list" +:+ nl +:+
  "#Task2: rank the sensors" +:+ nl +:+
  "#Agent2: IoT" +:+ nl +:+
  "#Dependency2: #S1, then #S1 again" +:+ nl +:+
  "#ExpectedOutput2: ranking".

Definition plan_repeated : store :=
  mkStore
    [mkTask "find the sensors" "sensor list" (Some [iot]) [];
     mkTask "rank the sensors" "ranking" (Some [iot]) [0; 0]]
    [0; 1].

(** Two tasks, one agent, and one dependency line, which is read for the
    first step although written for the second. *)
Definition reply_dangling : string :=
  "#Task1: find the sensors" +:+ nl +:+
  "#Agent1: IoT" +:+ nl +:+
  "#Task2: rank the sensors" +:+ nl +:+
  "#Dependency2: #S1".

Fixpoint zeros (n : nat) : string :=
  match n with
  | O => EmptyString
  | S k => String "0" (zeros k)
  end.

(** The number 1 written with 4301 digits, and the number [10 ^ 4300],
    which takes 4301 digits. *)
Definition long_one : string := zeros 4300 +:+ "1".
Definition long_power : string := "1" +:+ zeros 4300.

(** The second step refers to the first one with 4301 digits. *)
Definition reply_long_reference : string :=
  "#Task1: find the sensors" +:+ nl +:+
  "#Agent1: IoT" +:+ nl +:+
  "#Dependency1: None" +:+ nl +:+
  "#ExpectedOutput1: sensor list" +:+ nl +:+
  "#Task2: rank the sensors" +:+ nl +:+
  "#Agent2: IoT" +:+ nl +:+
  "#Dependency2: #S" +:+ long_one +:+ nl +:+
  "#ExpectedOutput2: ranking".

(** The first step refers to the step [10 ^ 4300]. *)
Definition reply_long_first : string :=
  "#Task1: find the sensors" +:+ nl +:+
  "#Agent1: IoT" +:+ nl +:+
  "#Dependency1: #S" +:+ long_power +:+ nl +:+
  "#ExpectedOutput1: sensor list".

(** The digit one of the fullwidth forms, U+FF11, in UTF-8. *)
Definition fullwidth_one : string :=
  String (ascii_of_nat 239) (String (ascii_of_nat 188)
    (String (ascii_of_nat 145) EmptyString)).

(** The second step refers to the first one with a fullwidth digit. *)
Definition reply_fullwidth : string :=
  "#Task1: find the sensors" +:+ nl +:+
  "#Agent1: IoT" +:+ nl +:+
  "#Dependency1: None" +:+ nl +:+
  "#ExpectedOutput1: sensor list" +:+ nl +:+
  "#Task2: rank the sensors" +:+ nl +:+
  "#Agent2: IoT" +:+ nl +:+
  "#Dependency2: #S" +:+ fullwidth_one +:+ nl +:+
  "#ExpectedOutput2: ranking".

(** A disk on which every file can be written, and one on which none
    can. *)
Definition disk_write (name text : string) (fs : gmap string string)
  : result unit * gmap string string :=
  (Ok tt, <[name := text]> fs).

Definition disk_refusing (name text : string) (fs : gmap string string)
  : result unit * gmap string string :=
  (Raise (OSError "No such file or directory"), fs).

Definition one_call : calls := [("List the sensors of Chiller 6", "llama")].

(** Scenario records. *)
Definition scenario_113 : gmap string json :=
  <["id" := JStr "113"]>
    (<["text" := JStr "Which sensor is most relevant for Chiller 6?"]> ∅).

Definition scenario_999 : gmap string json := <["id" := JStr "999"]> ∅.

(** The directory of the test. *)
Definition test_directory : list entry :=
  [File "test.json"; File "test.jsonl"; File "test.txt"; File "test.py"].

End Examples.

(** ** Words for statements about text *)

Module Text.

Definition LF : string := String (ascii_of_nat 10) EmptyString.

(** Every character of [s] is of the class [cls]. *)
Fixpoint all_of (cls : ascii -> bool) (s : string) : bool :=
  match s with
  | EmptyString => true
  | String c s' => cls c && all_of cls s'
  end.

(** A text without line feed: one line. *)
Definition one_line (s : string) : bool := all_of is_dot s.

(** A text of decimal digits. *)
Definition digits (s : string) : bool := all_of is_digit s.

(** The values of the characters of a text of ASCII digits. *)
Fixpoint digit_values (s : string) : list Z :=
  match s with
  | EmptyString => []
  | String c s' => digit_value c :: digit_values s'
  end.

(** Lines put together again, a line feed between two of them. *)
Fixpoint unlines (ls : list string) : string :=
  match ls with
  | [] => EmptyString
  | l :: ls' =>
      match ls' with
      | [] => l
      | _ :: _ => l +:+ LF +:+ unlines ls'
      end
  end.

(** *** Dependency lines as they are written

    The prompt asks for references of the form [#S1], [#S2]: the mark [#S]
    and the number of a step in decimal.  These definitions describe such
    texts; the workflow does not compute them. *)

(** A text without the character [#]. *)
Definition no_hash (s : string) : bool :=
  all_of (fun c => negb (Ascii.eqb c "#"%char)) s.

(** A text that does not begin with a decimal digit, of whatever script. *)
Definition no_digit_first (s : string) : bool :=
  match decimal s with
  | Some _ => false
  | None => true
  end.

(** The token of the step [n]: [#S] and [n] in decimal, without sign and
    without leading zero. *)
Definition token (n : N) : string := "#S" +:+ pretty n.

(** Tokens in a row, each one with the text that follows it. *)
Fixpoint tokens_text (toks : list (N * string)) : string :=
  match toks with
  | [] => EmptyString
  | (n, sep) :: toks' => token n +:+ sep +:+ tokens_text toks'
  end.

(** A dependency text: a text [pre], then the tokens. *)
Definition dependency_text (pre : string) (toks : list (N * string)) : string :=
  pre +:+ tokens_text toks.

(** The texts between the tokens hold no [#], and none that follows a token
    begins with a digit, which would be read with the number. *)
Definition separated (pre : string) (toks : list (N * string)) : bool :=
  no_hash pre
  && forallb (fun tok : N * string => no_hash tok.2 && no_digit_first tok.2) toks.

(** The numbers of the tokens. *)
Definition token_numbers (toks : list (N * string)) : list Z :=
  (fun tok : N * string => Z.of_N tok.1) <$> toks.

(** Every token is written with at most [k] digits. *)
Definition digits_at_most (k : nat) (toks : list (N * string)) : bool :=
  forallb (fun tok : N * string => (String.length (pretty tok.1) <=? k)%nat) toks.

End Text.

(** ** Saving the plan

    [generate_steps(save_plan, saved_plan_filename)] with its two
    arguments: lines 132-138 write the goal and the reply of the model to a
    text file before the sub-tasks are built. *)

Module PlanFile.
Import Planner.

(** [s.endswith(suffix)]: some tail of [s] is [suffix]. *)
Fixpoint endswith (s suffix : string) : bool :=
  String.eqb s suffix
  || match s with
     | EmptyString => false
     | String _ s' => endswith s' suffix
     end.

(** Lines 133-134: the name of the file that is written. *)
Definition saved_plan_path (saved_plan_filename : string) : string :=
  if negb (endswith saved_plan_filename ".txt")
  then saved_plan_filename +:+ ".txt"
  else saved_plan_filename.

(** Line 136. *)
Definition saved_plan_text (task_description final_plan : string) : string :=
  "Question: " +:+ task_description +:+ Text.LF +:+ "Plan:" +:+ Text.LF
  +:+ final_plan.

(** The files, by name, with their contents. *)
Definition files : Type := gmap string string.

(** A name that holds the character NUL. *)
Definition has_nul (name : string) : bool :=
  negb (Text.all_of (fun c => negb (Ascii.eqb c (ascii_of_nat 0))) name).

Section Workflow.

Context (watsonx_llm : string -> string -> string).
Context (agent_descriptions : list Agent -> string).
Context (get_prompt : string -> string -> string).

(** What the operating system makes of [open(name, "w")], of
    [f.write(text)] and of the closing of the file: it may refuse (a
    directory that does not exist, a right that is missing, a text that the
    encoding of the file cannot hold), and the files are afterwards what it
    has made of them. *)
Context (os_write : string -> string -> files -> result unit * files).

(** Lines 137-138.  [open] refuses a name with the character NUL before the
    operating system is asked. *)
Definition write_plan (name text : string) (fs : files) : result unit * files :=
  if has_nul name then (Raise (ValueError "embedded null byte"), fs)
  else os_write name text fs.

(** [generate_steps], lines 54-180, with both arguments; the effects are
    the calls made to the model and the files written.  The file is
    written before the first sub-task is built, and an exception of the
    writing ends the method. *)
Definition generate_steps_saving (save_plan : bool) (saved_plan_filename : string)
    (self : NewPlanningWorkflow) (w : calls) (fs : files)
  : result store * calls * files :=
  match getitem (Planner.tasks self) 0 with
  | Raise e => (Raise e, w, fs)
  | Ok task =>
      match iter_agents task with
      | Raise e => (Raise e, w, fs)
      | Ok roster =>
          let prompt := get_prompt (description task) (agent_descriptions roster) in
          let llm_response := watsonx_llm prompt (llm self) in
          let w' := (w ++ [(prompt, llm self)])%list in
          let final_plan := llm_response in
          let tasks := findall task_pattern final_plan in
          let agents := findall agent_pattern final_plan in
          let dependencies := findall dependency_pattern final_plan in
          let outputs := findall output_pattern final_plan in
          let saved :=
            if save_plan
            then write_plan (saved_plan_path saved_plan_filename)
                   (saved_plan_text (description task) final_plan) fs
            else (Ok tt, fs) in
          match saved with
          | (Raise e, fs') => (Raise e, w', fs')
          | (Ok _, fs') =>
              (build_planned_tasks roster tasks agents dependencies outputs,
               w', fs')
          end
      end
  end.

End Workflow.

End PlanFile.

(** ** The test runner

    [tests/run_all_tests.py].  What a run of a suite gives is the
    [TestResult] of [unittest], and the test modules are taken to import;
    the summary printed is left out, but for the success rate, whose
    division decides whether the function returns. *)

Module TestRunner.

(** The fields of [unittest.TestResult] the runner reads, and the answer of
    its method [wasSuccessful]. *)
Record TestResult : Type := mkTestResult {
  testsRun : nat;
  failures : list (string * string);
  errors : list (string * string);
  skipped : list (string * string);
  wasSuccessful : bool
}.

Inductive raised : Type := ZeroDivisionError.

Inductive outcome (A : Type) : Type :=
| Returned (a : A)
| Raised (e : raised).
Arguments Returned {A} a.
Arguments Raised {A} e.

(** [a / b] on integers: the quotient as a rational, [ZeroDivisionError]
    for a zero divisor. *)
Definition truediv (a b : Z) : outcome QArith_base.Q :=
  if (b =? 0)%Z then Raised ZeroDivisionError
  else Returned (QArith_base.Qdiv (QArith_base.inject_Z a) (QArith_base.inject_Z b)).

(** The suites the script can run: all that [discover] finds, or one of the
    two it knows by name. *)
Inductive suite : Type :=
| Discovered
| ScenarioValidation
| RealScenarios.

Section Runner.

(** [unittest.TextTestRunner(verbosity=2).run(suite)] *)
Context (run : suite -> TestResult).

(** Lines 19-71. *)
Definition run_all_tests : outcome bool :=
  let result := run Discovered in
  match truediv (Z.of_nat (testsRun result)
                 - Z.of_nat (length (failures result))
                 - Z.of_nat (length (errors result)))
                (Z.of_nat (testsRun result)) with
  | Raised e => Raised e
  | Returned _success_rate =>
      if wasSuccessful result then Returned true else Returned false
  end.

(** Lines 74-95. *)
Definition run_specific_test_suite (test_name : string) : outcome bool :=
  if String.eqb test_name "scenario_validation"
  then Returned (wasSuccessful (run ScenarioValidation))
  else if String.eqb test_name "real_scenarios"
  then Returned (wasSuccessful (run RealScenarios))
  else Returned false.

(** Lines 98-107: the exit status of the script for [sys.argv]; an
    exception that nothing catches ends the interpreter with status 1. *)
Definition main (argv : list string) : Z :=
  let success :=
    if (1 <? length argv)%nat
    then match argv !! 1 with
         | Some test_suite => run_specific_test_suite test_suite
         | None => Returned false
         end
    else run_all_tests in
  match success with
  | Returned true => 0
  | Returned false => 1
  | Raised _ => 1
  end%Z.

End Runner.

End TestRunner.

(** ** Facts about the runtime model *)

Module PyFacts.

Lemma bind_Ok_inv {A B} (m : result A) (f : A -> result B) (b : B) :
  m ≫= f = Ok b -> exists a, m = Ok a /\ f a = Ok b.
Proof. destruct m as [a|e]; simpl; [eauto | discriminate]. Qed.

Ltac zcases :=
  cbv zeta;
  repeat match goal with
    | |- context [(?a <? ?b)%Z] => destruct (Z.ltb_spec a b)
    | |- context [(?a <=? ?b)%Z] => destruct (Z.leb_spec a b)
    end;
  simpl; try done; try lia.

Lemma getitem_nat_Ok {A} (l : list A) (i : nat) (x : A) :
  getitem l (Z.of_nat i) = Ok x <-> l !! i = Some x.
Proof.
  unfold getitem. zcases.
  - split; [discriminate|]. intros Hl%lookup_lt_Some. lia.
  - rewrite Nat2Z.id. destruct (l !! i) eqn:E; split; congruence.
Qed.

Lemma getitem_nat {A} (l : list A) (i : nat) :
  getitem l (Z.of_nat i) = match l !! i with
                           | Some x => Ok x
                           | None => Raise IndexError
                           end.
Proof.
  destruct (l !! i) as [x|] eqn:Hi; [by apply getitem_nat_Ok|].
  apply lookup_ge_None in Hi. unfold getitem. zcases.
Qed.

Lemma getitem_nat_lt {A} (l : list A) (i : nat) :
  i < length l -> exists x, l !! i = Some x /\ getitem l (Z.of_nat i) = Ok x.
Proof.
  intros [x Hx]%lookup_lt_is_Some. exists x. split; [done|].
  by apply getitem_nat_Ok.
Qed.

Lemma getitem_raise {A} (l : list A) (i : Z) (e : exn) :
  getitem l i = Raise e -> e = IndexError.
Proof.
  unfold getitem. repeat case_match; congruence.
Qed.

Lemma getitem_Ok_elem {A} (l : list A) (i : Z) (x : A) :
  getitem l i = Ok x -> x ∈ l.
Proof.
  unfold getitem. repeat case_match; try discriminate.
  all: intros [= <-]; eapply list_elem_of_lookup_2; eassumption.
Qed.

Lemma getitem_in_range {A} (l : list A) (i : Z) :
  (- Z.of_nat (length l) <= i < Z.of_nat (length l))%Z ->
  exists x, getitem l i = Ok x.
Proof.
  intros Hi. unfold getitem. zcases.
  - destruct (lookup_lt_is_Some_2 l (Z.to_nat (i + Z.of_nat (length l))))
      as [x ->]; [lia|by eauto].
  - destruct (lookup_lt_is_Some_2 l (Z.to_nat i)) as [x ->]; [lia|by eauto].
Qed.

(** A 1-based position [n] read through [l[n - 1]]. *)
Lemma getitem_pred_Ok {A} (l : list A) (n : Z) :
  (1 <= n <= Z.of_nat (length l))%Z ->
  exists x, l !! Z.to_nat (n - 1) = Some x /\ getitem l (n - 1) = Ok x.
Proof.
  intros Hn.
  destruct (getitem_nat_lt l (Z.to_nat (n - 1))) as (x & Hx & Hg); [lia|].
  exists x. split; [done|]. by rewrite Z2Nat.id in Hg by lia.
Qed.

Lemma getitem_pred_big {A} (l : list A) (n : Z) :
  (Z.of_nat (length l) < n)%Z -> getitem l (n - 1) = Raise IndexError.
Proof. intros Hn. unfold getitem. zcases. Qed.

(** Position [0 - 1]: the last element, or [IndexError] on the empty list. *)
Lemma getitem_minus_one {A} (l : list A) :
  getitem l (0 - 1) = match last l with
                      | Some x => Ok x
                      | None => Raise IndexError
                      end.
Proof.
  destruct l as [|a l' _] using rev_ind; [done|].
  rewrite last_snoc. unfold getitem. rewrite length_app. simpl length.
  zcases.
  replace (Z.to_nat (0 - 1 + Z.of_nat (length l' + 1))) with (length l') by lia.
  by rewrite list_lookup_middle.
Qed.

Lemma find_Some_first {A} (f : A -> bool) (l : list A) (a : A) :
  List.find f l = Some a ->
  f a = true /\
  exists k, l !! k = Some a /\
            forall k' b, k' < k -> l !! k' = Some b -> f b = false.
Proof.
  induction l as [|x l IH]; simpl; [discriminate|].
  destruct (f x) eqn:Hx.
  - intros [= <-]. split; [done|]. exists 0. split; [done|]. intros; lia.
  - intros (Ha & k & Hk & Hfirst)%IH. split; [done|].
    exists (S k). split; [done|].
    intros [|k'] b Hlt Hb; simpl in Hb; [by injection Hb as <-|].
    apply (Hfirst k'); [lia|done].
Qed.

Section MapM.
Context {A B : Type} (f : A -> result B).

Lemma mapM_Ok_inv (l : list A) (ys : list B) :
  mapM f l = Ok ys -> Forall2 (fun x y => f x = Ok y) l ys.
Proof.
  revert ys. induction l as [|x l IH]; intros ys; simpl.
  - intros [= <-]. constructor.
  - intros (y & Hy & H)%bind_Ok_inv.
    apply bind_Ok_inv in H as (k & Hk & [= <-]).
    constructor; auto.
Qed.

Lemma mapM_total (l : list A) :
  (forall x, x ∈ l -> exists y, f x = Ok y) -> exists ys, mapM f l = Ok ys.
Proof.
  induction l as [|x l IH]; intros Hl; simpl; [by eauto|].
  destruct (Hl x) as [y ->]; [by left|]. simpl.
  destruct IH as [ys ->]; [|by eauto].
  intros z Hz. apply Hl. by right.
Qed.

Lemma mapM_raise (l : list A) (e e0 : exn) :
  (forall x e', f x = Raise e' -> e' = e0) ->
  mapM f l = Raise e -> e = e0.
Proof.
  intros Hf. induction l as [|x l IH]; simpl; [discriminate|].
  destruct (f x) as [y|e'] eqn:Hx; simpl.
  - destruct (mapM f l) as [k|e'']; simpl; [discriminate|].
    intros [= <-]. by apply IH.
  - intros [= <-]. eauto.
Qed.

Lemma mapM_Ok_intro (l : list A) (ys : list B) :
  Forall2 (fun x y => f x = Ok y) l ys -> mapM f l = Ok ys.
Proof.
  induction 1 as [|x y l ys Hy _ IH]; simpl; [done|].
  rewrite Hy. simpl. by rewrite IH.
Qed.

(** The exception of a conversion is that of the first call that raises,
    the calls before it having returned. *)
Lemma mapM_raise_inv (l : list A) (e : exn) :
  mapM f l = Raise e ->
  exists (k : nat) (x : A),
    l !! k = Some x /\ f x = Raise e /\
    (forall (j : nat) (z : A), j < k -> l !! j = Some z -> exists y, f z = Ok y).
Proof.
  induction l as [|x l IH]; simpl; [discriminate|].
  destruct (f x) as [y|e'] eqn:Hx; simpl.
  - destruct (mapM f l) as [ys|e''] eqn:Hl; simpl; [discriminate|].
    intros [= <-]. destruct (IH eq_refl) as (k & z & Hk & Hz & Hbefore).
    exists (S k), z. split; [done|]. split; [done|].
    intros [|j] z' Hj Hz'; simpl in Hz'.
    + injection Hz' as <-. by eauto.
    + apply (Hbefore j); [lia|done].
  - intros [= <-]. exists 0, x. split; [done|]. split; [done|]. intros; lia.
Qed.

Lemma mapM_length (l : list A) (ys : list B) :
  mapM f l = Ok ys -> length ys = length l.
Proof. intros HF%mapM_Ok_inv. symmetry. by eapply Forall2_length. Qed.

End MapM.

End PyFacts.

(** ** Facts about the extraction of the sections *)

Module TextFacts.
Import Text.

#[local] Arguments String.append : simpl nomatch.

Lemma append_empty_r (s : string) : s +:+ "" = s.
Proof. induction s as [|c s IH]; simpl; [done|by rewrite IH]. Qed.

Lemma append_assoc (a b c : string) : (a +:+ b) +:+ c = a +:+ (b +:+ c).
Proof. induction a as [|x a IH]; simpl; [done|by rewrite IH]. Qed.

Lemma length_append (a b : string) :
  String.length (a +:+ b) = String.length a + String.length b.
Proof. induction a as [|x a IH]; simpl; [done|by rewrite IH]. Qed.

Lemma all_of_append (cls : ascii -> bool) (a b : string) :
  all_of cls (a +:+ b) = all_of cls a && all_of cls b.
Proof.
  induction a as [|x a IH]; simpl; [done|].
  rewrite IH. by destruct (cls x).
Qed.

Lemma literal_Some (p s r : string) : literal p s = Some r -> s = p +:+ r.
Proof.
  revert s. induction p as [|a p IH]; intros s; simpl.
  - by intros [= ->].
  - destruct s as [|b s]; [discriminate|].
    destruct (Ascii.eqb_spec a b) as [->|_]; [|discriminate].
    intros ->%IH. done.
Qed.

Lemma literal_append (p r : string) : literal p (p +:+ r) = Some r.
Proof.
  induction p as [|a p IH]; simpl; [done|].
  by rewrite Ascii.eqb_refl.
Qed.

(** A literal that fits a text fits the text with more after it. *)
Lemma literal_more (p t r v : string) :
  literal p t = Some r -> literal p (t +:+ v) = Some (r +:+ v).
Proof.
  intros ->%literal_Some. by rewrite append_assoc, literal_append.
Qed.

(** A literal of one line that does not fit a text does not fit the text
    followed by a line feed either. *)
Lemma literal_line_feed (p t v : string) :
  one_line p = true -> literal p t = None -> literal p (t +:+ LF +:+ v) = None.
Proof.
  revert t. induction p as [|a p IH]; intros t Hp; simpl; [discriminate|].
  simpl in Hp. apply andb_true_iff in Hp as [Ha Hp].
  destruct t as [|b t]; simpl.
  - intros _. destruct (Ascii.eqb_spec a (ascii_of_nat 10)) as [->|_]; [|done].
    discriminate.
  - destruct (Ascii.eqb a b); [by apply IH|done].
Qed.

Lemma span_spec (cls : ascii -> bool) (s r rest : string) :
  span cls s = (r, rest) ->
  s = r +:+ rest /\ all_of cls r = true /\
  match rest with
  | EmptyString => True
  | String c _ => cls c = false
  end.
Proof.
  revert r rest. induction s as [|c s IH]; intros r rest; simpl.
  - by intros [= <- <-].
  - destruct (cls c) eqn:Hc.
    + destruct (span cls s) as [r' rest'] eqn:Hs. intros [= <- <-].
      destruct (IH r' rest' eq_refl) as (-> & Hr & Hrest).
      simpl. by rewrite Hc, Hr.
    + intros [= <- <-]. simpl. by rewrite Hc.
Qed.

(** A run followed by a character that is not of the class. *)
Lemma span_append (cls : ascii -> bool) (r v : string) :
  all_of cls r = true ->
  match v with
  | EmptyString => True
  | String c _ => cls c = false
  end ->
  span cls (r +:+ v) = (r, v).
Proof.
  intros Hr Hv. induction r as [|c r IH]; simpl.
  - destruct v as [|c v]; [done|]. simpl. by rewrite Hv.
  - simpl in Hr. apply andb_true_iff in Hr as [-> Hr]. by rewrite IH.
Qed.

Lemma span_more (cls : ascii -> bool) (t v : string) (c : ascii) :
  cls c = false ->
  span cls (t +:+ String c v)
  = (let '(r, u) := span cls t in (r, u +:+ String c v)).
Proof.
  intros Hc. destruct (span cls t) as [r u] eqn:Ht.
  apply span_spec in Ht as (-> & Hr & Hu).
  rewrite append_assoc. apply span_append; [done|].
  destruct u as [|x u]; simpl; done.
Qed.

(** *** Decoding a digit *)

Lemma continuations_Some (k : nat) (bits : Z) (s p rest : string) (cp : Z) :
  continuations k bits s = Some (cp, p, rest) ->
  s = p +:+ rest /\ String.length p = k /\
  forall u, continuations k bits (p +:+ u) = Some (cp, p, u).
Proof.
  revert bits s p rest. induction k as [|k IH]; intros bits s p rest; simpl.
  - intros [= <- <- <-]. done.
  - destruct s as [|c s']; [discriminate|].
    destruct (_ && _) eqn:Hc; [|discriminate].
    destruct (continuations k _ s') as [[[cp' p'] rest']|] eqn:Hk; [|discriminate].
    cbn [mbind option_bind]. intros [= <- <- <-].
    destruct (IH _ _ _ _ Hk) as (-> & Hlen & Hu).
    split; [done|]. split; [by rewrite <- Hlen|].
    intros u. simpl. by rewrite Hc, Hu.
Qed.

Lemma continuations_None_more (k : nat) (bits : Z) (s v : string) (c : ascii) :
  continuations k bits s = None -> (byte c < 128)%Z ->
  continuations k bits (s +:+ String c v) = None.
Proof.
  intros Hs Hc. revert bits s Hs.
  induction k as [|k IH]; intros bits s; simpl; [discriminate|].
  destruct s as [|c' s']; simpl.
  - intros _. destruct (Z.leb_spec 128 (byte c)); [lia|done].
  - destruct (_ && _); [|done].
    destruct (continuations k _ s') as [[[cp' p'] rest']|] eqn:Hk; [discriminate|].
    intros _. by rewrite IH.
Qed.

Lemma code_point_Some (s p rest : string) (cp : Z) :
  code_point s = Some (cp, p, rest) ->
  s = p +:+ rest /\ p <> "" /\
  forall u, code_point (p +:+ u) = Some (cp, p, u).
Proof.
  destruct s as [|c0 s1]; [discriminate|]. unfold code_point.
  destruct (byte c0 <? 128)%Z eqn:H0.
  - intros [= <- <- <-]. split; [done|]. split; [done|].
    intros u. simpl. by rewrite H0.
  - destruct (lead (byte c0)) as [[[k bits] lowest]|] eqn:Hl; [|discriminate].
    cbn [mbind option_bind].
    destruct (continuations k bits s1) as [[[cp' p'] rest']|] eqn:Hk; [|discriminate].
    cbn [mbind option_bind].
    destruct (scalar lowest cp') eqn:Hs; [|discriminate].
    intros [= <- <- <-].
    destruct (continuations_Some _ _ _ _ _ _ Hk) as (-> & _ & Hu).
    split; [done|]. split; [done|].
    intros u. simpl. rewrite H0, Hl. cbn [mbind option_bind].
    rewrite Hu. cbn [mbind option_bind]. by rewrite Hs.
Qed.

Lemma code_point_None_more (t v : string) (c : ascii) :
  code_point t = None -> t <> "" -> (byte c < 128)%Z ->
  code_point (t +:+ String c v) = None.
Proof.
  destruct t as [|c0 s1]; [done|]. intros Ht _ Hc. revert Ht.
  simpl. destruct (byte c0 <? 128)%Z; [discriminate|].
  destruct (lead (byte c0)) as [[[k bits] lowest]|]; [|done].
  cbn [mbind option_bind].
  destruct (continuations k bits s1) as [[[cp' p'] rest']|] eqn:Hk.
  - destruct (continuations_Some _ _ _ _ _ _ Hk) as (-> & _ & Hu).
    rewrite append_assoc, Hu. cbn [mbind option_bind].
    by destruct (scalar lowest cp').
  - intros _. by rewrite continuations_None_more.
Qed.

Lemma digit_of_range (zeros : list Z) (cp v : Z) :
  digit_of zeros cp = Some v -> (0 <= v <= 9)%Z.
Proof.
  induction zeros as [|z zeros IH]; simpl; [discriminate|].
  destruct (Z.leb_spec z cp), (Z.leb_spec cp (z + 9)); simpl; try done.
  intros [= <-]. lia.
Qed.

Lemma decimal_Some (s p rest : string) (v : Z) :
  decimal s = Some (v, p, rest) ->
  s = p +:+ rest /\ p <> "" /\ (0 <= v <= 9)%Z /\
  forall u, decimal (p +:+ u) = Some (v, p, u).
Proof.
  unfold decimal.
  destruct (code_point s) as [[[cp p'] rest']|] eqn:Hs; [|discriminate].
  cbn [mbind option_bind].
  destruct (digit_of decimal_zeros cp) as [v'|] eqn:Hv; [|discriminate].
  cbn [mbind option_bind]. intros [= <- <- <-].
  destruct (code_point_Some _ _ _ _ Hs) as (-> & Hne & Hu).
  split; [done|]. split; [done|]. split; [by eapply digit_of_range|].
  intros u. rewrite Hu. cbn [mbind option_bind]. by rewrite Hv.
Qed.

(** What comes after a digit has no say. *)
Lemma decimal_more (t u p rest : string) (v : Z) :
  decimal t = Some (v, p, rest) -> decimal (t +:+ u) = Some (v, p, rest +:+ u).
Proof.
  intros (-> & _ & _ & Hu)%decimal_Some. by rewrite append_assoc.
Qed.

(** A text that does not begin with a digit does not begin with one when
    an ASCII character that is no digit comes after it. *)
Lemma decimal_None_more (t v : string) (c : ascii) :
  decimal t = None -> (byte c < 128)%Z -> decimal (String c v) = None ->
  decimal (t +:+ String c v) = None.
Proof.
  intros Ht Hc Hv. destruct t as [|c0 t']; [done|].
  revert Ht. unfold decimal.
  destruct (code_point (String c0 t')) as [[[cp p] rest]|] eqn:Hcp.
  - destruct (code_point_Some _ _ _ _ Hcp) as (-> & _ & Hu).
    rewrite append_assoc, Hu. cbn [mbind option_bind].
    by destruct (digit_of decimal_zeros cp).
  - intros _. by rewrite code_point_None_more.
Qed.

Lemma digit_of_below (zeros : list Z) (bound cp : Z) :
  forallb (fun z => (bound <=? z)%Z) zeros = true -> (cp < bound)%Z ->
  digit_of zeros cp = None.
Proof.
  intros Hall Hcp. induction zeros as [|z zeros IH]; [done|].
  simpl in Hall. apply andb_true_iff in Hall as [Hz%Z.leb_le Hall].
  simpl. destruct (Z.leb_spec z cp); [lia|]. by apply IH.
Qed.

(** Of the ASCII characters the digits [0] to [9] alone are decimal
    digits. *)
Lemma digit_of_ascii (cp : Z) :
  (cp < 128)%Z ->
  digit_of decimal_zeros cp
  = if ((48 <=? cp) && (cp <=? 57))%Z then Some (cp - 48)%Z else None.
Proof.
  intros Hcp. change decimal_zeros with (48%Z :: List.tl decimal_zeros).
  cbn [digit_of]. change (48 + 9)%Z with 57%Z.
  destruct (_ && _); [done|].
  apply (digit_of_below _ 128); [|done]. vm_compute. reflexivity.
Qed.

Lemma decimal_ascii (c : ascii) (r : string) :
  is_digit c = true -> decimal (String c r) = Some (digit_value c, String c "", r).
Proof.
  unfold is_digit, decimal, code_point, digit_value.
  intros [H1%Nat.leb_le H2%Nat.leb_le]%andb_true_iff.
  assert (Hb : (byte c < 128)%Z) by (unfold byte; lia).
  destruct (Z.ltb_spec (byte c) 128) as [_|?]; [|lia].
  cbn [mbind option_bind]. rewrite digit_of_ascii by done.
  unfold byte in *.
  destruct (Z.leb_spec 48 (Z.of_nat (nat_of_ascii c))) as [_|?]; [|lia].
  destruct (Z.leb_spec (Z.of_nat (nat_of_ascii c)) 57) as [_|?]; [|lia].
  done.
Qed.

(** An ASCII character that is no digit is no digit of another script. *)
Lemma decimal_ascii_None (c : ascii) (r : string) :
  (byte c < 128)%Z -> is_digit c = false -> decimal (String c r) = None.
Proof.
  unfold is_digit, decimal, code_point. intros Hc Hd.
  destruct (Z.ltb_spec (byte c) 128) as [_|?]; [|lia].
  cbn [mbind option_bind]. rewrite digit_of_ascii by done.
  unfold byte in *.
  destruct (Z.leb_spec 48 (Z.of_nat (nat_of_ascii c))) as [H1|H1];
    destruct (Z.leb_spec (Z.of_nat (nat_of_ascii c)) 57) as [H2|H2];
    cbn [andb]; try done.
  apply andb_false_iff in Hd as [Hd%Nat.leb_gt|Hd%Nat.leb_gt]; lia.
Qed.

(** *** Runs of digits *)

Lemma decimals_fuel_enough (n m : nat) (s : string) :
  String.length s <= n -> String.length s <= m ->
  decimals_fuel n s = decimals_fuel m s.
Proof.
  revert m s. induction n as [|n IH]; intros m s Hn Hm.
  - destruct s; [|simpl in Hn; lia]. by destruct m.
  - destruct m as [|m].
    + destruct s; [|simpl in Hm; lia]. done.
    + simpl. destruct (decimal s) as [[[v p] rest]|] eqn:Hd; [|done].
      apply decimal_Some in Hd as (-> & Hp & _).
      rewrite length_append in Hn, Hm.
      assert (0 < String.length p) by (destruct p; [done|simpl; lia]).
      rewrite (IH m rest) by lia. done.
Qed.

(** The equation of [\d*]: a digit and the run that follows it, or
    nothing. *)
Lemma decimals_eq (s : string) :
  decimals s
  = match decimal s with
    | Some (v, p, rest) =>
        let '(vs, r, rest') := decimals rest in (v :: vs, p +:+ r, rest')
    | None => ([], "", s)
    end.
Proof.
  unfold decimals. destruct s as [|c s'].
  - done.
  - cbn [String.length decimals_fuel].
    destruct (decimal (String c s')) as [[[v p] rest]|] eqn:Hd; [|done].
    apply decimal_Some in Hd as (Heq & Hp & _).
    assert (String.length rest <= String.length s').
    { apply (f_equal String.length) in Heq. rewrite length_append in Heq.
      simpl in Heq. destruct p; [done|simpl in Heq; lia]. }
    by rewrite (decimals_fuel_enough (String.length s') (String.length rest)).
Qed.

Lemma string_length_ind (P : string -> Prop) :
  (forall s, (forall r, String.length r < String.length s -> P r) -> P s) ->
  forall s, P s.
Proof.
  intros Hstep s. remember (String.length s) as n eqn:Hn. revert s Hn.
  induction (lt_wf n) as [n _ IH]. intros s ->.
  apply Hstep. intros r Hr. by apply (IH (String.length r)).
Qed.

Lemma decimal_shorter (s p rest : string) (v : Z) :
  decimal s = Some (v, p, rest) -> String.length rest < String.length s.
Proof.
  intros (-> & Hp & _)%decimal_Some. rewrite length_append.
  destruct p; [done|simpl; lia].
Qed.

(** What [\d*] gives: the run and the rest make up the text, the rest
    does not begin with a digit, and the run is read the same way before
    any text that does not begin with a digit. *)
Lemma decimals_spec (s : string) :
  forall vs ds rest, decimals s = (vs, ds, rest) ->
    s = ds +:+ rest /\ decimal rest = None /\
    Forall (fun v => (0 <= v <= 9)%Z) vs /\
    (ds = "" <-> vs = []) /\
    forall u, decimal u = None -> decimals (ds +:+ u) = (vs, ds, u).
Proof.
  induction s as [s IH] using string_length_ind. intros vs ds rest.
  rewrite decimals_eq.
  destruct (decimal s) as [[[v p] r1]|] eqn:Hd.
  - destruct (decimals r1) as [[vs' r] rest'] eqn:Hr. intros [= <- <- <-].
    destruct (IH r1 (decimal_shorter _ _ _ _ Hd) _ _ _ Hr)
      as (-> & Hrest & Hvs & _ & Hu).
    apply decimal_Some in Hd as (-> & Hp & Hv & Hpu).
    split; [by rewrite append_assoc|]. split; [done|].
    split; [by constructor|]. split.
    { split; [|done]. destruct p; [done|discriminate]. }
    intros u Hnone. rewrite append_assoc, decimals_eq, Hpu.
    by rewrite (Hu u Hnone).
  - intros [= <- <- <-]. split; [done|]. split; [done|].
    split; [constructor|]. split; [done|].
    intros u Hnone. change ("" +:+ u) with u. by rewrite decimals_eq, Hnone.
Qed.

(** A run of digits is read as a whole. *)
Lemma decimals_run (s ds rest : string) (vs : list Z) :
  decimals s = (vs, ds, rest) -> decimals ds = (vs, ds, "").
Proof.
  intros (_ & _ & _ & _ & Hu)%decimals_spec.
  rewrite <- (append_empty_r ds) at 1. by apply Hu.
Qed.

(** An ASCII character that is no digit, put after a text, leaves the
    digits at the head of the text as they are. *)
Lemma decimals_more (t v : string) (c : ascii) :
  (byte c < 128)%Z -> is_digit c = false ->
  decimals (t +:+ String c v)
  = (let '(vs, ds, u) := decimals t in (vs, ds, u +:+ String c v)).
Proof.
  intros Hc Hd. destruct (decimals t) as [[vs ds] u] eqn:Ht.
  apply decimals_spec in Ht as (-> & Hu & _ & _ & Hmore).
  rewrite append_assoc. apply Hmore.
  apply decimal_None_more; [done|done|by apply decimal_ascii_None].
Qed.

(** ASCII digits before a text that does not begin with a digit. *)
Lemma decimals_ascii (ds rest : string) :
  digits ds = true -> decimal rest = None ->
  decimals (ds +:+ rest) = (digit_values ds, ds, rest).
Proof.
  intros Hds Hrest. induction ds as [|c ds IH].
  - change ("" +:+ rest) with rest. by rewrite decimals_eq, Hrest.
  - unfold digits in Hds. simpl in Hds. apply andb_true_iff in Hds as [Hc Hds].
    change (String c ds +:+ rest) with (String c (ds +:+ rest)).
    rewrite decimals_eq, decimal_ascii by done. by rewrite IH.
Qed.

(** *** One attempt of a section pattern *)

Lemma section_pattern_eq (label s : string) :
  section_pattern label s
  = match literal ("#" +:+ label) s with
    | None => None
    | Some r1 =>
        let '(_, ds, r2) := decimals r1 in
        if String.eqb ds "" then None
        else match literal ": " r2 with
             | None => None
             | Some r3 =>
                 let '(g, _) := span is_dot r3 in
                 if String.eqb g "" then None
                 else Some (g, String.length label + 1 + String.length ds
                               + 2 + String.length g)
             end
    end.
Proof.
  unfold section_pattern. destruct (literal _ s) as [r1|]; [|done].
  cbn [mbind option_bind]. destruct (decimals r1) as [[vs ds] r2].
  destruct (String.eqb ds ""); [done|].
  by destruct (literal ": " r2).
Qed.

Lemma section_length (label ds g : string) :
  String.length ("#" +:+ label +:+ ds +:+ ": " +:+ g)
  = String.length label + 1 + String.length ds + 2 + String.length g.
Proof. rewrite !length_append. simpl. lia. Qed.

Lemma section_pattern_Some (label s g : string) (len : nat) :
  section_pattern label s = Some (g, len) ->
  exists ds rest,
    s = "#" +:+ label +:+ ds +:+ ": " +:+ g +:+ rest /\
    ds <> "" /\
    one_line g = true /\ g <> "" /\
    len = String.length ("#" +:+ label +:+ ds +:+ ": " +:+ g) /\
    match rest with
    | EmptyString => True
    | String c _ => is_dot c = false
    end.
Proof.
  rewrite section_pattern_eq.
  destruct (literal ("#" +:+ label) s) as [r1|] eqn:H1; [|discriminate].
  apply literal_Some in H1 as ->.
  destruct (decimals r1) as [[vs ds] r2] eqn:H2.
  apply decimals_spec in H2 as (-> & _).
  destruct (String.eqb_spec ds "") as [|Hne]; [discriminate|].
  destruct (literal ": " r2) as [r3|] eqn:H3; [|discriminate].
  apply literal_Some in H3 as ->.
  destruct (span is_dot r3) as [g' rest] eqn:H4.
  apply span_spec in H4 as (-> & Hg & Hrest).
  destruct (String.eqb_spec g' "") as [|Hgne]; [discriminate|].
  intros [= <- <-]. exists ds, rest.
  split; [by rewrite !append_assoc|].
  repeat split; try done. by rewrite section_length.
Qed.

(** A line of the asked shape matches, whatever its digits, and gives the
    text after the colon. *)
Lemma section_pattern_line (label ds g rest : string) :
  digits ds = true -> ds <> "" -> one_line g = true -> g <> "" ->
  match rest with
  | EmptyString => True
  | String c _ => is_dot c = false
  end ->
  section_pattern label ("#" +:+ label +:+ ds +:+ ": " +:+ g +:+ rest)
  = Some (g, String.length ("#" +:+ label +:+ ds +:+ ": " +:+ g)).
Proof.
  intros Hds Hne Hg Hgne Hrest. rewrite section_pattern_eq.
  replace ("#" +:+ label +:+ ds +:+ ": " +:+ g +:+ rest)
    with (("#" +:+ label) +:+ (ds +:+ ": " +:+ g +:+ rest))
    by (by rewrite !append_assoc).
  rewrite literal_append.
  rewrite (decimals_ascii ds (": " +:+ g +:+ rest)) by done.
  destruct (String.eqb_spec ds "") as [|_]; [done|].
  rewrite literal_append.
  rewrite (span_append is_dot g rest) by done.
  destruct (String.eqb_spec g "") as [|_]; [done|].
  by rewrite section_length.
Qed.

(** What follows the line the attempt is made on has no say. *)
Lemma section_pattern_first_line (label t v : string) :
  one_line label = true ->
  section_pattern label (t +:+ LF +:+ v) = section_pattern label t.
Proof.
  intros Hlabel. rewrite !section_pattern_eq.
  destruct (literal ("#" +:+ label) t) as [r1|] eqn:H1.
  2: { by rewrite literal_line_feed. }
  rewrite (literal_more _ _ _ _ H1).
  change (LF +:+ v) with (String (ascii_of_nat 10) v).
  rewrite decimals_more by done.
  destruct (decimals r1) as [[vs ds] r2] eqn:H2.
  destruct (String.eqb ds ""); [done|].
  destruct (literal ": " r2) as [r3|] eqn:H3.
  2: { change (String (ascii_of_nat 10) v) with (LF +:+ v).
       by rewrite literal_line_feed. }
  rewrite (literal_more _ _ _ _ H3).
  rewrite span_more by done.
  by destruct (span is_dot r3) as [g u] eqn:H4.
Qed.

(** On one line the match runs to the end of the line. *)
Lemma section_pattern_whole_line (label t g : string) (len : nat) :
  one_line t = true ->
  section_pattern label t = Some (g, len) -> len = String.length t.
Proof.
  intros Ht (ds & rest & Heq & _ & _ & _ & -> & Hrest)%section_pattern_Some.
  destruct rest as [|c rest].
  - rewrite Heq. by rewrite append_empty_r.
  - exfalso.
    assert (Hc : all_of is_dot (String c rest) = false)
      by (simpl; by rewrite Hrest).
    rewrite Heq in Ht. unfold one_line in Ht.
    rewrite !all_of_append, Hc, !andb_false_r in Ht. discriminate.
Qed.

(** *** The scan *)

Lemma findall_from_skip_all (m : matcher) (k : nat) (u : string) :
  String.length u <= k -> findall_from m k u = [].
Proof.
  revert k. induction u as [|c u IH]; intros k Hk; simpl; [done|].
  simpl in Hk. destruct k as [|k]; [lia|]. apply IH. lia.
Qed.

Lemma findall_from_skip (m : matcher) (u v : string) :
  findall_from m (String.length u) (u +:+ v) = findall_from m 0 v.
Proof. induction u as [|c u IH]; simpl; done. Qed.

Lemma findall_from_elem (m : matcher) (k : nat) (s g : string) :
  g ∈ findall_from m k s -> exists s' len, m s' = Some (g, len).
Proof.
  revert k. induction s as [|c s IH]; intros k; simpl.
  - intros H. by apply elem_of_nil in H.
  - destruct k as [|k]; [|by apply IH].
    destruct (m (String c s)) as [[g' len]|] eqn:Hm; [|by apply IH].
    intros [->|H]%elem_of_cons; [by eauto|by eapply IH].
Qed.

Lemma findall_from_start (m : matcher) (c : ascii) (s : string) :
  findall_from m 0 (String c s)
  = match m (String c s) with
    | Some (g, len) => g :: findall_from m (len - 1) s
    | None => findall_from m 0 s
    end.
Proof. done. Qed.

End TextFacts.

(** ** Facts about the tokens of a dependency text (lines 164-165) *)

Module TokenFacts.
Import Text TextFacts PyFacts Planner.

#[local] Arguments String.append : simpl nomatch.

(** *** One attempt of the pattern *)

Lemma step_ref_pattern_eq (s : string) :
  step_ref_pattern s
  = match literal "#S" s with
    | None => None
    | Some r1 =>
        let '(_, ds, _) := decimals r1 in
        if String.eqb ds "" then None
        else Some (ds, 2 + String.length ds)
    end.
Proof.
  unfold step_ref_pattern. destruct (literal "#S" s) as [r1|]; [|done].
  cbn [mbind option_bind]. by destruct (decimals r1) as [[vs ds] r2].
Qed.

(** The group of a match is a run of digits, one at least. *)
Lemma step_ref_pattern_Some (s ds : string) (len : nat) :
  step_ref_pattern s = Some (ds, len) ->
  exists vs, vs <> [] /\ decimals ds = (vs, ds, "") /\
             Forall (fun v => (0 <= v <= 9)%Z) vs.
Proof.
  rewrite step_ref_pattern_eq.
  destruct (literal "#S" s) as [r1|]; [|discriminate].
  destruct (decimals r1) as [[vs ds'] rest] eqn:Hrun.
  destruct (String.eqb_spec ds' "") as [|Hne]; [discriminate|].
  intros [= <- _]. exists vs.
  pose proof (decimals_run _ _ _ _ Hrun) as Hds.
  apply decimals_spec in Hrun as (_ & _ & Hvs & Hnil & _).
  split; [|done]. intros Hvs0. by apply Hne, Hnil.
Qed.

(** *** [int] on a run of digits *)

Lemma digits_value_from (vs : list Z) (acc : Z) :
  fold_left (fun acc v => (10 * acc + v)%Z) vs acc
  = (acc * 10 ^ Z.of_nat (length vs) + digits_value vs)%Z.
Proof.
  unfold digits_value. revert acc. induction vs as [|v vs IH]; intros acc.
  - simpl. lia.
  - cbn [fold_left length]. rewrite (IH (10 * acc + v)%Z), (IH (10 * 0 + v)%Z).
    rewrite Nat2Z.inj_succ, Z.pow_succ_r by lia. ring.
Qed.

Lemma digits_value_cons (v : Z) (vs : list Z) :
  digits_value (v :: vs) = (v * 10 ^ Z.of_nat (length vs) + digits_value vs)%Z.
Proof.
  unfold digits_value at 1. cbn [fold_left]. rewrite digits_value_from. ring.
Qed.

Lemma digits_value_nonneg (vs : list Z) :
  Forall (fun v => (0 <= v <= 9)%Z) vs -> (0 <= digits_value vs)%Z.
Proof.
  induction 1 as [|v vs Hv _ IH]; [done|].
  rewrite digits_value_cons.
  assert (0 <= 10 ^ Z.of_nat (length vs))%Z by (apply Z.pow_nonneg; lia).
  nia.
Qed.

Lemma int_run (ds : string) (vs : list Z) :
  decimals ds = (vs, ds, "") -> vs <> [] ->
  int ds = if (int_max_str_digits <? length vs)%nat
           then Raise (ValueError (exceeds_limit (length vs)))
           else Ok (digits_value vs).
Proof.
  intros Hds Hvs. unfold int. rewrite Hds. simpl.
  destruct vs; [done|done].
Qed.

(** [int] on the group of a match: a number that is not negative, or the
    [ValueError] of a text of too many digits. *)
Lemma int_group (s ds : string) (len : nat) :
  step_ref_pattern s = Some (ds, len) ->
  (exists n, int ds = Ok n /\ (0 <= n)%Z)
  \/ (exists k, int_max_str_digits < k /\
                int ds = Raise (ValueError (exceeds_limit k))).
Proof.
  intros (vs & Hne & Hds & Hvs)%step_ref_pattern_Some.
  rewrite (int_run _ _ Hds Hne).
  destruct (Nat.ltb_spec int_max_str_digits (length vs)) as [Hlong|_].
  - right. by exists (length vs).
  - left. eexists. split; [done|]. by apply digits_value_nonneg.
Qed.

(** *** The numbers of a dependency text *)

Lemma numbers_None : numbers "None" = Ok [].
Proof. vm_compute. reflexivity. Qed.

(** The numbers of the tokens are never negative. *)
Lemma numbers_nonneg (dependency : string) (ns : list Z) (n : Z) :
  numbers dependency = Ok ns -> n ∈ ns -> (0 <= n)%Z.
Proof.
  unfold numbers. intros HF%mapM_Ok_inv [j Hj]%list_elem_of_lookup.
  destruct (Forall2_lookup_r _ _ _ _ _ HF Hj) as (ds & Hds & Hint).
  apply list_elem_of_lookup_2, findall_from_elem in Hds as (s' & len & Hm).
  destruct (int_group _ _ _ Hm) as [(n' & Hn' & Hpos)|(k & _ & Hk)]; congruence.
Qed.

(** The conversion of the tokens raises but for a token of too many
    digits. *)
Lemma numbers_raise (dependency : string) (e : exn) :
  numbers dependency = Raise e ->
  exists k, int_max_str_digits < k /\ e = ValueError (exceeds_limit k).
Proof.
  unfold numbers. intros (j & ds & Hds & Hint & _)%mapM_raise_inv.
  apply list_elem_of_lookup_2, findall_from_elem in Hds as (s' & len & Hm).
  destruct (int_group _ _ _ Hm) as [(n' & Hn' & Hpos)|(k & Hlong & Hk)];
    [congruence|].
  exists k. split; [done|congruence].
Qed.

(** *** Numbers in decimal *)

Lemma pretty_N_char_digit (d : N) :
  (d < 10)%N ->
  is_digit (pretty_N_char d) = true /\ digit_value (pretty_N_char d) = Z.of_N d.
Proof.
  intros Hd.
  assert (d = 0 \/ d = 1 \/ d = 2 \/ d = 3 \/ d = 4 \/ d = 5 \/ d = 6
          \/ d = 7 \/ d = 8 \/ d = 9)%N as Hcases by lia.
  repeat (destruct Hcases as [->|Hcases]; [by vm_compute|]).
  subst d. by vm_compute.
Qed.

Lemma length_digit_values (s : string) :
  length (digit_values s) = String.length s.
Proof. induction s as [|c s IH]; simpl; [done|by rewrite IH]. Qed.

Lemma pretty_N_go_digits (x : N) :
  forall s, digits s = true ->
    digits (pretty_N_go x s) = true /\
    String.length s <= String.length (pretty_N_go x s) /\
    digits_value (digit_values (pretty_N_go x s))
    = (Z.of_N x * 10 ^ Z.of_nat (String.length s)
       + digits_value (digit_values s))%Z.
Proof.
  induction (N.lt_wf_0 x) as [x _ IH]. intros s Hs.
  destruct (decide (x = 0%N)) as [->|Hx].
  - rewrite pretty_N_go_0. split; [done|]. split; lia.
  - rewrite pretty_N_go_step by lia.
    destruct (pretty_N_char_digit (x `mod` 10)%N) as [Hd Hv];
      [apply N.mod_lt; lia|].
    destruct (IH (x `div` 10)%N) with (s := String (pretty_N_char (x `mod` 10)) s)
      as (H1 & H2 & H3).
    + apply N.div_lt; lia.
    + unfold digits. simpl. by rewrite Hd.
    + split; [done|]. split; [simpl in H2; lia|].
      rewrite H3. cbn [digit_values String.length].
      rewrite digits_value_cons, Hv, length_digit_values.
      rewrite Nat2Z.inj_succ, Z.pow_succ_r by lia.
      rewrite (N.div_mod x 10) at 3 by lia.
      rewrite N2Z.inj_add, N2Z.inj_mul. change (Z.of_N 10) with 10%Z. ring.
Qed.

(** The decimal writing of a number: ASCII digits, one at least, that
    write the number. *)
Lemma pretty_digits (n : N) :
  digits (pretty n) = true /\ pretty n <> "" /\
  digits_value (digit_values (pretty n)) = Z.of_N n.
Proof.
  unfold pretty, pretty_N. destruct (decide (n = 0%N)) as [->|Hn]; [done|].
  destruct (pretty_N_go_digits n "" eq_refl) as (Hd & _ & Hv).
  split; [done|]. split.
  - rewrite pretty_N_go_step by lia.
    destruct (pretty_N_go_digits (n `div` 10)%N
                (String (pretty_N_char (n `mod` 10)) "")) as (_ & Hlen & _).
    + unfold digits. simpl.
      destruct (pretty_N_char_digit (n `mod` 10)%N) as [-> _];
        [apply N.mod_lt; lia|done].
    + intros Hempty. rewrite Hempty in Hlen. simpl in Hlen. lia.
  - rewrite Hv. simpl. change (digits_value []) with 0%Z. lia.
Qed.

Lemma decimals_pretty (n : N) (rest : string) :
  decimal rest = None ->
  decimals (pretty n +:+ rest) = (digit_values (pretty n), pretty n, rest).
Proof.
  intros Hrest. apply decimals_ascii; [|done]. apply pretty_digits.
Qed.

(** [int] reads a number written in decimal with at most 4300 digits, and
    refuses one written with more. *)
Lemma int_pretty (n : N) :
  int (pretty n)
  = if (int_max_str_digits <? String.length (pretty n))%nat
    then Raise (ValueError (exceeds_limit (String.length (pretty n))))
    else Ok (Z.of_N n).
Proof.
  destruct (pretty_digits n) as (Hd & Hne & Hv).
  rewrite (int_run (pretty n) (digit_values (pretty n))).
  - by rewrite length_digit_values, Hv.
  - rewrite <- (append_empty_r (pretty n)) at 1. by apply decimals_pretty.
  - destruct (pretty n); [done|discriminate].
Qed.

(** *** Tokens as they are written *)

Lemma step_ref_pattern_token (n : N) (rest : string) :
  decimal rest = None ->
  step_ref_pattern (token n +:+ rest)
  = Some (pretty n, 2 + String.length (pretty n)).
Proof.
  intros Hrest. rewrite step_ref_pattern_eq. unfold token.
  rewrite append_assoc, literal_append, decimals_pretty by done.
  destruct (pretty_digits n) as (_ & Hne & _).
  by destruct (String.eqb_spec (pretty n) "").
Qed.

Lemma step_ref_pattern_no_hash (c : ascii) (s : string) :
  Ascii.eqb c "#"%char = false -> step_ref_pattern (String c s) = None.
Proof.
  intros Hc. rewrite step_ref_pattern_eq. cbn [literal].
  destruct (Ascii.eqb_spec "#"%char c) as [<-|_]; [|done].
  by rewrite Ascii.eqb_refl in Hc.
Qed.

(** No token begins in a text without [#]. *)
Lemma findall_no_hash (pre s : string) :
  no_hash pre = true ->
  findall_from step_ref_pattern 0 (pre +:+ s) = findall_from step_ref_pattern 0 s.
Proof.
  intros Hpre. induction pre as [|c pre IH]; [done|].
  unfold no_hash in Hpre. simpl in Hpre.
  apply andb_true_iff in Hpre as [Hc%negb_true_iff Hpre].
  change (String c pre +:+ s) with (String c (pre +:+ s)).
  rewrite findall_from_start, step_ref_pattern_no_hash by done.
  by apply IH.
Qed.

Lemma tokens_text_head (toks : list (N * string)) :
  decimal (tokens_text toks) = None.
Proof. destruct toks as [|[n sep] toks]; [done|]. done. Qed.

(** After a token, the text up to the next one does not begin with a
    digit. *)
Lemma decimal_after_token (sep : string) (toks : list (N * string)) :
  no_digit_first sep = true -> decimal (sep +:+ tokens_text toks) = None.
Proof.
  unfold no_digit_first. intros Hsep.
  destruct (decimal sep) eqn:Hd; [discriminate|].
  destruct toks as [|[n sep'] toks].
  - simpl. by rewrite append_empty_r.
  - apply decimal_None_more; [done|done|done].
Qed.

(** The pattern finds the tokens of a dependency text, and nothing else. *)
Lemma findall_tokens (pre : string) (toks : list (N * string)) :
  separated pre toks = true ->
  findall step_ref_pattern (dependency_text pre toks)
  = (fun tok : N * string => pretty tok.1) <$> toks.
Proof.
  unfold separated, dependency_text, findall.
  intros [Hpre Htoks]%andb_true_iff. rewrite findall_no_hash by done.
  clear pre Hpre. induction toks as [|[n sep] toks IH]; [done|].
  simpl in Htoks. apply andb_true_iff in Htoks as [Hsep Htoks].
  apply andb_true_iff in Hsep as [Hhash Hdigit].
  cbn [tokens_text fmap list_fmap].
  pose proof (step_ref_pattern_token n (sep +:+ tokens_text toks)
                (decimal_after_token _ _ Hdigit)) as Hm.
  unfold token in *.
  change ("#S" +:+ pretty n) with (String "#" ("S" +:+ pretty n)) in *.
  change (String "#" ("S" +:+ pretty n) +:+ sep +:+ tokens_text toks)
    with (String "#" (("S" +:+ pretty n) +:+ sep +:+ tokens_text toks)) in *.
  rewrite findall_from_start, Hm.
  replace (2 + String.length (pretty n) - 1)
    with (String.length ("S" +:+ pretty n)) by (simpl; lia).
  rewrite findall_from_skip, findall_no_hash by done.
  f_equal. by apply IH.
Qed.

Lemma token_numbers_read (toks : list (N * string)) :
  digits_at_most int_max_str_digits toks = true ->
  mapM int ((fun tok : N * string => pretty tok.1) <$> toks)
  = Ok (token_numbers toks).
Proof.
  intros Hshort. apply mapM_Ok_intro. unfold token_numbers.
  induction toks as [|[n sep] toks IH]; [constructor|].
  simpl in Hshort. apply andb_true_iff in Hshort as [Hn%Nat.leb_le Hshort].
  constructor; [|by apply IH].
  rewrite int_pretty. simpl.
  by destruct (Nat.ltb_spec int_max_str_digits (String.length (pretty n))); [lia|].
Qed.

(** The numbers of a dependency text are those of its tokens, when none is
    written with more than 4300 digits. *)
Lemma numbers_dependency_text (pre : string) (toks : list (N * string)) :
  separated pre toks = true ->
  digits_at_most int_max_str_digits toks = true ->
  numbers (dependency_text pre toks) = Ok (token_numbers toks).
Proof.
  intros Hsep Hshort. unfold numbers. rewrite findall_tokens by done.
  by apply token_numbers_read.
Qed.

(** A token of more than 4300 digits makes the conversion raise. *)
Lemma numbers_long_token (pre : string) (toks : list (N * string)) :
  separated pre toks = true ->
  digits_at_most int_max_str_digits toks = false ->
  exists k, int_max_str_digits < k /\
            numbers (dependency_text pre toks)
            = Raise (ValueError (exceeds_limit k)).
Proof.
  intros Hsep Hlong. unfold numbers. rewrite findall_tokens by done.
  clear pre Hsep. induction toks as [|[n sep] toks IH]; [discriminate|].
  simpl in Hlong. cbn [fmap list_fmap mapM]. rewrite int_pretty. simpl.
  destruct (Nat.ltb_spec int_max_str_digits (String.length (pretty n)))
    as [Hn|Hn].
  - by exists (String.length (pretty n)).
  - apply Nat.leb_le in Hn. rewrite Hn in Hlong. simpl in Hlong.
    destruct (IH Hlong) as (k & Hk & ->). by exists k.
Qed.

End TokenFacts.

(** ** Facts about the loop of [generate_steps] *)

Module PlannerFacts.
Import Text TextFacts TokenFacts PyFacts Planner.

Lemma select_agent_spec (roster : list Agent) (agent_name : string) (a : Agent) :
  select_agent roster agent_name = Ok a ->
  a ∈ roster /\
  (List.find (fun agent => String.eqb (name agent) agent_name) roster = Some a
   \/ (List.find (fun agent => String.eqb (name agent) agent_name) roster = None
       /\ roster !! 0 = Some a)).
Proof.
  unfold select_agent.
  destruct (List.find _ roster) as [b|] eqn:Hfind.
  - intros [= ->]. split; [|by left].
    apply list_elem_of_In. by apply List.find_some in Hfind as [? _].
  - intros Hget. split; [by eapply getitem_Ok_elem|].
    right. split; [done|]. by apply (getitem_nat_Ok roster 0).
Qed.

Lemma select_agent_total (roster : list Agent) (agent_name : string) :
  roster <> [] -> exists a, select_agent roster agent_name = Ok a.
Proof.
  intros Hne. unfold select_agent.
  destruct (List.find _ roster) as [b|]; [by eauto|].
  destruct roster as [|a ?]; [done|]. by exists a.
Qed.

Lemma select_agent_raise (roster : list Agent) (agent_name : string) (e : exn) :
  select_agent roster agent_name = Raise e -> e = IndexError.
Proof.
  unfold select_agent. destruct (List.find _ roster); [discriminate|].
  apply getitem_raise.
Qed.

Lemma build_context_None (planned : list ref) :
  build_context planned "None" = Ok [].
Proof. done. Qed.

Lemma build_context_not_None (planned : list ref) (dependency : string) :
  dependency <> "None" ->
  build_context planned dependency
  = numbers dependency ≫= mapM (fun i => getitem planned (i - 1)%Z).
Proof.
  intros Hne. unfold build_context.
  destruct (String.eqb_spec dependency "None"); [done|done].
Qed.

(** A context that is built: the tokens were all converted, and every
    number looked up. *)
Lemma build_context_Ok_inv (planned : list ref) (dependency : string)
    (ctx : list ref) :
  build_context planned dependency = Ok ctx ->
  exists ns, numbers dependency = Ok ns /\
             Forall2 (fun n r => getitem planned (n - 1)%Z = Ok r) ns ctx.
Proof.
  unfold build_context.
  destruct (String.eqb_spec dependency "None") as [->|_]; simpl.
  - intros [= <-]. exists []. split; [apply numbers_None|constructor].
  - intros (ns & Hns & Hctx)%bind_Ok_inv. exists ns. split; [done|].
    by apply mapM_Ok_inv.
Qed.

(** A context that is not built: a token was not converted, or, the tokens
    being converted, a number is no position of the list. *)
Lemma build_context_raise_inv (planned : list ref) (dependency : string)
    (e : exn) :
  build_context planned dependency = Raise e ->
  numbers dependency = Raise e
  \/ (e = IndexError /\
      exists ns n, numbers dependency = Ok ns /\ n ∈ ns /\
                   getitem planned (n - 1)%Z = Raise IndexError).
Proof.
  unfold build_context. destruct (negb _); [|discriminate].
  destruct (numbers dependency) as [ns|e'] eqn:Hns; simpl.
  - intros (k & n & Hn & Hget & _)%mapM_raise_inv. right.
    pose proof (getitem_raise _ _ _ Hget) as ->.
    split; [done|]. exists ns, n. split; [done|].
    split; [by eapply list_elem_of_lookup_2|done].
  - intros [= <-]. by left.
Qed.

Lemma build_context_raise (planned : list ref) (dependency : string) (e : exn) :
  build_context planned dependency = Raise e -> plan_error e.
Proof.
  intros [Hns|[-> _]]%build_context_raise_inv; [|constructor].
  apply numbers_raise in Hns as (k & Hk & ->). by constructor.
Qed.

(** Whatever a context holds was in [planned_tasks] when it was built. *)
Lemma build_context_elem (planned : list ref) (dependency : string)
    (ctx : list ref) (r : ref) :
  build_context planned dependency = Ok ctx -> r ∈ ctx -> r ∈ planned.
Proof.
  intros (ns & _ & HF)%build_context_Ok_inv Hr.
  induction HF as [|n y ns' ys Hy _ IH]; [by apply elem_of_nil in Hr|].
  apply elem_of_cons in Hr as [->|Hr]; [|by auto].
  by eapply getitem_Ok_elem.
Qed.

Lemma refs_in_range_from_spec (k : nat) (dependencies : list string) :
  refs_in_range_from k dependencies = true ->
  forall i, exists ns,
    numbers (dependency_at dependencies i) = Ok ns /\
    forall n, n ∈ ns -> (1 <= n <= Z.of_nat (k + i))%Z.
Proof.
  revert k. induction dependencies as [|dep rest IH]; intros k Hok i.
  - unfold dependency_at. rewrite lookup_nil. simpl.
    exists []. split; [apply numbers_None|]. intros n Hn.
    by apply elem_of_nil in Hn.
  - simpl in Hok. apply andb_true_iff in Hok as [Hhd Htl].
    destruct i as [|i].
    + unfold dependency_at. simpl.
      destruct (numbers dep) as [ns|e]; [|discriminate].
      exists ns. split; [done|]. intros n Hn.
      rewrite forallb_forall in Hhd.
      apply list_elem_of_In, Hhd in Hn. lia.
    + destruct (IH (S k) Htl i) as (ns & Hns & Hrange).
      exists ns. split; [exact Hns|].
      intros n Hn. specialize (Hrange n Hn). lia.
Qed.

Section Loop.

Context (roster : list Agent).
Context (tasks agents dependencies outputs : list string).

Abbreviation body := (body roster agents dependencies outputs).
Abbreviation loop := (loop roster tasks agents dependencies outputs).
Abbreviation built := (built roster tasks agents dependencies outputs).

Lemma dependency_read (i : nat) :
  (if (i <? length dependencies)%nat then getitem dependencies (Z.of_nat i)
   else Ok "None") = Ok (dependency_at dependencies i).
Proof.
  unfold dependency_at. destruct (Nat.ltb_spec i (length dependencies)) as [Hlt|Hge].
  - destruct (getitem_nat_lt _ _ Hlt) as (x & -> & ->). done.
  - by rewrite lookup_ge_None_2.
Qed.

Lemma output_read (i : nat) :
  (if (i <? length outputs)%nat then getitem outputs (Z.of_nat i)
   else Ok "") = Ok (output_at outputs i).
Proof.
  unfold output_at. destruct (Nat.ltb_spec i (length outputs)) as [Hlt|Hge].
  - destruct (getitem_nat_lt _ _ Hlt) as (x & -> & ->). done.
  - by rewrite lookup_ge_None_2.
Qed.

(** What a turn that went through has done. *)
Lemma body_Ok_inv (i : nat) (d : string) (st st' : store) :
  body i d st = Ok st' ->
  exists agent_name a ctx,
    agents !! i = Some agent_name /\
    select_agent roster agent_name = Ok a /\
    build_context (planned_tasks st) (dependency_at dependencies i) = Ok ctx /\
    st' = mkStore
            (heap st ++ [mkTask d (output_at outputs i) (Some [a]) ctx])
            (planned_tasks st ++ [length (heap st)]).
Proof.
  unfold Planner.body. rewrite dependency_read, output_read.
  intros (agent_name & Hag & H)%bind_Ok_inv. simpl in H.
  apply bind_Ok_inv in H as (a & Ha & H).
  apply bind_Ok_inv in H as (ctx & Hctx & [= <-]).
  exists agent_name, a, ctx. by rewrite <- getitem_nat_Ok.
Qed.

Lemma body_Ok_intro (i : nat) (d agent_name : string) (a : Agent)
    (ctx : list ref) (st : store) :
  agents !! i = Some agent_name ->
  select_agent roster agent_name = Ok a ->
  build_context (planned_tasks st) (dependency_at dependencies i) = Ok ctx ->
  body i d st
  = Ok (mkStore
          (heap st ++ [mkTask d (output_at outputs i) (Some [a]) ctx])
          (planned_tasks st ++ [length (heap st)])).
Proof.
  intros Hag Ha Hctx. unfold Planner.body.
  rewrite dependency_read, output_read.
  apply getitem_nat_Ok in Hag. rewrite Hag. simpl.
  rewrite Ha. simpl. by rewrite Hctx.
Qed.

Lemma body_raise (i : nat) (d : string) (st : store) (e : exn) :
  body i d st = Raise e -> plan_error e.
Proof.
  unfold Planner.body. rewrite dependency_read, output_read.
  destruct (getitem agents _) as [agent_name|e1] eqn:Hag; simpl.
  2: { intros [= <-]. apply getitem_raise in Hag as ->. constructor. }
  destruct (select_agent _ _) as [a|e2] eqn:Ha; simpl.
  2: { intros [= <-]. apply select_agent_raise in Ha as ->. constructor. }
  destruct (build_context _ _) as [ctx|e3] eqn:Hctx; simpl; [discriminate|].
  intros [= <-]. by eapply build_context_raise.
Qed.

(** A turn that raises, the agents section having an entry for it and the
    roster an agent: the dependency text was not resolved. *)
Lemma body_raise_inv (i : nat) (d : string) (st : store) (e : exn) :
  i < length agents -> roster <> [] ->
  body i d st = Raise e ->
  build_context (planned_tasks st) (dependency_at dependencies i) = Raise e.
Proof.
  intros Hi Hne. unfold Planner.body. rewrite dependency_read, output_read.
  destruct (getitem_nat_lt agents i Hi) as (an & _ & ->). simpl.
  destruct (select_agent_total roster an Hne) as [a ->]. simpl.
  destruct (build_context _ _) as [ctx|e3]; simpl; [discriminate|].
  by intros [= <-].
Qed.

(** A turn whose dependency text is not resolved raises, whatever the
    roster: [IndexError] for an empty roster, else what the text raises. *)
Lemma body_context_raise (i : nat) (d : string) (st : store) (e : exn) :
  i < length agents ->
  build_context (planned_tasks st) (dependency_at dependencies i) = Raise e ->
  body i d st = Raise e \/ (roster = [] /\ body i d st = Raise IndexError).
Proof.
  intros Hi Hctx. unfold Planner.body. rewrite dependency_read, output_read.
  destruct (getitem_nat_lt agents i Hi) as (an & _ & ->). simpl.
  destruct (select_agent roster an) as [a|e'] eqn:Ha; simpl.
  - left. by rewrite Hctx.
  - right. apply select_agent_raise in Ha as Heq. subst e'.
    split; [|done]. destruct roster as [|b ?]; [done|].
    destruct (select_agent_total (b :: l) an) as [a Ha']; [done|]. congruence.
Qed.

Lemma loop_raise (range : list nat) (st : store) (e : exn) :
  loop range st = Raise e -> plan_error e.
Proof.
  revert st. induction range as [|i range IH]; intros st; simpl; [discriminate|].
  destruct (getitem tasks _) as [d|e1] eqn:Hd; simpl.
  2: { intros [= <-]. apply getitem_raise in Hd as ->. constructor. }
  destruct (i =? length agents)%nat; [discriminate|].
  destruct (body i d st) as [st1|e2] eqn:Hb; simpl; [by apply IH|].
  intros [= <-]. by eapply body_raise.
Qed.

(** [planned_tasks] lists the whole store, in the order of creation. *)
Lemma built_shape (i : nat) (st : store) :
  built i st ->
  planned_tasks st = seq 0 i /\ length (heap st) = i /\
  i <= length tasks /\ i <= length agents.
Proof.
  induction 1 as [|i d st st' _ (IHp & IHh & IHt & IHa) Hd Hlt Hb].
  - simpl. repeat split; lia.
  - apply body_Ok_inv in Hb as (? & ? & ? & _ & _ & _ & ->).
    apply lookup_lt_Some in Hd. cbn [planned_tasks heap].
    rewrite IHp, IHh, length_app, IHh, seq_S. simpl. repeat split; lia.
Qed.

(** The loop from a store the earlier turns built ends in a store built
    by [min (len tasks) (len agents)] turns, when it ends normally. *)
Lemma loop_built (n k : nat) (st st' : store) :
  built k st -> k + n = length tasks ->
  loop (seq k n) st = Ok st' ->
  built (Nat.min (length tasks) (length agents)) st'.
Proof.
  revert k st. induction n as [|n IH]; intros k st Hk Hlen; simpl.
  - intros [= <-]. apply built_shape in Hk as Hs.
    replace (Nat.min _ _) with k by lia. done.
  - destruct (getitem_nat_lt tasks k) as (d & Hd & ->); [lia|]. simpl.
    destruct (Nat.eqb_spec k (length agents)) as [Heq|Hne].
    + intros [= <-]. replace (Nat.min _ _) with k by lia. done.
    + intros (st1 & Hb & Hrest)%bind_Ok_inv.
      apply body_Ok_inv in Hb as Hinv.
      destruct Hinv as (? & _ & _ & Hag%lookup_lt_Some & _).
      eapply (IH (S k) st1); [|lia|done].
      by eapply built_S.
Qed.

Lemma task_at_built (n : nat) (st : store) (i : nat) :
  built n st -> task_at st i = heap st !! i.
Proof.
  intros (Hp & Hh & _)%built_shape. unfold task_at. rewrite Hp.
  destruct (decide (i < n)) as [Hi|Hi].
  - by rewrite lookup_seq_lt by done.
  - rewrite (lookup_ge_None_2 (seq 0 n)) by (rewrite length_seq; lia).
    symmetry. apply lookup_ge_None_2. lia.
Qed.

(** Every task of a built store was made by one turn from an earlier
    built store. *)
Lemma built_lookup (n : nat) (st : store) (i : nat) (t : Task) :
  built n st -> task_at st i = Some t ->
  i < n /\
  exists d st_i ctx_store,
    built i st_i /\ tasks !! i = Some d /\ i < length agents /\
    body i d st_i = Ok ctx_store /\
    heap ctx_store = (heap st_i ++ [t])%list.
Proof.
  intros Hb. rewrite (task_at_built _ _ _ Hb).
  induction Hb as [|n d st st' Hst IH Hd Hlt Hb]; intros Ht.
  - by destruct i.
  - pose proof (built_shape _ _ Hst) as (_ & Hh & _).
    apply body_Ok_inv in Hb as Hinv.
    destruct Hinv as (an & a & ctx & _ & _ & _ & Hst').
    rewrite Hst' in Ht. cbn [heap] in Ht.
    apply lookup_app_Some in Ht as [Ht|[Hge Ht]].
    + destruct (IH Ht) as (? & ?). split; [lia|done].
    + rewrite Hh in *.
      apply list_lookup_singleton_Some in Ht as [Hi <-].
      assert (i = n) as -> by lia.
      split; [lia|]. exists d, st, st'. rewrite Hst' at 2. done.
Qed.

Lemma built_task_at (n : nat) (st : store) (i : nat) :
  built n st -> i < n -> exists t, task_at st i = Some t.
Proof.
  intros Hb Hi. rewrite (task_at_built _ _ _ Hb).
  apply built_shape in Hb as (_ & Hh & _).
  apply lookup_lt_is_Some. lia.
Qed.

(** The description of the sub-task at position [i] of a built store:
    its fields are those the turn [i] computed, from a list
    [planned_tasks] that was then [seq 0 i]. *)
Lemma task_at_inv (n : nat) (st : store) (i : nat) (t : Task) :
  built n st -> task_at st i = Some t ->
  i < n /\
  exists d agent_name a,
    tasks !! i = Some d /\ agents !! i = Some agent_name /\
    select_agent roster agent_name = Ok a /\
    build_context (seq 0 i) (dependency_at dependencies i) = Ok (context t) /\
    t = mkTask d (output_at outputs i) (Some [a]) (context t).
Proof.
  intros Hb Ht.
  destruct (built_lookup _ _ _ _ Hb Ht) as (Hi & d & st_i & cs & Hbi & Hd & _ & Hbody & Hheap).
  split; [done|].
  apply body_Ok_inv in Hbody as (an & a & ctx & Han & Ha & Hctx & ->).
  cbn [heap] in Hheap. apply app_inj_tail in Hheap as [_ <-].
  apply built_shape in Hbi as (Hp & _). rewrite Hp in Hctx.
  exists d, an, a. done.
Qed.

Lemma build_context_total (planned : list ref) (dependency : string)
    (ns : list Z) :
  numbers dependency = Ok ns ->
  (forall n, n ∈ ns ->
             (1 - Z.of_nat (length planned) <= n <= Z.of_nat (length planned))%Z) ->
  exists ctx, build_context planned dependency = Ok ctx.
Proof.
  intros Hns Hn. unfold build_context. destruct (negb _); [|by eauto].
  rewrite Hns. simpl.
  apply mapM_total. intros n Hin. apply getitem_in_range.
  specialize (Hn n Hin). lia.
Qed.

(** Progress: with a roster that is not empty and every number [m] of a
    step [i] such that [m - 1] is an index of the [i] sub-tasks built so
    far, no turn raises. *)
Lemma loop_total (n k : nat) (st : store) :
  roster <> [] ->
  (forall i, i < Nat.min (length tasks) (length agents) ->
     exists ns, numbers (dependency_at dependencies i) = Ok ns /\
                forall m, m ∈ ns -> (1 - Z.of_nat i <= m <= Z.of_nat i)%Z) ->
  built k st -> k + n = length tasks ->
  exists st', loop (seq k n) st = Ok st'.
Proof.
  intros Hne Hrefs. revert k st.
  induction n as [|n IH]; intros k st Hk Hlen; simpl; [by eauto|].
  destruct (getitem_nat_lt tasks k) as (d & Hd & ->); [lia|]. simpl.
  destruct (Nat.eqb_spec k (length agents)) as [Heq|Hneq]; [by eauto|].
  pose proof (built_shape _ _ Hk) as (Hp & Hh & _ & Hka).
  destruct (lookup_lt_is_Some_2 agents k) as [an Han]; [lia|].
  destruct (select_agent_total roster an Hne) as [a Ha].
  destruct (Hrefs k) as (ns & Hns & Hrange); [lia|].
  destruct (build_context_total (planned_tasks st)
              (dependency_at dependencies k) ns Hns)
    as [ctx Hctx].
  { intros m Hm. rewrite Hp, length_seq. by apply Hrange. }
  rewrite (body_Ok_intro _ _ _ _ _ _ Han Ha Hctx). simpl.
  apply IH; [|lia].
  eapply built_S; [exact Hk|exact Hd|lia|].
  eapply body_Ok_intro; eassumption.
Qed.

(** The first turns of the loop build what [built] says. *)
Lemma loop_turns_built (n k : nat) (st st' : store) :
  built k st -> k + n <= length tasks -> k + n <= length agents ->
  loop (seq k n) st = Ok st' -> built (k + n) st'.
Proof.
  revert k st. induction n as [|n IH]; intros k st Hk Ht Ha; simpl.
  - intros [= <-]. by rewrite Nat.add_0_r.
  - destruct (getitem_nat_lt tasks k) as (d & Hd & ->); [lia|]. simpl.
    destruct (Nat.eqb_spec k (length agents)) as [?|_]; [lia|].
    intros (st1 & Hb & Hrest)%bind_Ok_inv.
    replace (k + S n) with (S k + n) by lia.
    eapply (IH (S k) st1); [|lia|lia|done].
    eapply built_S; [exact Hk|exact Hd|lia|exact Hb].
Qed.

Lemma first_turns_built (i : nat) (st : store) :
  i <= length tasks -> i <= length agents ->
  first_turns roster tasks agents dependencies outputs i = Ok st -> built i st.
Proof.
  intros Ht Ha Hloop.
  apply (loop_turns_built i 0 empty_store st); [apply built_O|done|done|done].
Qed.

Lemma built_functional (i : nat) (st st' : store) :
  built i st -> built i st' -> st = st'.
Proof.
  intros Hb. revert st'.
  induction Hb as [|i d st st1 Hb IH Hd Hlt Hbody]; intros st' Hb'.
  - by inversion Hb'.
  - inversion Hb' as [|i' d' st0 st1' Hb0 Hd' Hlt' Hbody']; subst.
    rewrite (IH _ Hb0) in Hbody. congruence.
Qed.

(** The store after fewer turns is a prefix of the store after more. *)
Lemma built_earlier (n : nat) (st : store) (k : nat) :
  built n st -> k <= n ->
  exists st_k, built k st_k /\
    heap st_k = take k (heap st) /\
    planned_tasks st_k = take k (planned_tasks st).
Proof.
  induction 1 as [|n d st st' Hb IH Hd Hlt Hbody]; intros Hk.
  - assert (k = 0) as -> by lia. exists empty_store. split; [constructor|done].
  - destruct (decide (k = S n)) as [->|Hne].
    + exists st'. split; [by econstructor|].
      assert (Hb' : built (S n) st') by (by econstructor).
      apply built_shape in Hb' as (Hp & Hh & _).
      split; rewrite take_ge; try done; [lia|].
      rewrite Hp, length_seq. lia.
    + destruct IH as (st_k & Hbk & Hhk & Hpk); [lia|].
      exists st_k. split; [done|].
      apply built_shape in Hb as (Hp & Hh & _).
      apply body_Ok_inv in Hbody as (? & ? & ? & _ & _ & _ & ->).
      cbn [heap planned_tasks].
      rewrite !take_app_le; [done| |lia].
      rewrite Hp, length_seq. lia.
Qed.

Lemma built_next (n : nat) (st : store) (k : nat) :
  built n st -> k < n ->
  exists d st_k st_k1,
    built k st_k /\ tasks !! k = Some d /\ k < length agents /\
    body k d st_k = Ok st_k1 /\ built (S k) st_k1.
Proof.
  induction 1 as [|n d st st' Hb IH Hd Hlt Hbody]; intros Hk; [lia|].
  destruct (decide (k = n)) as [->|Hne].
  - exists d, st, st'. repeat split; try done. by econstructor.
  - apply IH. lia.
Qed.

(** The loop ends in the store that [min (len tasks) (len agents)] turns
    build, when they all go through. *)
Lemma built_loop (n : nat) (st : store) :
  built n st -> n = Nat.min (length tasks) (length agents) ->
  forall j k st_k, k + j = n -> built k st_k ->
    loop (seq k (length tasks - k)) st_k = Ok st.
Proof.
  intros Hb Hn. induction j as [|j IH]; intros k st_k Hkj Hbk.
  - assert (k = n) as -> by lia.
    rewrite (built_functional _ _ _ Hbk Hb).
    destruct (decide (n = length tasks)) as [->|Hne].
    + by rewrite Nat.sub_diag.
    + assert (Hlt : n < length tasks) by lia.
      assert (Hag : n = length agents) by lia.
      replace (length tasks - n) with (S (length tasks - S n)) by lia.
      simpl. destruct (getitem_nat_lt tasks n Hlt) as (d & _ & ->). simpl.
      rewrite <- Hag. by rewrite Nat.eqb_refl.
  - destruct (built_next n st k Hb) as (d & st_k' & st_k1 & Hbk' & Hd & Hlt & Hbody & Hb1);
      [lia|].
    rewrite (built_functional _ _ _ Hbk' Hbk) in Hbody.
    apply lookup_lt_Some in Hd as Hlen.
    replace (length tasks - k) with (S (length tasks - S k)) by lia.
    simpl. apply getitem_nat_Ok in Hd. rewrite Hd. simpl.
    destruct (Nat.eqb_spec k (length agents)) as [?|_]; [lia|].
    rewrite Hbody. simpl. apply IH; [lia|done].
Qed.

Lemma build_planned_tasks_built (st : store) :
  build_planned_tasks roster tasks agents dependencies outputs = Ok st
  <-> built (Nat.min (length tasks) (length agents)) st.
Proof.
  split.
  - intros Hloop. eapply loop_built; [apply built_O| |exact Hloop]. done.
  - intros Hb. unfold build_planned_tasks.
    rewrite <- (Nat.sub_0_r (length tasks)) at 1.
    apply (built_loop _ st Hb eq_refl
             (Nat.min (length tasks) (length agents)) 0 empty_store);
      [lia|apply built_O].
Qed.

(** The turn that raises, when the loop raises. *)
Lemma loop_raise_inv (n k : nat) (st : store) (e : exn) :
  built k st -> k + n = length tasks ->
  loop (seq k n) st = Raise e ->
  exists i d st_i,
    built i st_i /\ tasks !! i = Some d /\ i < length agents /\
    body i d st_i = Raise e.
Proof.
  revert k st. induction n as [|n IH]; intros k st Hk Hlen; simpl; [discriminate|].
  destruct (getitem_nat_lt tasks k) as (d & Hd & ->); [lia|]. simpl.
  destruct (Nat.eqb_spec k (length agents)) as [?|Hne]; [discriminate|].
  pose proof (built_shape _ _ Hk) as (_ & _ & _ & Hka).
  destruct (body k d st) as [st1|e1] eqn:Hb; simpl.
  - apply (IH (S k) st1); [|lia].
    eapply built_S; [exact Hk|exact Hd|lia|exact Hb].
  - intros [= <-]. exists k, d, st. repeat split; try done. lia.
Qed.

(** A turn that raises after turns that went through makes the loop
    raise. *)
Lemma built_raise_loop (i : nat) (d : string) (st_i : store) (e : exn) :
  built i st_i -> tasks !! i = Some d -> i < length agents ->
  body i d st_i = Raise e ->
  build_planned_tasks roster tasks agents dependencies outputs = Raise e.
Proof.
  intros Hb Hd Hi Hbody.
  assert (Hgen : forall j k st_k, k + j = i -> built k st_k ->
            loop (seq k (length tasks - k)) st_k = Raise e).
  { induction j as [|j IH]; intros k st_k Hkj Hbk.
    - assert (k = i) as -> by lia.
      rewrite (built_functional _ _ _ Hbk Hb).
      apply lookup_lt_Some in Hd as Hlen.
      replace (length tasks - i) with (S (length tasks - S i)) by lia.
      simpl. apply getitem_nat_Ok in Hd. rewrite Hd. simpl.
      destruct (Nat.eqb_spec i (length agents)) as [?|_]; [lia|].
      by rewrite Hbody.
    - destruct (built_earlier i st_i (S k) Hb) as (st_k1 & Hbk1 & _); [lia|].
      destruct (built_next (S k) st_k1 k Hbk1)
        as (d' & st_k' & st_k1' & Hbk' & Hd' & Hlt & Hbody' & Hb1); [lia|].
      rewrite (built_functional _ _ _ Hbk' Hbk) in Hbody'.
      apply lookup_lt_Some in Hd' as Hlen.
      replace (length tasks - k) with (S (length tasks - S k)) by lia.
      simpl. apply getitem_nat_Ok in Hd'. rewrite Hd'. simpl.
      destruct (Nat.eqb_spec k (length agents)) as [?|_]; [lia|].
      rewrite Hbody'. simpl. apply IH; [lia|done]. }
  unfold build_planned_tasks.
  rewrite <- (Nat.sub_0_r (length tasks)) at 1.
  apply (Hgen i 0 empty_store); [lia|apply built_O].
Qed.

(** A store built by more turns than [i]: the dependency text of the turn
    [i] was resolved. *)
Lemma built_context_Ok (n : nat) (st : store) (i : nat) :
  built n st -> i < n ->
  exists ctx, build_context (seq 0 i) (dependency_at dependencies i) = Ok ctx.
Proof.
  intros Hb Hi. destruct (built_task_at n st i Hb Hi) as [t Ht].
  destruct (task_at_inv _ _ _ _ Hb Ht) as (_ & d & an & a & _ & _ & _ & Hctx & _).
  by eauto.
Qed.

End Loop.

(** Cutting the four sections after [k] entries leaves the first [k] turns
    as they are. *)
Lemma built_take (roster : list Agent)
    (tasks agents dependencies outputs : list string)
    (k i : nat) (st : store) :
  Planner.built roster tasks agents dependencies outputs i st -> i <= k ->
  Planner.built roster (take k tasks) (take k agents) (take k dependencies)
    (take k outputs) i st.
Proof.
  induction 1 as [|i d st st' Hb IH Hd Hlt Hbody]; intros Hk; [constructor|].
  apply body_Ok_inv in Hbody as (an & a & ctx & Han & Ha & Hctx & ->).
  eapply built_S.
  - apply IH. lia.
  - rewrite lookup_take_lt by lia. exact Hd.
  - rewrite length_take. lia.
  - assert (output_at (take k outputs) i = output_at outputs i) as <-
      by (unfold output_at; by rewrite lookup_take_lt by lia).
    eapply body_Ok_intro.
    + rewrite lookup_take_lt by lia. exact Han.
    + exact Ha.
    + unfold dependency_at in *. by rewrite lookup_take_lt by lia.
Qed.

(** A turn reads the entries of its own index only. *)
Lemma body_take (roster : list Agent) (agents dependencies outputs : list string)
    (n i : nat) (d : string) (st : store) :
  i < n ->
  Planner.body roster (take n agents) (take n dependencies) (take n outputs) i d st
  = Planner.body roster agents dependencies outputs i d st.
Proof.
  intros Hi. unfold Planner.body. rewrite !dependency_read, !output_read.
  rewrite !getitem_nat. unfold dependency_at, output_at.
  by rewrite !lookup_take_lt by done.
Qed.

(** The loop reads nothing beyond the shorter of the tasks and the agents:
    it goes the same way on the sections cut to that length. *)
Lemma loop_cut (roster : list Agent)
    (tasks agents dependencies outputs : list string) (b k : nat) (st : store) :
  k + b = Nat.min (length tasks) (length agents) ->
  Planner.loop roster tasks agents dependencies outputs
    (seq k (length tasks - k)) st
  = Planner.loop roster
      (take (Nat.min (length tasks) (length agents)) tasks)
      (take (Nat.min (length tasks) (length agents)) agents)
      (take (Nat.min (length tasks) (length agents)) dependencies)
      (take (Nat.min (length tasks) (length agents)) outputs)
      (seq k b) st.
Proof.
  set (n := Nat.min (length tasks) (length agents)).
  revert k st. induction b as [|b IH]; intros k st Hk.
  - simpl. destruct (decide (k = length tasks)) as [->|Hne].
    + by rewrite Nat.sub_diag.
    + replace (length tasks - k) with (S (length tasks - S k)) by lia.
      simpl. destruct (getitem_nat_lt tasks k) as (d & _ & ->); [lia|]. simpl.
      destruct (Nat.eqb_spec k (length agents)) as [_|?]; [done|lia].
  - replace (length tasks - k) with (S (length tasks - S k)) by lia.
    simpl. rewrite !getitem_nat, lookup_take_lt by lia.
    destruct (lookup_lt_is_Some_2 tasks k) as [d ->]; [lia|]. simpl.
    rewrite length_take.
    destruct (Nat.eqb_spec k (length agents)) as [?|_]; [lia|].
    destruct (Nat.eqb_spec k (Nat.min n (length agents))) as [?|_]; [lia|].
    rewrite body_take by lia.
    destruct (Planner.body roster agents dependencies outputs k d st)
      as [st1|e]; simpl; [|done].
    apply IH. lia.
Qed.

Lemma build_planned_tasks_cut (roster : list Agent)
    (tasks agents dependencies outputs : list string) :
  build_planned_tasks roster tasks agents dependencies outputs
  = build_planned_tasks roster
      (take (Nat.min (length tasks) (length agents)) tasks)
      (take (Nat.min (length tasks) (length agents)) agents)
      (take (Nat.min (length tasks) (length agents)) dependencies)
      (take (Nat.min (length tasks) (length agents)) outputs).
Proof.
  unfold build_planned_tasks.
  rewrite <- (Nat.sub_0_r (length tasks)) at 1.
  rewrite (loop_cut _ _ _ _ _ (Nat.min (length tasks) (length agents)) 0) by lia.
  rewrite length_take. f_equal. f_equal. lia.
Qed.

End PlannerFacts.

(** ** The claims about the planning workflow *)

Module PlannerSpec.
Import Text TextFacts TokenFacts PyFacts Planner PlannerFacts.

(** *** Construction *)

Lemma init_Ok (task : Task) (roster : list Agent) (model : string) (w : calls) :
  agents task = Some roster -> roster <> [] ->
  __init__ (TaskList [task]) model w = (Ok (mkWorkflow [task] [] 10 model 5), w).
Proof.
  intros Hr Hne. unfold __init__, mbind, M_bind, lift, _verify_tasks. simpl.
  rewrite Hr. destruct roster; [done|done].
Qed.

(** C5. Constructing the workflow with a list of tasks that does not have
    exactly one task, or with one task whose agents are None or an empty
    list, raises [ValueError], no call to the model having been made; with
    one task that has at least one agent the construction succeeds. *)
Theorem C5_construction_checks_task_shape (model : string) (w : calls) :
  (forall l : list Task, length l <> 1 ->
     exists msg, __init__ (TaskList l) model w = (Raise (ValueError msg), w))
  /\ (forall task : Task, agents task = None \/ agents task = Some [] ->
        exists msg, __init__ (TaskList [task]) model w = (Raise (ValueError msg), w))
  /\ (forall (task : Task) (roster : list Agent),
        agents task = Some roster -> roster <> [] ->
        exists self, __init__ (TaskList [task]) model w = (Ok self, w)
                     /\ tasks self = [task] /\ llm self = model).
Proof.
  split; [|split].
  - intros l Hlen. exists "Planning only supports one task".
    unfold __init__, mbind, M_bind, lift, _verify_tasks.
    destruct (Nat.eqb_spec (length l) 1) as [?|_]; [done|]. done.
  - intros task Hag. exists "Task must have at least one agent".
    unfold __init__, mbind, M_bind, lift, _verify_tasks. simpl.
    by destruct Hag as [-> | ->].
  - intros task roster Hr Hne. eexists. split; [by eapply init_Ok|done].
Qed.

(** *** A run of [generate_steps] on a verified workflow *)

Section Run.

Context (watsonx_llm : string -> string -> string).
Context (agent_descriptions : list Agent -> string).
Context (get_prompt : string -> string -> string).
Context (self : NewPlanningWorkflow) (task : Task) (roster : list Agent).

Hypothesis Hself : Planner.tasks self = [task].
Hypothesis Hroster : Planner.agents task = Some roster.

Let prompt : string := get_prompt (description task) (agent_descriptions roster).
Let final_plan : string := watsonx_llm prompt (llm self).
Let tasks : list string := findall task_pattern final_plan.
Let agents : list string := findall agent_pattern final_plan.
Let dependencies : list string := findall dependency_pattern final_plan.
Let outputs : list string := findall output_pattern final_plan.

Abbreviation run := (generate_steps watsonx_llm agent_descriptions get_prompt).

Lemma generate_steps_result (w : calls) :
  run self w
  = (build_planned_tasks roster tasks agents dependencies outputs,
     (w ++ [(prompt, llm self)])%list).
Proof.
  unfold generate_steps, mbind, M_bind, lift, call_llm, iter_agents.
  rewrite Hself. simpl. by rewrite Hroster.
Qed.

Lemma generate_steps_built (w w' : calls) (st : store) :
  run self w = (Ok st, w') ->
  built roster tasks agents dependencies outputs
    (Nat.min (length tasks) (length agents)) st.
Proof.
  rewrite generate_steps_result. intros [= Hloop _].
  eapply loop_built; [apply built_O| |exact Hloop]. done.
Qed.

Lemma generate_steps_raise (w w' : calls) (e : exn) :
  run self w = (Raise e, w') -> plan_error e.
Proof.
  rewrite generate_steps_result. intros [= Hloop _].
  by eapply loop_raise.
Qed.

Lemma generate_steps_total (w : calls) :
  roster <> [] ->
  (forall i, i < Nat.min (length tasks) (length agents) ->
     exists ns, numbers (dependency_at dependencies i) = Ok ns /\
                forall m, m ∈ ns -> (1 - Z.of_nat i <= m <= Z.of_nat i)%Z) ->
  exists st, run self w = (Ok st, (w ++ [(prompt, llm self)])%list).
Proof.
  intros Hne Hrefs. rewrite generate_steps_result.
  destruct (loop_total roster tasks agents dependencies outputs
              (length tasks) 0 empty_store Hne Hrefs) as [st Hst];
    [apply built_O|done|].
  exists st. unfold build_planned_tasks. by rewrite Hst.
Qed.

(** The loop having reached the step [i], a dependency text that is not
    resolved there makes the run raise. *)
Lemma turn_raises (w : calls) (i : nat) (st_i : store) (e : exn) :
  i < length tasks -> i < length agents ->
  first_turns roster tasks agents dependencies outputs i = Ok st_i ->
  build_context (seq 0 i) (dependency_at dependencies i) = Raise e ->
  (run self w).1 = Raise e
  \/ (roster = [] /\ (run self w).1 = Raise IndexError).
Proof.
  intros Hit Hia Hturns Hctx.
  apply first_turns_built in Hturns as Hb; [|lia|lia].
  pose proof (built_shape _ _ _ _ _ _ _ Hb) as (Hp & _).
  destruct (lookup_lt_is_Some_2 tasks i Hit) as [d Hd].
  rewrite <- Hp in Hctx. rewrite generate_steps_result. simpl.
  destruct (body_context_raise roster agents dependencies outputs i d st_i e
              Hia Hctx) as [Hbody|[Hempty Hbody]].
  - left. by eapply built_raise_loop.
  - right. split; [done|]. by eapply built_raise_loop.
Qed.

(** C7. When the dependency text of a step is the literal None, the
    sub-task generated for that step has an empty context list. *)
Theorem C7_none_dependency_empty_context
    (w w' : calls) (st : store) (i : nat) (t : Task) :
  run self w = (Ok st, w') ->
  task_at st i = Some t ->
  dependency_at dependencies i = "None" ->
  context t = [].
Proof.
  intros Hrun%generate_steps_built Ht Hdep.
  destruct (task_at_inv _ _ _ _ _ _ _ _ _ Hrun Ht)
    as (_ & d & an & a & _ & _ & _ & Hctx & _).
  rewrite Hdep, build_context_None in Hctx. by injection Hctx as <-.
Qed.

(** The context of the sub-task at position [i], number by number. *)
Lemma context_tokens (w w' : calls) (st : store) (i : nat) (t : Task) :
  run self w = (Ok st, w') ->
  task_at st i = Some t ->
  exists ns,
    numbers (dependency_at dependencies i) = Ok ns /\
    Forall2 (fun n r => getitem (seq 0 i) (n - 1)%Z = Ok r) ns (context t).
Proof.
  intros Hrun%generate_steps_built Ht.
  destruct (task_at_inv _ _ _ _ _ _ _ _ _ Hrun Ht)
    as (_ & d & an & a & _ & _ & _ & Hctx & _).
  by apply build_context_Ok_inv.
Qed.

Lemma plan_positions (w w' : calls) (st : store) (k : nat) :
  run self w = (Ok st, w') ->
  k < Nat.min (length tasks) (length agents) ->
  planned_tasks st !! k = Some k /\ is_Some (task_at st k).
Proof.
  intros Hrun%generate_steps_built Hk.
  destruct (built_task_at _ _ _ _ _ _ _ k Hrun Hk) as [t Ht].
  apply built_shape in Hrun as (-> & _).
  split; [by rewrite lookup_seq_lt|by eauto].
Qed.

(** C1 (amended). For a step whose dependency text is not the literal
    None.  A text made of tokens [#S<n>], the numbers in decimal, is read
    as the list of these numbers when no token has more than 4300 digits,
    and is refused with [ValueError] when one has.  In a returned plan the
    context has one entry per number read, in token order, each one looked
    up at index [n - 1] of the sub-tasks built so far; the entry of a
    number [n >= 1] is position [n - 1] of the plan, a sub-task built
    before the step ([#S1] is the first generated step).  When the loop
    reaches the step, a number that exceeds the count of sub-tasks built so
    far makes the run raise [IndexError], and tokens that are not read make
    it raise the [ValueError] of [int]. *)
Theorem C1_dependency_tokens_resolved (w : calls) (i : nat) :
  i < length tasks -> i < length agents ->
  dependency_at dependencies i <> "None" ->
  (forall (pre : string) (toks : list (N * string)),
     dependency_at dependencies i = dependency_text pre toks ->
     separated pre toks = true ->
     if digits_at_most int_max_str_digits toks
     then numbers (dependency_at dependencies i) = Ok (token_numbers toks)
     else exists k, int_max_str_digits < k /\
            numbers (dependency_at dependencies i)
            = Raise (ValueError (exceeds_limit k)))
  /\ (forall st w', run self w = (Ok st, w') ->
        exists t ns,
          task_at st i = Some t /\
          numbers (dependency_at dependencies i) = Ok ns /\
          Forall2 (fun n r => getitem (take i (planned_tasks st)) (n - 1)%Z = Ok r)
            ns (context t) /\
          forall j n, ns !! j = Some n -> (1 <= n)%Z ->
            (n <= Z.of_nat i)%Z /\
            context t !! j = planned_tasks st !! Z.to_nat (n - 1) /\
            is_Some (task_at st (Z.to_nat (n - 1))))
  /\ (forall st_i ns,
        first_turns roster tasks agents dependencies outputs i = Ok st_i ->
        numbers (dependency_at dependencies i) = Ok ns ->
        (exists n, n ∈ ns /\ (Z.of_nat i < n)%Z) ->
        (run self w).1 = Raise IndexError)
  /\ (forall st_i e,
        first_turns roster tasks agents dependencies outputs i = Ok st_i ->
        roster <> [] ->
        numbers (dependency_at dependencies i) = Raise e ->
        (run self w).1 = Raise e /\
        exists k, int_max_str_digits < k /\ e = ValueError (exceeds_limit k)).
Proof.
  intros Hit Hia Hdep. split; [|split; [|split]].
  - intros pre toks Heq Hsep. rewrite Heq.
    destruct (digits_at_most int_max_str_digits toks) eqn:Hshort.
    + by apply numbers_dependency_text.
    + by apply numbers_long_token.
  - intros st w' Hrun. pose proof (generate_steps_built _ _ _ Hrun) as Hb.
    destruct (built_task_at _ _ _ _ _ _ _ i Hb) as [t Ht]; [lia|].
    destruct (context_tokens _ _ _ _ _ Hrun Ht) as (ns & Hns & HF).
    exists t, ns. split; [done|]. split; [done|]. split.
    { apply built_shape in Hb as (-> & _).
      rewrite take_seq. by replace (i `min` _) with i by lia. }
    intros j n Hj Hn.
    destruct (Forall2_lookup_l _ _ _ _ _ HF Hj) as (r & Hr & Hget).
    assert (Hle : (n <= Z.of_nat i)%Z).
    { destruct (Z.le_gt_cases n (Z.of_nat i)) as [|Hgt]; [done|].
      rewrite getitem_pred_big in Hget by (rewrite length_seq; lia). done. }
    destruct (getitem_pred_Ok (seq 0 i) n) as (x & Hx & Hget');
      [rewrite length_seq; lia|].
    rewrite Hget in Hget'. injection Hget' as ->.
    apply lookup_seq in Hx as [-> _]. simpl.
    destruct (plan_positions _ _ _ (Z.to_nat (n - 1)) Hrun) as [Hp Hs]; [lia|].
    split; [done|]. split; [|done].
    etrans; [exact Hr|]. symmetry. exact Hp.
  - intros st_i ns Hturns Hns (n & Hin & Hgt).
    assert (Hctx : build_context (seq 0 i) (dependency_at dependencies i)
                   = Raise IndexError).
    { rewrite build_context_not_None, Hns by done. simpl.
      destruct (mapM _ ns) as [ctx|e] eqn:Hmap.
      - apply mapM_Ok_inv in Hmap.
        apply list_elem_of_lookup in Hin as [j Hj].
        destruct (Forall2_lookup_l _ _ _ _ _ Hmap Hj) as (r & _ & Hget).
        rewrite getitem_pred_big in Hget by (rewrite length_seq; lia). done.
      - f_equal. apply (mapM_raise _ _ _ _ (fun x e' => getitem_raise _ _ e') Hmap). }
    by destruct (turn_raises w i st_i _ Hit Hia Hturns Hctx) as [?|[_ ?]].
  - intros st_i e Hturns Hne Hns. split.
    + assert (Hctx : build_context (seq 0 i) (dependency_at dependencies i)
                     = Raise e)
        by (by rewrite build_context_not_None, Hns by done).
      by destruct (turn_raises w i st_i _ Hit Hia Hturns Hctx) as [?|[? _]].
    + by apply numbers_raise in Hns.
Qed.

(** C2. In a plan that [generate_steps] returns, whatever the context of
    the sub-task at position [i] holds is found at a position of the plan
    strictly before [i], and at no position from [i] on. *)
Theorem C2_context_earlier_only
    (w w' : calls) (st : store) (i : nat) (t : Task) (r : ref) :
  run self w = (Ok st, w') ->
  task_at st i = Some t ->
  r ∈ context t ->
  (exists k, k < i /\ planned_tasks st !! k = Some r) /\
  (forall k, planned_tasks st !! k = Some r -> k < i).
Proof.
  intros Hrun Ht Hr. pose proof (generate_steps_built _ _ _ Hrun) as Hb.
  destruct (task_at_inv _ _ _ _ _ _ _ _ _ Hb Ht)
    as (Hi & d & an & a & _ & _ & _ & Hctx & _).
  apply (build_context_elem _ _ _ r Hctx) in Hr.
  apply elem_of_seq in Hr as [_ Hr]. simpl in Hr.
  apply built_shape in Hb as (Hp & _). rewrite Hp. split.
  - exists r. split; [done|]. apply lookup_seq_lt. lia.
  - intros k [-> _]%lookup_seq. done.
Qed.

(** C6. Every generated sub-task is bound to exactly one agent, taken from
    the roster: the first agent whose name is the parsed agent name when
    the roster has one of that name, the first agent of the roster when
    it has none. *)
Theorem C6_single_bound_agent
    (w w' : calls) (st : store) (i : nat) (t : Task) :
  run self w = (Ok st, w') ->
  task_at st i = Some t ->
  exists agent_name a,
    agents !! i = Some agent_name /\
    Planner.agents t = Some [a] /\ a ∈ roster /\
    ((exists b, b ∈ roster /\ name b = agent_name) ->
     name a = agent_name /\
     exists k, roster !! k = Some a /\
               forall k' b, k' < k -> roster !! k' = Some b ->
                            name b <> agent_name) /\
    ((forall b, b ∈ roster -> name b <> agent_name) -> roster !! 0 = Some a).
Proof.
  intros Hrun%generate_steps_built Ht.
  destruct (task_at_inv _ _ _ _ _ _ _ _ _ Hrun Ht)
    as (_ & d & an & a & _ & Han & Hsel & _ & Heq).
  exists an, a. split; [done|]. split; [by rewrite Heq|].
  apply select_agent_spec in Hsel as (Hin & Hfind). split; [done|].
  split.
  - intros (b & Hb & Hname). destruct Hfind as [Hf|(Hf & _)].
    + apply find_Some_first in Hf as (Hf & k & Hk & Hfirst).
      split; [by apply String.eqb_eq in Hf|].
      exists k. split; [done|]. intros k' c Hlt Hc.
      apply String.eqb_neq. by eapply Hfirst.
    + apply list_elem_of_In in Hb.
      apply (List.find_none _ _ Hf) in Hb. simpl in Hb.
      apply String.eqb_neq in Hb. done.
  - intros Hnone. destruct Hfind as [Hf|(_ & H0)]; [|done].
    apply List.find_some in Hf as [_ Hf]. apply String.eqb_eq in Hf.
    by destruct (Hnone a Hin).
Qed.

(** C10. A token [#S0] is read as the number 0, which looks up position
    [0 - 1], the last of the sub-tasks built so far: on the first step,
    where none is built, the run raises [IndexError]; on a later step a
    returned plan has the sub-task just before the step at that place of
    the context; and the number alone never makes a later step raise. *)
Theorem C10_S0_resolves_to_last (w : calls) (i j : nat) (ns : list Z) :
  i < length tasks -> i < length agents ->
  dependency_at dependencies i <> "None" ->
  numbers (dependency_at dependencies i) = Ok ns ->
  ns !! j = Some 0%Z ->
  (i = 0 -> (run self w).1 = Raise IndexError)
  /\ (forall st w', run self w = (Ok st, w') ->
        0 < i /\
        exists t, task_at st i = Some t /\
          context t !! j = planned_tasks st !! (i - 1) /\
          is_Some (task_at st (i - 1)))
  /\ (numbers "#S0" = Ok [0%Z] /\
      forall (planned : list ref) (r : ref),
        last planned = Some r -> build_context planned "#S0" = Ok [r])
  /\ (roster <> [] ->
      (forall i' : nat,
          i' < Nat.min (length tasks) (length agents) ->
          exists ms, numbers (dependency_at dependencies i') = Ok ms /\
            forall m, m ∈ ms ->
              (m = 0%Z /\ 0 < i') \/ (1 <= m <= Z.of_nat i')%Z) ->
      exists st, (run self w).1 = Ok st).
Proof.
  intros Hit Hia Hdep Hns Hj.
  assert (Hlater : forall st w', run self w = (Ok st, w') ->
    0 < i /\
    exists t, task_at st i = Some t /\
      context t !! j = planned_tasks st !! (i - 1) /\
      is_Some (task_at st (i - 1))).
  { intros st w' Hrun. pose proof (generate_steps_built _ _ _ Hrun) as Hb.
    destruct (built_task_at _ _ _ _ _ _ _ i Hb) as [t Ht]; [lia|].
    destruct (context_tokens _ _ _ _ _ Hrun Ht) as (ns' & Hns' & HF).
    rewrite Hns in Hns'. injection Hns' as <-.
    destruct (Forall2_lookup_l _ _ _ _ _ HF Hj) as (r & Hr & Hget).
    rewrite getitem_minus_one in Hget.
    destruct i as [|i'].
    { simpl in Hget. discriminate. }
    split; [lia|]. exists t. split; [done|].
    rewrite seq_S, last_snoc in Hget. injection Hget as <-.
    replace (S i' - 1) with i' by lia.
    destruct (plan_positions _ _ _ i' Hrun) as [Hp Hs]; [lia|].
    split; [|done]. etrans; [exact Hr|]. symmetry. exact Hp. }
  split; [|split; [done|split]].
  - intros ->.
    assert (Hctx : build_context (seq 0 0) (dependency_at dependencies 0)
                   = Raise IndexError).
    { rewrite build_context_not_None, Hns by done. simpl.
      destruct (mapM _ ns) as [ctx|e] eqn:Hmap.
      - apply mapM_Ok_inv in Hmap.
        destruct (Forall2_lookup_l _ _ _ _ _ Hmap Hj) as (r & _ & Hget).
        rewrite getitem_minus_one in Hget. done.
      - f_equal. apply (mapM_raise _ _ _ _ (fun x e' => getitem_raise _ _ e') Hmap). }
    by destruct (turn_raises w 0 empty_store _ Hit Hia eq_refl Hctx) as [?|[_ ?]].
  - split; [by vm_compute|]. intros planned r Hlast.
    rewrite build_context_not_None by done.
    replace (numbers "#S0") with (Ok [0%Z] : result (list Z)) by (by vm_compute).
    simpl. by rewrite getitem_minus_one, Hlast.
  - intros Hne Hrefs.
    destruct (generate_steps_total w Hne) as [st Hst].
    + intros i' Hi'. destruct (Hrefs i' Hi') as (ms & Hms & Hrange).
      exists ms. split; [done|]. intros m Hm.
      destruct (Hrange m Hm) as [[-> ?]|?]; lia.
    + exists st. by rewrite Hst.
Qed.

Lemma no_task_or_no_agent (w : calls) :
  tasks = [] \/ agents = [] ->
  run self w = (Ok empty_store, (w ++ [(prompt, llm self)])%list).
Proof.
  intros Hnone. rewrite generate_steps_result. f_equal.
  unfold build_planned_tasks.
  destruct Hnone as [->| ->]; [done|].
  destruct tasks as [|d ds]; [done|]. done.
Qed.

(** C3 (amended). For an input task with exactly one agent,
    [generate_steps] does not raise on a reply with matched sections
    in which every token [#S<n>] of a dependency line is written with at
    most 4300 digits and names an earlier step, and returns one sub-task
    per [#Task] line; on a reply with no [#Task] line or no [#Agent] line,
    the empty reply among them, it returns the empty plan. *)
Theorem C3_no_raise_with_earlier_references (w : calls) :
  (forall a, roster = [a] ->
     well_formed_reply final_plan = true ->
     refs_in_range dependencies = true ->
     exists st, run self w = (Ok st, (w ++ [(prompt, llm self)])%list)
                /\ length (planned_tasks st) = length tasks)
  /\ (tasks = [] \/ agents = [] ->
      run self w = (Ok empty_store, (w ++ [(prompt, llm self)])%list))
  /\ (final_plan = "" ->
      run self w = (Ok empty_store, (w ++ [(prompt, llm self)])%list)).
Proof.
  split; [|split].
  - intros a Ha Hwf Hrefs.
    unfold well_formed_reply in Hwf.
    apply andb_true_iff in Hwf as [Hwf _].
    apply andb_true_iff in Hwf as [Hwf _].
    apply andb_true_iff in Hwf as [_ Hlen%Nat.eqb_eq].
    fold tasks agents in Hlen.
    destruct (generate_steps_total w) as [st Hst].
    + by rewrite Ha.
    + intros i _.
      destruct (refs_in_range_from_spec 0 _ Hrefs i) as (ns & Hns & Hrange).
      exists ns. split; [done|]. intros m Hm.
      specialize (Hrange m Hm). simpl in *. lia.
    + exists st. split; [done|].
      apply generate_steps_built, built_shape in Hst as (-> & _).
      rewrite length_seq. lia.
  - apply no_task_or_no_agent.
  - intros Hempty. apply no_task_or_no_agent. left.
    subst tasks. by rewrite Hempty.
Qed.

(** C4 (amended). The loop stops at the first index without a task or
    without an agent entry: a returned plan has as many sub-tasks as the
    shorter of these two sections, so a short agents section drops the
    remaining tasks.  The entries beyond that index are never read, and
    the run returns or raises as it does on the four sections cut to that
    length: the mismatch raises nothing, and with a roster that is not
    empty a run raises for a dependency text of a step it builds, that is
    not resolved, and for nothing else.  A dependency or an expected-output
    section that is too short stops nothing: the missing dependency is
    read as None, giving an empty context, and the missing expected output
    as the empty string. *)
Theorem C4_truncation_at_tasks_and_agents (w : calls) :
  (forall st w', run self w = (Ok st, w') ->
     length (planned_tasks st) = Nat.min (length tasks) (length agents) /\
     forall i t, task_at st i = Some t ->
       tasks !! i = Some (description t) /\
       (length outputs <= i -> expected_output t = "") /\
       (length dependencies <= i -> context t = []))
  /\ (run self w).1
     = build_planned_tasks roster
         (take (Nat.min (length tasks) (length agents)) tasks)
         (take (Nat.min (length tasks) (length agents)) agents)
         (take (Nat.min (length tasks) (length agents)) dependencies)
         (take (Nat.min (length tasks) (length agents)) outputs)
  /\ (roster <> [] ->
      forall e, (run self w).1 = Raise e ->
        exists i, i < Nat.min (length tasks) (length agents) /\
                  build_context (seq 0 i) (dependency_at dependencies i)
                  = Raise e).
Proof.
  split; [|split].
  - intros st w' Hrun. pose proof (generate_steps_built _ _ _ Hrun) as Hb.
    split.
    { apply built_shape in Hb as (-> & _). by rewrite length_seq. }
    intros i t Ht.
    destruct (task_at_inv _ _ _ _ _ _ _ _ _ Hb Ht)
      as (_ & d & an & a & Hd & _ & _ & Hctx & Heq).
    split; [by rewrite Heq|]. split.
    + intros Hout. rewrite Heq. simpl. unfold output_at.
      by rewrite lookup_ge_None_2.
    + intros Hdeps. unfold dependency_at in Hctx.
      rewrite lookup_ge_None_2 in Hctx by done. simpl in Hctx.
      rewrite build_context_None in Hctx. by injection Hctx as <-.
  - rewrite generate_steps_result. simpl. apply build_planned_tasks_cut.
  - intros Hne e. rewrite generate_steps_result. simpl. intros Hloop.
    destruct (loop_raise_inv roster tasks agents dependencies outputs
                (length tasks) 0 empty_store e)
      as (i & d & st_i & Hb & Hd & Hia & Hbody); [apply built_O|done|done|].
    apply lookup_lt_Some in Hd.
    exists i. split; [lia|].
    pose proof (built_shape _ _ _ _ _ _ _ Hb) as (Hp & _).
    rewrite <- Hp. by eapply body_raise_inv.
Qed.

End Run.

(** *** The claims on sample runs *)

Section SampleRuns.
Import Examples.

Abbreviation on reply := (answering reply) (only parsing).

Ltac run_it := vm_compute; reflexivity.

Lemma C7_witness :
  exists t, task_at plan_two_steps 0 = Some t /\ context t = [].
Proof.
  eexists. split; [reflexivity|].
  eapply (C7_none_dependency_empty_context (on reply_two_steps)
            no_descriptions goal_prompt workflow goal [iot]
            eq_refl eq_refl [] one_call plan_two_steps 0).
  - run_it.
  - reflexivity.
  - run_it.
Defined.

(** On the third step of [reply_three_steps] the text [#S2 and #S1] is
    read as the numbers 2 and 1 and gives the second and the first
    generated step, in that order; on the second step of
    [reply_forward_reference] the token [#S3] makes the run raise
    [IndexError], and on the second step of [reply_long_reference] the
    token of 4301 digits makes it raise [ValueError]. *)
Lemma C1_witness :
  (numbers "#S2 and #S1" = Ok [2; 1]%Z /\
   exists t, task_at plan_three_steps 2 = Some t /\
             length (context t) = 2 /\
             context t !! 0 = planned_tasks plan_three_steps !! 1 /\
             context t !! 1 = planned_tasks plan_three_steps !! 0)
  /\ (generate reply_forward_reference workflow).1 = Raise IndexError
  /\ (generate reply_long_reference workflow).1
     = Raise (ValueError (exceeds_limit 4301)).
Proof.
  split; [|split].
  - destruct (C1_dependency_tokens_resolved (on reply_three_steps)
                no_descriptions goal_prompt workflow goal [iot]
                eq_refl eq_refl [] 2) as (Hread & Hok & _).
    + vm_compute. lia.
    + vm_compute. lia.
    + vm_compute. discriminate.
    + split.
      * assert (Htext : dependency_at
                  (findall dependency_pattern reply_three_steps) 2
                = dependency_text "" [(2%N, " and "); (1%N, "")]) by run_it.
        exact (Hread "" [(2%N, " and "); (1%N, "")] Htext eq_refl).
      * destruct (Hok plan_three_steps one_call) as (t & ns & Ht & Hns & Hall & Htok);
          [run_it|].
        assert (ns = [2; 1]%Z) as -> by (vm_compute in Hns; congruence).
        exists t. split; [exact Ht|].
        split; [exact (eq_sym (Forall2_length _ _ _ Hall))|].
        destruct (Htok 0 2%Z) as (_ & Hctx0 & _); [reflexivity|lia|].
        destruct (Htok 1 1%Z) as (_ & Hctx1 & _); [reflexivity|lia|].
        split; [exact Hctx0|exact Hctx1].
  - destruct (C1_dependency_tokens_resolved (on reply_forward_reference)
                no_descriptions goal_prompt workflow goal [iot]
                eq_refl eq_refl [] 1) as (_ & _ & Hraise & _).
    + vm_compute. lia.
    + vm_compute. lia.
    + vm_compute. discriminate.
    + apply (Hraise plan_first_step [3%Z]); [run_it|run_it|].
      exists 3%Z. split; [|lia]. apply (list_elem_of_lookup_2 _ 0). reflexivity.
  - destruct (C1_dependency_tokens_resolved (on reply_long_reference)
                no_descriptions goal_prompt workflow goal [iot]
                eq_refl eq_refl [] 1) as (_ & _ & _ & Hlong).
    + vm_compute. lia.
    + vm_compute. lia.
    + vm_compute. discriminate.
    + apply (Hlong plan_first_step (ValueError (exceeds_limit 4301)));
        [run_it|discriminate|run_it].
Defined.

Lemma C2_witness :
  (exists k, k < 1 /\ planned_tasks plan_two_steps !! k = Some 0) /\
  (forall k, planned_tasks plan_two_steps !! k = Some 0 -> k < 1).
Proof.
  eapply (C2_context_earlier_only (on reply_two_steps)
            no_descriptions goal_prompt workflow goal [iot]
            eq_refl eq_refl [] one_call plan_two_steps 1
            (mkTask "rank the sensors" "ranking" (Some [iot]) [0]) 0).
  - run_it.
  - reflexivity.
  - apply (list_elem_of_lookup_2 _ 0). reflexivity.
Defined.

(** The second step of [reply_two_steps] names an agent the roster does
    not have and is bound to the first agent of the roster. *)
Lemma C6_witness :
  exists agent_name a,
    findall agent_pattern reply_two_steps !! 1 = Some agent_name /\
    Planner.agents (mkTask "rank the sensors" "ranking" (Some [iot]) [0])
    = Some [a] /\
    a ∈ [iot] /\
    ((exists b, b ∈ [iot] /\ name b = agent_name) ->
     name a = agent_name /\
     exists k, [iot] !! k = Some a /\
               forall k' b, k' < k -> [iot] !! k' = Some b ->
                            name b <> agent_name) /\
    ((forall b, b ∈ [iot] -> name b <> agent_name) -> [iot] !! 0 = Some a).
Proof.
  eapply (C6_single_bound_agent (on reply_two_steps)
            no_descriptions goal_prompt workflow goal [iot]
            eq_refl eq_refl [] one_call plan_two_steps 1).
  - run_it.
  - reflexivity.
Defined.

Lemma C10_witness :
  (0 < 1 /\
   exists t, task_at plan_S0 1 = Some t /\
             context t !! 0 = planned_tasks plan_S0 !! (1 - 1) /\
             is_Some (task_at plan_S0 (1 - 1)))
  /\ (generate reply_S0_first workflow).1 = Raise IndexError.
Proof.
  split.
  - destruct (C10_S0_resolves_to_last (on reply_S0)
                no_descriptions goal_prompt workflow goal [iot]
                eq_refl eq_refl [] 1 0 [0%Z]) as (_ & Hlater & _).
    + vm_compute. lia.
    + vm_compute. lia.
    + vm_compute. discriminate.
    + run_it.
    + reflexivity.
    + apply (Hlater plan_S0 one_call). run_it.
  - destruct (C10_S0_resolves_to_last (on reply_S0_first)
                no_descriptions goal_prompt workflow goal [iot]
                eq_refl eq_refl [] 0 0 [0%Z]) as (Hfirst & _).
    + vm_compute. lia.
    + vm_compute. lia.
    + vm_compute. discriminate.
    + run_it.
    + reflexivity.
    + apply Hfirst. reflexivity.
Defined.

Lemma C3_witness :
  (exists st, generate reply_two_steps workflow = (Ok st, one_call) /\
              length (planned_tasks st) = 2)
  /\ generate "" workflow = (Ok empty_store, one_call).
Proof.
  split.
  - destruct (C3_no_raise_with_earlier_references (on reply_two_steps)
                no_descriptions goal_prompt workflow goal [iot]
                eq_refl eq_refl []) as (Hok & _ & _).
    apply (Hok iot); [reflexivity|run_it|run_it].
  - destruct (C3_no_raise_with_earlier_references (on "")
                no_descriptions goal_prompt workflow goal [iot]
                eq_refl eq_refl []) as (_ & _ & Hempty).
    apply Hempty. reflexivity.
Defined.

(** Two tasks and one agent: a plan of one sub-task.  Two tasks, one agent
    and a dependency line that refers to a first step: the run raises as
    it does on the sections cut after one entry, for the dependency text
    read at the first step. *)
Lemma C4_witness :
  length (planned_tasks plan_first_agent) = Nat.min 2 1
  /\ (generate reply_dangling workflow).1
     = build_planned_tasks [iot] ["find the sensors"] ["IoT"] ["#S1"] []
  /\ exists i, i < Nat.min 2 1 /\
               build_context (seq 0 i) (dependency_at ["#S1"] i)
               = Raise IndexError.
Proof.
  split; [|split].
  - destruct (C4_truncation_at_tasks_and_agents (on reply_short_agents)
                no_descriptions goal_prompt workflow goal [iot]
                eq_refl eq_refl []) as (Hshape & _).
    apply (Hshape _ one_call). run_it.
  - destruct (C4_truncation_at_tasks_and_agents (on reply_dangling)
                no_descriptions goal_prompt workflow goal [iot]
                eq_refl eq_refl []) as (_ & Hcut & _).
    exact Hcut.
  - destruct (C4_truncation_at_tasks_and_agents (on reply_dangling)
                no_descriptions goal_prompt workflow goal [iot]
                eq_refl eq_refl []) as (_ & _ & Hraise).
    apply Hraise; [discriminate|run_it].
Defined.

Lemma C5_witness :
  (exists msg, __init__ (TaskList []) "llama" [] = (Raise (ValueError msg), []))
  /\ (exists msg, __init__ (TaskList [mkTask "goal" "" None []]) "llama" []
                  = (Raise (ValueError msg), []))
  /\ (exists self, __init__ (TaskList [goal]) "llama" [] = (Ok self, [])
                   /\ Planner.tasks self = [goal] /\ llm self = "llama").
Proof.
  destruct (C5_construction_checks_task_shape "llama" []) as (Hlen & Hnone & Hok).
  split; [|split].
  - apply Hlen. simpl. lia.
  - apply Hnone. left. reflexivity.
  - apply (Hok goal [iot]); [reflexivity|discriminate].
Defined.

(** C1 (as stated) fails.  On the second step of [reply_long_reference]
    the token is the number 1 written with 4301 digits and one sub-task is
    built, yet the token is not resolved: the run raises [ValueError].  On
    the first step of [reply_long_first] the number of the token,
    [10 ^ 4300], exceeds the count of sub-tasks built so far, and the run
    raises that [ValueError], not [IndexError]. *)
Lemma C1_counterexample :
  (findall dependency_pattern reply_long_reference !! 1 = Some ("#S" +:+ long_one) /\
   digits long_one = true /\ String.length long_one = 4301 /\
   digits_value (digit_values long_one) = 1%Z /\
   first_turns [iot]
     (findall task_pattern reply_long_reference)
     (findall agent_pattern reply_long_reference)
     (findall dependency_pattern reply_long_reference)
     (findall output_pattern reply_long_reference) 1 = Ok plan_first_step /\
   (generate reply_long_reference workflow).1
   = Raise (ValueError (exceeds_limit 4301)))
  /\ (findall dependency_pattern reply_long_first !! 0 = Some ("#S" +:+ long_power) /\
      digits long_power = true /\ String.length long_power = 4301 /\
      (digits_value (digit_values long_power) =? 10 ^ 4300)%Z = true /\
      (generate reply_long_first workflow).1
      = Raise (ValueError (exceeds_limit 4301)) /\
      (generate reply_long_first workflow).1 <> Raise IndexError).
Proof.
  split.
  - repeat apply conj; run_it.
  - repeat apply conj; try run_it. vm_compute. discriminate.
Qed.

(** C3 (as stated) fails: the sections of [reply_self_reference] are
    matched and the input task has exactly one agent, yet the run raises;
    so it does on [reply_long_reference], whose one token names the step
    before with 4301 digits; and [reply_partial], which is not of the asked
    shape, gives a plan of one sub-task. *)
Lemma C3_counterexample :
  (Planner.tasks workflow = [goal] /\ Planner.agents goal = Some [iot] /\
   well_formed_reply reply_self_reference = true /\
   (generate reply_self_reference workflow).1 = Raise IndexError)
  /\ (well_formed_reply reply_long_reference = true /\
      (generate reply_long_reference workflow).1
      = Raise (ValueError (exceeds_limit 4301)))
  /\ (well_formed_reply reply_partial = false /\
      exists st, (generate reply_partial workflow).1 = Ok st /\
                 length (planned_tasks st) = 1).
Proof.
  split; [|split].
  - repeat apply conj; run_it.
  - split; run_it.
  - split; [run_it|]. eexists. split; [run_it|reflexivity].
Qed.

(** C4 (as stated) fails: at index 1 the dependency section and the
    expected-output section of [reply_short_sections] have no entry, and
    the loop builds the second sub-task all the same. *)
Lemma C4_counterexample :
  length (findall task_pattern reply_short_sections) = 2 /\
  length (findall agent_pattern reply_short_sections) = 2 /\
  length (findall dependency_pattern reply_short_sections) = 1 /\
  length (findall output_pattern reply_short_sections) = 0 /\
  generate reply_short_sections workflow = (Ok plan_short_sections, one_call) /\
  length (planned_tasks plan_short_sections) = 2.
Proof. repeat apply conj; run_it. Qed.

End SampleRuns.

End PlannerSpec.

(** ** The claims about the scenario validator *)

Module ValidatorSpec.
Import Validator.

Lemma missing_text_reported (record : gmap string json) :
  record !! "text" = None ->
  "text: field required" ∈ validate_scenario record.
Proof.
  intros Htext. unfold validate_scenario. rewrite Htext.
  apply elem_of_app. right. apply elem_of_app. left. by left.
Qed.

(** A record whose required fields are strings and whose optional fields,
    where present, have their declared shapes, has no error. *)
Lemma well_shaped_record_valid (record : gmap string json) (i t : string) :
  record !! "id" = Some (JStr i) ->
  record !! "text" = Some (JStr t) ->
  (forall field sh v, (field, sh) ∈ optional_fields ->
                      record !! field = Some v -> has_shape sh v = true) ->
  validate_scenario record = [].
Proof.
  intros Hid Htext Hopt.
  assert (Hall : forall fields, fields ⊆ optional_fields ->
    flat_map (fun '(field, sh) =>
                match record !! field with
                | None => []
                | Some v =>
                    if has_shape sh v then []
                    else [field +:+ ": expected " +:+ shape_name sh]
                end) fields = []).
  { induction fields as [|[field sh] fields IH]; intros Hsub; [done|].
    simpl. rewrite IH by set_solver.
    destruct (record !! field) as [v|] eqn:Hv; [|done].
    rewrite (Hopt field sh v); [done|set_solver|done]. }
  unfold validate_scenario. cbv zeta.
  rewrite Hid, Htext, Hall by done. done.
Qed.

(** C8. [validate_scenario] returns the empty error list on a record made
    of an id string and a text string; on a record with an id and no text
    field it returns a list that is not empty and has a message
    mentioning the text field. *)
Theorem C8_validate_scenario_required_fields :
  (forall i t : string,
     validate_scenario (<["id" := JStr i]> (<["text" := JStr t]> ∅)) = [])
  /\ (forall record : gmap string json,
        is_Some (record !! "id") -> record !! "text" = None ->
        validate_scenario record <> [] /\
        exists message, message ∈ validate_scenario record /\
                        mentions "text" message = true).
Proof.
  split.
  - intros i t.
    apply (well_shaped_record_valid _ i t); [done|done|].
    intros field sh v Hin Hv.
    apply lookup_insert_Some in Hv as [[<- _]|[_ Hv]].
    { repeat (apply elem_of_cons in Hin as [[=]|Hin]). by apply elem_of_nil in Hin. }
    apply lookup_insert_Some in Hv as [[<- _]|[_ Hv]]; [|done].
    repeat (apply elem_of_cons in Hin as [[=]|Hin]). by apply elem_of_nil in Hin.
  - intros record _ Htext.
    pose proof (missing_text_reported record Htext) as Hin.
    split.
    + intros Hnil. rewrite Hnil in Hin. by apply elem_of_nil in Hin.
    + exists "text: field required". split; [done|reflexivity].
Qed.

Lemma C8_witness :
  validate_scenario Examples.scenario_113 = [] /\
  validate_scenario Examples.scenario_999 <> [] /\
  exists message, message ∈ validate_scenario Examples.scenario_999 /\
                  mentions "text" message = true.
Proof.
  destruct C8_validate_scenario_required_fields as [Hvalid Hmissing].
  split; [apply Hvalid|].
  apply Hmissing.
  - exists (JStr "999"). reflexivity.
  - reflexivity.
Defined.

(** C9. On a directory that holds one .json file, one .jsonl file, one
    .txt file and one more file that is not a data file, in whatever order
    they are listed, [find_json_files] returns the .json and the .jsonl
    file and nothing else. *)
Theorem C9_find_json_files_data_files_only
    (json_file jsonl_file txt_file other_file : string)
    (directory : list entry) (recursive : bool) :
  extension json_file = ".json" ->
  extension jsonl_file = ".jsonl" ->
  extension txt_file = ".txt" ->
  is_data_file other_file = false ->
  directory ≡ₚ [File json_file; File jsonl_file; File txt_file; File other_file] ->
  find_json_files directory recursive ≡ₚ [json_file; jsonl_file].
Proof.
  intros Hjson Hjsonl Htxt Hother Hperm. unfold find_json_files.
  rewrite (Permutation_flat_map _ Hperm). simpl.
  assert (is_data_file json_file = true) as ->
    by (unfold is_data_file; by rewrite Hjson).
  assert (is_data_file jsonl_file = true) as ->
    by (unfold is_data_file; by rewrite Hjsonl).
  assert (is_data_file txt_file = false) as ->
    by (unfold is_data_file; by rewrite Htxt).
  rewrite Hother. done.
Qed.

Lemma C9_witness :
  find_json_files Examples.test_directory false ≡ₚ ["test.json"; "test.jsonl"].
Proof.
  apply (C9_find_json_files_data_files_only
           "test.json" "test.jsonl" "test.txt" "test.py").
  - reflexivity.
  - reflexivity.
  - reflexivity.
  - reflexivity.
  - reflexivity.
Defined.

End ValidatorSpec.

(** ** More about the extraction of the sections (lines 122-130, 164-165) *)

Module ExtractionSpec.
Import Text TextFacts PyFacts Planner PlannerFacts.

#[local] Arguments String.append : simpl nomatch.

Lemma section_pattern_at_line_feed (label v : string) :
  section_pattern label (LF +:+ v) = None.
Proof. by rewrite section_pattern_eq. Qed.

(** On one line a section pattern finds at most one entry. *)
Lemma one_line_one_entry (label line : string) :
  one_line line = true ->
  length (findall (section_pattern label) line) <= 1.
Proof.
  unfold findall. induction line as [|c t IH]; intros Hline; [simpl; lia|].
  rewrite findall_from_start.
  destruct (section_pattern label (String c t)) as [[g len]|] eqn:Hm.
  - apply section_pattern_whole_line in Hm as ->; [|done].
    simpl String.length. replace (S (String.length t) - 1) with (String.length t) by lia.
    rewrite findall_from_skip_all by done. simpl. lia.
  - apply IH. simpl in Hline. by apply andb_true_iff in Hline as [_ ?].
Qed.

Lemma findall_first_line (label line rest : string) :
  one_line label = true -> one_line line = true ->
  findall (section_pattern label) (line +:+ LF +:+ rest)
  = (findall (section_pattern label) line
     ++ findall (section_pattern label) rest)%list.
Proof.
  intros Hlabel. unfold findall.
  induction line as [|c t IH]; intros Hline.
  - change ("" +:+ LF +:+ rest) with (String (ascii_of_nat 10) rest).
    rewrite findall_from_start.
    change (String (ascii_of_nat 10) rest) with (LF +:+ rest).
    by rewrite section_pattern_at_line_feed.
  - change (String c t +:+ LF +:+ rest) with (String c (t +:+ LF +:+ rest)).
    rewrite !findall_from_start.
    change (String c (t +:+ LF +:+ rest)) with (String c t +:+ LF +:+ rest).
    rewrite section_pattern_first_line by done.
    destruct (section_pattern label (String c t)) as [[g len]|] eqn:Hm.
    + apply section_pattern_whole_line in Hm as ->; [|done].
      simpl String.length.
      replace (S (String.length t) - 1) with (String.length t) by lia.
      rewrite findall_from_skip.
      rewrite (findall_from_skip_all _ _ t) by done.
      change (LF +:+ rest) with (String (ascii_of_nat 10) rest).
      rewrite findall_from_start.
      change (String (ascii_of_nat 10) rest) with (LF +:+ rest).
      by rewrite section_pattern_at_line_feed.
    + apply IH. simpl in Hline. by apply andb_true_iff in Hline as [_ ?].
Qed.

Lemma lines_not_nil (s : string) : lines s <> [].
Proof.
  induction s as [|c s IH]; simpl; [done|].
  destruct (lines s) as [|l ls]; [done|]. by destruct (Ascii.eqb c _).
Qed.

Lemma lines_one_line (s : string) : Forall (fun l => one_line l = true) (lines s).
Proof.
  induction s as [|c s IH]; simpl; [by repeat constructor|].
  pose proof (lines_not_nil s) as Hne.
  destruct (lines s) as [|l ls]; [done|].
  apply Forall_cons in IH as [Hl Hls].
  destruct (Ascii.eqb c (ascii_of_nat 10)) eqn:Hc.
  - by repeat constructor.
  - constructor; [|done]. unfold one_line, is_dot in *. simpl. by rewrite Hc.
Qed.

(** Splitting a text into its lines loses nothing. *)
Lemma unlines_lines (s : string) : unlines (lines s) = s.
Proof.
  induction s as [|c s IH]; [done|]. simpl lines.
  pose proof (lines_not_nil s) as Hne.
  destruct (lines s) as [|l ls]; [done|].
  destruct (Ascii.eqb_spec c (ascii_of_nat 10)) as [->|_].
  - change (unlines ("" :: l :: ls)) with (LF +:+ unlines (l :: ls)).
    by rewrite IH.
  - destruct ls as [|l' ls]; simpl in *; by rewrite <- IH.
Qed.

Lemma findall_unlines (label : string) (ls : list string) :
  one_line label = true ->
  Forall (fun l => one_line l = true) ls ->
  findall (section_pattern label) (unlines ls)
  = flat_map (findall (section_pattern label)) ls.
Proof.
  intros Hlabel. induction 1 as [|l ls Hl Hls IH]; [done|].
  destruct ls as [|l' ls].
  - simpl. by rewrite app_nil_r.
  - change (unlines (l :: l' :: ls)) with (l +:+ LF +:+ unlines (l' :: ls)).
    rewrite findall_first_line by done. by rewrite IH.
Qed.

(** X1. The entries of a section are never empty and never hold a line
    feed. *)
Theorem X1_section_entries_one_line (label s g : string) :
  g ∈ findall (section_pattern label) s ->
  g <> "" /\ one_line g = true.
Proof.
  intros (s' & len & Hm)%findall_from_elem.
  apply section_pattern_Some in Hm as (ds & rest & _ & _ & Hg & Hne & _).
  done.
Qed.

Lemma X1_witness :
  "find the sensors" <> "" /\ one_line "find the sensors" = true.
Proof.
  apply (X1_section_entries_one_line "Task" Examples.reply_two_steps).
  apply (list_elem_of_lookup_2 _ 0). vm_compute. reflexivity.
Defined.

(** X2. The sections are read line by line: what a section pattern finds
    in a reply is what it finds in each line of the reply, in the order of
    the lines, and it finds at most one entry in a line. *)
Theorem X2_sections_read_line_by_line (label s : string) :
  one_line label = true ->
  findall (section_pattern label) s
  = flat_map (findall (section_pattern label)) (lines s)
  /\ Forall (fun l => length (findall (section_pattern label) l) <= 1) (lines s).
Proof.
  intros Hlabel. split.
  - rewrite <- (unlines_lines s) at 1.
    apply findall_unlines; [done|apply lines_one_line].
  - eapply Forall_impl; [apply lines_one_line|].
    intros l Hl. by apply one_line_one_entry.
Qed.

Lemma X2_witness :
  findall task_pattern Examples.reply_two_steps
  = flat_map (findall task_pattern) (lines Examples.reply_two_steps)
  /\ Forall (fun l => length (findall task_pattern l) <= 1)
       (lines Examples.reply_two_steps).
Proof.
  apply (X2_sections_read_line_by_line "Task" Examples.reply_two_steps).
  reflexivity.
Defined.

(** X3. A line made of the label with any digits, a colon, a space and a
    text gives that text as its one entry: the number written in the label
    plays no part. *)
Theorem X3_section_line_entry (label ds g : string) :
  digits ds = true -> ds <> "" -> one_line g = true -> g <> "" ->
  findall (section_pattern label) ("#" +:+ label +:+ ds +:+ ": " +:+ g) = [g].
Proof.
  intros Hds Hne Hg Hgne. unfold findall.
  change ("#" +:+ label +:+ ds +:+ ": " +:+ g)
    with (String "#" (label +:+ ds +:+ ": " +:+ g)).
  rewrite findall_from_start.
  change (String "#" (label +:+ ds +:+ ": " +:+ g))
    with ("#" +:+ label +:+ ds +:+ ": " +:+ g).
  rewrite <- (append_empty_r g) at 1.
  rewrite section_pattern_line by done.
  rewrite findall_from_skip_all; [done|].
  change ("#" +:+ label +:+ ds +:+ ": " +:+ g)
    with (String "#" (label +:+ ds +:+ ": " +:+ g)).
  simpl String.length. lia.
Qed.

Lemma X3_witness :
  findall task_pattern "#Task42: rank the sensors" = ["rank the sensors"].
Proof.
  apply (X3_section_line_entry "Task" "42" "rank the sensors");
    [reflexivity|discriminate|reflexivity|discriminate].
Defined.

End ExtractionSpec.

(** ** More about the loop of [generate_steps] (lines 140-176) *)

Module PlannerMore.
Import Text TextFacts TokenFacts PyFacts Planner PlannerFacts.

(** X4. On a list of sub-tasks that is not empty, a dependency text is
    resolved if and only if its tokens are all converted, none having more
    than 4300 digits, and none of its numbers exceeds the number of
    sub-tasks in the list: the numbers are never negative, so that the
    index [n - 1] never falls below the last sub-task.  A text that is not
    resolved raises the [ValueError] of the conversion or, the tokens being
    converted, [IndexError] for a number beyond the list. *)
Theorem X4_context_fails_only_beyond_the_built
    (planned : list ref) (dependency : string) :
  planned <> [] ->
  ((exists ctx, build_context planned dependency = Ok ctx)
   <-> (exists ns, numbers dependency = Ok ns /\
          forall n, n ∈ ns -> (0 <= n <= Z.of_nat (length planned))%Z))
  /\ (forall e, build_context planned dependency = Raise e ->
        (numbers dependency = Raise e /\
         exists k, int_max_str_digits < k /\ e = ValueError (exceeds_limit k))
        \/ (e = IndexError /\
            exists ns n, numbers dependency = Ok ns /\ n ∈ ns /\
                         (Z.of_nat (length planned) < n)%Z)).
Proof.
  intros Hne.
  assert (0 < length planned) by (destruct planned; [done|simpl; lia]).
  split; [split|].
  - intros [ctx (ns & Hns & HF)%build_context_Ok_inv].
    exists ns. split; [done|]. intros n Hn.
    split; [by eapply numbers_nonneg|].
    apply list_elem_of_lookup in Hn as [j Hj].
    destruct (Forall2_lookup_l _ _ _ _ _ HF Hj) as (r & _ & Hr).
    destruct (Z.le_gt_cases n (Z.of_nat (length planned))) as [|Hgt]; [done|].
    rewrite getitem_pred_big in Hr by lia. done.
  - intros (ns & Hns & Hall). apply (build_context_total _ _ ns Hns).
    intros n Hn. specialize (Hall n Hn). lia.
  - intros e [Hns|(-> & ns & n & Hns & Hn & Hget)]%build_context_raise_inv.
    + left. split; [done|]. by apply numbers_raise in Hns.
    + right. split; [done|]. exists ns, n. split; [done|]. split; [done|].
      pose proof (numbers_nonneg _ _ _ Hns Hn).
      destruct (Z.le_gt_cases n (Z.of_nat (length planned))) as [Hle|]; [|done].
      destruct (getitem_in_range planned (n - 1)) as [x Hx]; [lia|]. congruence.
Qed.

(** The text [#S0, #S2 and #S1] is resolved on a list of two sub-tasks,
    and the text [#S0, #S3 and #S1] is not. *)
Lemma X4_witness :
  (exists ctx, build_context [0; 1] "#S0, #S2 and #S1" = Ok ctx)
  /\ build_context [0; 1] "#S0, #S3 and #S1" = Raise IndexError.
Proof.
  split.
  - apply (X4_context_fails_only_beyond_the_built [0; 1] "#S0, #S2 and #S1");
      [discriminate|].
    exists [0; 2; 1]%Z. split; [vm_compute; reflexivity|].
    intros n Hn. repeat (apply elem_of_cons in Hn as [->|Hn]); [simpl; lia..|].
    by apply elem_of_nil in Hn.
  - destruct (X4_context_fails_only_beyond_the_built [0; 1] "#S0, #S3 and #S1")
      as [[Hok _] Hraise]; [discriminate|].
    destruct (build_context [0; 1] "#S0, #S3 and #S1") as [ctx|e] eqn:Hctx.
    + destruct Hok as (ns & Hns & Hall); [by eauto|].
      assert (ns = [0; 3; 1]%Z) as -> by (vm_compute in Hns; congruence).
      specialize (Hall 3%Z). simpl in Hall.
      assert (3 ∈ [0; 3; 1])%Z as Hin by (apply (list_elem_of_lookup_2 _ 1); reflexivity).
      apply Hall in Hin. lia.
    + destruct (Hraise e eq_refl) as [[Hns _]|[-> _]]; [|reflexivity].
      vm_compute in Hns. discriminate.
Defined.

(** X7. A sub-task depends on the entries up to its own index only: when
    the four sections give a plan, the sections cut after their first [k]
    entries give the first [k] sub-tasks of that plan. *)
Theorem X7_plan_of_a_prefix (roster : list Agent)
    (tasks agents dependencies outputs : list string) (st : store) (k : nat) :
  build_planned_tasks roster tasks agents dependencies outputs = Ok st ->
  build_planned_tasks roster (take k tasks) (take k agents)
    (take k dependencies) (take k outputs)
  = Ok (mkStore (take k (heap st)) (take k (planned_tasks st))).
Proof.
  intros Hb%build_planned_tasks_built.
  set (n := Nat.min (length tasks) (length agents)) in *.
  destruct (built_earlier _ _ _ _ _ n st (Nat.min k n) Hb) as (st' & Hb' & Hh & Hp);
    [lia|].
  apply built_shape in Hb as (Hpl & Hhl & _).
  assert (st' = mkStore (take k (heap st)) (take k (planned_tasks st))) as <-.
  { destruct st' as [h p]. simpl in *. subst h p.
    f_equal; destruct (Nat.min_spec k n) as [[? ->]|[? ->]]; try done;
      rewrite !take_ge; try done; rewrite ?Hpl, ?length_seq; lia. }
  apply build_planned_tasks_built.
  rewrite !length_take.
  replace (Nat.min (Nat.min k (length tasks)) (Nat.min k (length agents)))
    with (Nat.min k n) by lia.
  apply built_take; [done|lia].
Qed.

Lemma X7_witness :
  build_planned_tasks [Examples.iot]
    (take 1 ["find the sensors"; "rank the sensors"])
    (take 1 ["IoT"; "Planner"]) (take 1 ["None"; "#S1"])
    (take 1 ["sensor list"; "ranking"])
  = Ok (mkStore (take 1 (heap Examples.plan_two_steps))
          (take 1 (planned_tasks Examples.plan_two_steps))).
Proof.
  apply (X7_plan_of_a_prefix [Examples.iot]
           ["find the sensors"; "rank the sensors"] ["IoT"; "Planner"]
           ["None"; "#S1"] ["sensor list"; "ranking"]).
  vm_compute. reflexivity.
Defined.

End PlannerMore.

(** ** More about a run of [generate_steps] (lines 54-180) *)

Module RunSpec.
Import Text TextFacts TokenFacts PyFacts Planner PlannerFacts PlannerSpec PlannerMore.

Lemma init_Ok_inv (a : tasks_arg) (model : string) (w0 w1 : calls)
    (self : NewPlanningWorkflow) :
  __init__ a model w0 = (Ok self, w1) ->
  w1 = w0 /\
  exists task roster,
    a = TaskList [task] /\ self = mkWorkflow [task] [] 10 model 5 /\
    Planner.agents task = Some roster /\ roster <> [].
Proof.
  unfold __init__, mbind, M_bind, lift, _verify_tasks.
  destruct a as [|l]; [discriminate|].
  destruct l as [|task [|task' l]]; [discriminate| |discriminate].
  simpl. destruct (Planner.agents task) as [roster|] eqn:Hr; [|discriminate].
  destruct roster as [|x roster]; [discriminate|].
  intros [= <- <-]. split; [done|]. by exists task, (x :: roster).
Qed.

Section Run.

Context (watsonx_llm : string -> string -> string).
Context (agent_descriptions : list Agent -> string).
Context (get_prompt : string -> string -> string).

Abbreviation run := (generate_steps watsonx_llm agent_descriptions get_prompt).

(** X6. On a workflow that the constructor returned, [generate_steps]
    calls the model exactly once, with the model id given to the
    constructor, and then either returns a plan or raises [IndexError] or
    the [ValueError] of a token of more than 4300 digits: the checks of
    the constructor leave the loop no other failure. *)
Theorem X6_constructed_workflow_runs
    (a : tasks_arg) (model : string) (w0 w1 w : calls)
    (self : NewPlanningWorkflow) :
  __init__ a model w0 = (Ok self, w1) ->
  exists task prompt,
    a = TaskList [task] /\
    (run self w).2 = (w ++ [(prompt, model)])%list /\
    ((exists st, (run self w).1 = Ok st)
     \/ (run self w).1 = Raise IndexError
     \/ (exists k, int_max_str_digits < k /\
                   (run self w).1 = Raise (ValueError (exceeds_limit k)))).
Proof.
  intros (_ & task & roster & -> & -> & Hr & Hne)%init_Ok_inv.
  exists task. eexists. split; [done|].
  rewrite (generate_steps_result watsonx_llm agent_descriptions get_prompt
             (mkWorkflow [task] [] 10 model 5) task roster eq_refl Hr w).
  split; [done|]. simpl.
  destruct (build_planned_tasks _ _ _ _ _) as [st|e] eqn:Hb; [by eauto|].
  right. apply loop_raise in Hb. destruct Hb as [|k Hk]; [by left|].
  right. by exists k.
Qed.

Context (self : NewPlanningWorkflow) (task : Task) (roster : list Agent).

Hypothesis Hself : Planner.tasks self = [task].
Hypothesis Hroster : Planner.agents task = Some roster.

Let prompt : string := get_prompt (description task) (agent_descriptions roster).
Let final_plan : string := watsonx_llm prompt (llm self).
Let tasks : list string := findall task_pattern final_plan.
Let agents : list string := findall agent_pattern final_plan.
Let dependencies : list string := findall dependency_pattern final_plan.
Let outputs : list string := findall output_pattern final_plan.

(** X5. With a roster that is not empty, [generate_steps] returns a plan
    if and only if, at every step [i] it builds, the tokens are all
    converted, none having more than 4300 digits, and every number [m]
    names a sub-task built before: [m <= i], and [m = 0], which reads the
    last one, on a later step than the first only.  What it raises
    otherwise is [IndexError] or the [ValueError] of the conversion. *)
Theorem X5_plan_iff_references_built (w : calls) :
  roster <> [] ->
  ((exists st, (run self w).1 = Ok st)
   <-> (forall i : nat,
          i < Nat.min (length tasks) (length agents) ->
          exists ns, numbers (dependency_at dependencies i) = Ok ns /\
            forall m, m ∈ ns -> (m <= Z.of_nat i)%Z /\ (m = 0%Z -> 0 < i)))
  /\ (forall e, (run self w).1 = Raise e ->
        e = IndexError
        \/ exists k, int_max_str_digits < k /\ e = ValueError (exceeds_limit k)).
Proof.
  intros Hne. split; [split|].
  - intros [st Hst] i Hi.
    destruct (run self w) as [r w'] eqn:Hrun. simpl in Hst. subst r.
    pose proof (generate_steps_built _ _ _ _ _ _ Hself Hroster _ _ _ Hrun) as Hb.
    destruct (built_task_at _ _ _ _ _ _ _ i Hb Hi) as [t Ht].
    destruct (task_at_inv _ _ _ _ _ _ _ _ _ Hb Ht)
      as (_ & d & an & a & _ & _ & _ & Hctx & _).
    apply build_context_Ok_inv in Hctx as (ns & Hns & HF).
    exists ns. split; [done|]. intros m [j Hj]%list_elem_of_lookup.
    destruct (Forall2_lookup_l _ _ _ _ _ HF Hj) as (r & _ & Hr).
    split.
    + destruct (Z.le_gt_cases m (Z.of_nat i)) as [|Hgt]; [done|].
      rewrite getitem_pred_big in Hr by (rewrite length_seq; lia). done.
    + intros ->. rewrite getitem_minus_one in Hr.
      destruct i; [by simpl in Hr|lia].
  - intros Hall.
    destruct (generate_steps_total watsonx_llm agent_descriptions get_prompt
                self task roster Hself Hroster w Hne) as [st Hst].
    + intros i Hi. destruct (Hall i Hi) as (ns & Hns & Hrange).
      exists ns. split; [done|]. intros m Hm.
      destruct (Hrange m Hm) as [Hle Hzero].
      pose proof (numbers_nonneg _ _ _ Hns Hm).
      destruct (decide (m = 0%Z)) as [->|]; [specialize (Hzero eq_refl)|]; lia.
    + exists st. by rewrite Hst.
  - intros e He. destruct (run self w) as [r w'] eqn:Hrun. simpl in He. subst r.
    apply (generate_steps_raise watsonx_llm agent_descriptions get_prompt
             self task roster Hself Hroster) in Hrun.
    destruct Hrun as [|k Hk]; [by left|]. right. by exists k.
Qed.

(** X8. In a returned plan the context of a sub-task has one entry for
    each token of its dependency text, a token written twice giving two
    entries; so a text without any token, the literal None or another,
    gives an empty context. *)
Theorem X8_context_one_entry_per_token
    (w w' : calls) (st : store) (i : nat) (t : Task) :
  run self w = (Ok st, w') ->
  task_at st i = Some t ->
  length (context t)
  = length (findall step_ref_pattern (dependency_at dependencies i))
  /\ (forall (pre : string) (toks : list (N * string)),
        dependency_at dependencies i = dependency_text pre toks ->
        separated pre toks = true ->
        length (context t) = length toks)
  /\ (findall step_ref_pattern (dependency_at dependencies i) = [] ->
      context t = []).
Proof.
  intros Hrun Ht.
  pose proof (generate_steps_built _ _ _ _ _ _ Hself Hroster _ _ _ Hrun) as Hb.
  destruct (task_at_inv _ _ _ _ _ _ _ _ _ Hb Ht)
    as (_ & d & an & a & _ & _ & _ & Hctx & _).
  apply build_context_Ok_inv in Hctx as (ns & Hns & HF).
  assert (Hlen : length (context t)
                 = length (findall step_ref_pattern (dependency_at dependencies i))).
  { rewrite <- (Forall2_length _ _ _ HF). exact (mapM_length int _ _ Hns). }
  split; [exact Hlen|]. split.
  - intros pre toks Heq Hsep. rewrite Hlen, Heq, findall_tokens by done.
    by rewrite length_fmap.
  - intros Hnone. apply nil_length_inv. rewrite Hlen.
    change (length (findall step_ref_pattern (dependency_at dependencies i)) = 0).
    by rewrite Hnone.
Qed.

End Run.

(** The constructed workflow runs on [reply_long_reference]: one call to
    the model, and the [ValueError] of the token of 4301 digits. *)
Lemma X6_witness :
  (Examples.generate Examples.reply_long_reference
     (mkWorkflow [Examples.goal] [] 10 "llama" 5)).2
  = [("List the sensors of Chiller 6", "llama")]
  /\ (Examples.generate Examples.reply_long_reference
        (mkWorkflow [Examples.goal] [] 10 "llama" 5)).1
     = Raise (ValueError (exceeds_limit 4301)).
Proof.
  destruct (X6_constructed_workflow_runs
              (Examples.answering Examples.reply_long_reference)
              Examples.no_descriptions Examples.goal_prompt
              (TaskList [Examples.goal]) "llama" [] [] []
              (mkWorkflow [Examples.goal] [] 10 "llama" 5) eq_refl)
    as (task & prompt & Htask & Hcalls & Hresult).
  injection Htask as <-. split.
  - vm_compute. reflexivity.
  - destruct Hresult as [[st Hst]|[Hindex|(k & _ & Hvalue)]].
    + vm_compute in Hst. discriminate Hst.
    + vm_compute in Hindex. discriminate Hindex.
    + vm_compute. reflexivity.
Defined.

Lemma X5_witness :
  exists st, (Examples.generate Examples.reply_S0 Examples.workflow).1 = Ok st.
Proof.
  destruct (X5_plan_iff_references_built
              (Examples.answering Examples.reply_S0)
              Examples.no_descriptions Examples.goal_prompt
              Examples.workflow Examples.goal [Examples.iot]
              eq_refl eq_refl []) as [[_ Hok] _]; [discriminate|].
  apply Hok. intros i Hi.
  destruct i as [|[|i]]; [| |vm_compute in Hi; lia].
  - exists []. split; [vm_compute; reflexivity|].
    intros m Hm. by apply elem_of_nil in Hm.
  - exists [0%Z]. split; [vm_compute; reflexivity|].
    intros m Hm. apply list_elem_of_singleton in Hm as ->.
    split; [done|lia].
Defined.

(** On [reply_repeated] the first step, whose dependency text has no
    token and is not None, has an empty context, and the second, whose
    text has the token [#S1] twice, a context of two entries. *)
Lemma X8_witness :
  (exists t, task_at Examples.plan_repeated 0 = Some t /\ context t = [])
  /\ (exists t, task_at Examples.plan_repeated 1 = Some t /\
                length (context t) = length [(1%N, ", then "); (1%N, " again")]).
Proof.
  split.
  - destruct (X8_context_one_entry_per_token
                (Examples.answering Examples.reply_repeated)
                Examples.no_descriptions Examples.goal_prompt
                Examples.workflow Examples.goal [Examples.iot]
                eq_refl eq_refl [] Examples.one_call Examples.plan_repeated 0
                (mkTask "find the sensors" "sensor list" (Some [Examples.iot]) []))
      as (_ & _ & Hnone).
    + vm_compute. reflexivity.
    + reflexivity.
    + eexists. split; [reflexivity|]. apply Hnone. vm_compute. reflexivity.
  - destruct (X8_context_one_entry_per_token
                (Examples.answering Examples.reply_repeated)
                Examples.no_descriptions Examples.goal_prompt
                Examples.workflow Examples.goal [Examples.iot]
                eq_refl eq_refl [] Examples.one_call Examples.plan_repeated 1
                (mkTask "rank the sensors" "ranking" (Some [Examples.iot]) [0; 0]))
      as (_ & Htoks & _).
    + vm_compute. reflexivity.
    + reflexivity.
    + eexists. split; [reflexivity|].
      apply (Htoks ""); [vm_compute; reflexivity|reflexivity].
Defined.

End RunSpec.

(** ** The saved plan (lines 132-138) *)

Module PlanFileSpec.
Import Text TextFacts Planner PlanFile.

#[local] Arguments String.append : simpl nomatch.

Lemma endswith_refl (s : string) : endswith s s = true.
Proof. destruct s; cbn [endswith]; by rewrite String.eqb_refl. Qed.

Lemma endswith_append (a b : string) : endswith (a +:+ b) b = true.
Proof.
  induction a as [|c a IH]; [apply endswith_refl|].
  change (String c a +:+ b) with (String c (a +:+ b)).
  cbn [endswith]. rewrite IH. apply orb_true_r.
Qed.

(** X9. The file of the plan always has a name that ends in .txt: the
    suffix is added to a name that lacks it and to no other, so that naming
    the file twice changes nothing. *)
Theorem X9_saved_plan_path_txt (saved_plan_filename : string) :
  endswith (saved_plan_path saved_plan_filename) ".txt" = true
  /\ saved_plan_path (saved_plan_path saved_plan_filename)
     = saved_plan_path saved_plan_filename
  /\ (endswith saved_plan_filename ".txt" = true
      <-> saved_plan_path saved_plan_filename = saved_plan_filename).
Proof.
  assert (Hends : forall f, endswith (saved_plan_path f) ".txt" = true).
  { intros f. unfold saved_plan_path.
    destruct (endswith f ".txt") eqn:Hf; simpl; [done|apply endswith_append]. }
  assert (Hkeep : forall f, endswith f ".txt" = true -> saved_plan_path f = f).
  { intros f Hf. unfold saved_plan_path. by rewrite Hf. }
  split; [apply Hends|]. split; [apply Hkeep, Hends|].
  split; [apply Hkeep|]. intros <-. apply Hends.
Qed.

Lemma X9_witness :
  endswith "plans/run1" ".txt" = false /\
  saved_plan_path "plans/run1" = "plans/run1.txt" /\
  saved_plan_path "plans/run1.txt" = "plans/run1.txt".
Proof.
  destruct (X9_saved_plan_path_txt "plans/run1.txt") as (_ & _ & Hkeep).
  split; [reflexivity|]. split; [reflexivity|].
  apply Hkeep. reflexivity.
Defined.

Section Run.

Context (watsonx_llm : string -> string -> string).
Context (agent_descriptions : list Agent -> string).
Context (get_prompt : string -> string -> string).
Context (os_write : string -> string -> files -> result unit * files).

Abbreviation saving :=
  (PlanFile.generate_steps_saving watsonx_llm agent_descriptions get_prompt
     os_write).
Abbreviation plain :=
  (Planner.generate_steps watsonx_llm agent_descriptions get_prompt).
Abbreviation writing := (PlanFile.write_plan os_write).

(** X10. Without [save_plan], [generate_steps] does what it does by
    default and touches no file.  With [save_plan], on a workflow with one
    task and a roster, the file of the plan is written after the call to
    the model and before the first sub-task is built.  When the writing
    succeeds, what the method returns or raises and the calls it makes are
    those of the default run, so that the file is written even when the
    loop raises.  When the writing raises, as it does with [ValueError] for
    a name that holds the character NUL, the method raises that exception
    after the one call to the model, whatever the reply. *)
Theorem X10_saving_keeps_the_plan
    (save_plan : bool) (saved_plan_filename : string)
    (self : NewPlanningWorkflow) (w : calls) (fs : files) :
  (save_plan = false ->
   saving save_plan saved_plan_filename self w fs = (plain self w, fs))
  /\ (forall task roster,
        Planner.tasks self = [task] -> Planner.agents task = Some roster ->
        save_plan = true ->
        (forall fs',
           writing (saved_plan_path saved_plan_filename)
             (saved_plan_text (description task)
                (watsonx_llm
                   (get_prompt (description task) (agent_descriptions roster))
                   (llm self))) fs
           = (Ok tt, fs') ->
           saving save_plan saved_plan_filename self w fs = (plain self w, fs'))
        /\ (forall e fs',
              writing (saved_plan_path saved_plan_filename)
                (saved_plan_text (description task)
                   (watsonx_llm
                      (get_prompt (description task) (agent_descriptions roster))
                      (llm self))) fs
              = (Raise e, fs') ->
              saving save_plan saved_plan_filename self w fs
              = (Raise e, (plain self w).2, fs')
              /\ (plain self w).2
                 = (w ++ [(get_prompt (description task)
                             (agent_descriptions roster), llm self)])%list)
        /\ (has_nul (saved_plan_path saved_plan_filename) = true ->
            saving save_plan saved_plan_filename self w fs
            = (Raise (ValueError "embedded null byte"), (plain self w).2, fs))).
Proof.
  unfold PlanFile.generate_steps_saving, Planner.generate_steps,
    mbind, M_bind, lift, call_llm.
  split.
  - intros ->. destruct (getitem (Planner.tasks self) 0) as [task|e]; [|done].
    by destruct (iter_agents task).
  - intros task roster -> Hr ->. simpl. unfold iter_agents. rewrite Hr.
    split; [|split].
    + intros fs' ->. done.
    + intros e fs' ->. done.
    + intros Hnul. unfold write_plan. by rewrite Hnul.
Qed.

End Run.

(** On a disk that takes every file the plan of [reply_self_reference] is
    saved although the loop then raises; a name that holds the character NUL
    makes the method raise although the reply is a plan of two steps; and
    so does a disk that refuses the file. *)
Lemma X10_witness :
  PlanFile.generate_steps_saving (Examples.answering Examples.reply_self_reference)
    Examples.no_descriptions Examples.goal_prompt Examples.disk_write
    true "" Examples.workflow [] ∅
  = (Raise IndexError, Examples.one_call,
     <[".txt" := saved_plan_text (description Examples.goal)
                   Examples.reply_self_reference]> ∅)
  /\ PlanFile.generate_steps_saving (Examples.answering Examples.reply_two_steps)
       Examples.no_descriptions Examples.goal_prompt Examples.disk_write
       true (String (ascii_of_nat 0) "plan") Examples.workflow [] ∅
     = (Raise (ValueError "embedded null byte"), Examples.one_call, ∅)
  /\ PlanFile.generate_steps_saving (Examples.answering Examples.reply_two_steps)
       Examples.no_descriptions Examples.goal_prompt Examples.disk_refusing
       true "plans/run1" Examples.workflow [] ∅
     = (Raise (OSError "No such file or directory"), Examples.one_call, ∅)
  /\ PlanFile.generate_steps_saving (Examples.answering Examples.reply_two_steps)
       Examples.no_descriptions Examples.goal_prompt Examples.disk_refusing
       false "plans/run1" Examples.workflow [] ∅
     = (Ok Examples.plan_two_steps, Examples.one_call, ∅).
Proof.
  split; [|split; [|split]].
  - destruct (X10_saving_keeps_the_plan
                (Examples.answering Examples.reply_self_reference)
                Examples.no_descriptions Examples.goal_prompt Examples.disk_write
                true "" Examples.workflow [] ∅) as (_ & Hsave).
    destruct (Hsave Examples.goal [Examples.iot] eq_refl eq_refl eq_refl)
      as (Hok & _ & _).
    rewrite (Hok _ eq_refl). vm_compute. reflexivity.
  - destruct (X10_saving_keeps_the_plan
                (Examples.answering Examples.reply_two_steps)
                Examples.no_descriptions Examples.goal_prompt Examples.disk_write
                true (String (ascii_of_nat 0) "plan") Examples.workflow [] ∅)
      as (_ & Hsave).
    destruct (Hsave Examples.goal [Examples.iot] eq_refl eq_refl eq_refl)
      as (_ & _ & Hnul).
    rewrite Hnul by reflexivity. reflexivity.
  - destruct (X10_saving_keeps_the_plan
                (Examples.answering Examples.reply_two_steps)
                Examples.no_descriptions Examples.goal_prompt
                Examples.disk_refusing
                true "plans/run1" Examples.workflow [] ∅) as (_ & Hsave).
    destruct (Hsave Examples.goal [Examples.iot] eq_refl eq_refl eq_refl)
      as (_ & Hraise & _).
    destruct (Hraise (OSError "No such file or directory") ∅ eq_refl)
      as [-> _].
    reflexivity.
  - destruct (X10_saving_keeps_the_plan
                (Examples.answering Examples.reply_two_steps)
                Examples.no_descriptions Examples.goal_prompt
                Examples.disk_refusing
                false "plans/run1" Examples.workflow [] ∅) as (Hplain & _).
    rewrite Hplain by reflexivity. vm_compute. reflexivity.
Defined.

End PlanFileSpec.

(** ** The test runner ([tests/run_all_tests.py]) *)

Module TestRunnerSpec.
Import TestRunner.

(** X11. [run_all_tests] raises [ZeroDivisionError] exactly when no test
    was run, whatever [wasSuccessful] answers; and the script ends with
    status 0 exactly when it ran, without an argument, at least one test
    and the run was successful, or ran one of the two suites it knows by
    name and the run was successful. *)
Theorem X11_exit_status (run : suite -> TestResult) (argv : list string) :
  (run_all_tests run = Raised ZeroDivisionError
   <-> testsRun (run Discovered) = 0)
  /\ (main run argv = 0%Z
      <-> (length argv <= 1 /\ testsRun (run Discovered) <> 0
           /\ wasSuccessful (run Discovered) = true)
          \/ (exists name, argv !! 1 = Some name /\
                ((name = "scenario_validation"
                  /\ wasSuccessful (run ScenarioValidation) = true)
                 \/ (name = "real_scenarios"
                     /\ wasSuccessful (run RealScenarios) = true)))).
Proof.
  assert (Hall : forall b, run_all_tests run = Returned b ->
            testsRun (run Discovered) <> 0 /\ b = wasSuccessful (run Discovered)).
  { unfold run_all_tests, truediv. intros b.
    destruct (Z.eqb_spec (Z.of_nat (testsRun (run Discovered))) 0); [done|].
    destruct (wasSuccessful (run Discovered)); intros [= <-]; split; lia || done. }
  assert (Hzero : run_all_tests run = Raised ZeroDivisionError
                  <-> testsRun (run Discovered) = 0).
  { unfold run_all_tests, truediv.
    destruct (Z.eqb_spec (Z.of_nat (testsRun (run Discovered))) 0) as [Hz|Hz].
    - split; [lia|done].
    - split; [by destruct (wasSuccessful _)|lia]. }
  split; [exact Hzero|].
  unfold main. destruct (Nat.ltb_spec 1 (length argv)) as [Hlen|Hlen].
  - destruct (lookup_lt_is_Some_2 argv 1 Hlen) as [name Hname]. rewrite Hname.
    unfold run_specific_test_suite.
    destruct (String.eqb_spec name "scenario_validation") as [->|Hn1].
    + destruct (wasSuccessful (run ScenarioValidation)) eqn:Hs; split; try done.
      * intros _. right. exists "scenario_validation". by eauto.
      * intros [(? & _)|(name & [= <-] & [[_ ?]|[? _]])]; [lia|done|done].
    + destruct (String.eqb_spec name "real_scenarios") as [->|Hn2].
      * destruct (wasSuccessful (run RealScenarios)) eqn:Hs; split; try done.
        -- intros _. right. exists "real_scenarios". by eauto.
        -- intros [(? & _)|(name & [= <-] & [[? _]|[_ ?]])]; [lia|done|done].
      * split; [done|].
        intros [(? & _)|(name' & [= <-] & [[? _]|[? _]])]; [lia|done|done].
  - destruct (run_all_tests run) as [b|[]] eqn:Hrun.
    + destruct (Hall b eq_refl) as [Hne ->].
      destruct (wasSuccessful (run Discovered)) eqn:Hs; split; try done.
      * intros _. by left.
      * intros [(_ & _ & ?)|(name & Hname & _)]; [done|].
        apply lookup_lt_Some in Hname. lia.
    + pose proof (proj1 Hzero eq_refl) as Hnone. split; [done|].
      intros [(_ & ? & _)|(name & Hname & _)]; [done|].
      apply lookup_lt_Some in Hname. lia.
Qed.

Lemma X11_witness :
  run_all_tests (fun _ => mkTestResult 0 [] [] [] true)
  = Raised ZeroDivisionError
  /\ main (fun _ => mkTestResult 3 [] [] [] true) ["run_all_tests.py"] = 0%Z.
Proof.
  split.
  - apply (X11_exit_status (fun _ => mkTestResult 0 [] [] [] true) []).
    reflexivity.
  - apply (X11_exit_status (fun _ => mkTestResult 3 [] [] [] true)
             ["run_all_tests.py"]).
    left. simpl. repeat split; [lia|discriminate].
Defined.

End TestRunnerSpec.

(** ** More about the scenario validator, as the tests use it *)

Module ValidatorMore.
Import Validator.

(** The errors depend on the shape of the coerced [id], on [text] and on
    the optional fields of the schema, and on nothing else. *)
Lemma validate_scenario_ext (r r' : gmap string json) :
  has_shape SString <$> (coerce_id <$> r !! "id")
  = has_shape SString <$> (coerce_id <$> r' !! "id") ->
  r !! "text" = r' !! "text" ->
  (forall field sh, (field, sh) ∈ optional_fields -> r !! field = r' !! field) ->
  validate_scenario r = validate_scenario r'.
Proof.
  intros Hid Htext Hopt. unfold validate_scenario. cbv zeta.
  rewrite Htext. f_equal.
  - destruct (r !! "id") as [v|], (r' !! "id") as [v'|]; simpl in *; try done.
    injection Hid as ->. done.
  - f_equal.
    assert (Hall : forall fields, fields ⊆ optional_fields ->
      flat_map (fun '(field, sh) =>
                  match r !! field with
                  | None => []
                  | Some v =>
                      if has_shape sh v then []
                      else [field +:+ ": expected " +:+ shape_name sh]
                  end) fields
      = flat_map (fun '(field, sh) =>
                  match r' !! field with
                  | None => []
                  | Some v =>
                      if has_shape sh v then []
                      else [field +:+ ": expected " +:+ shape_name sh]
                  end) fields).
    { induction fields as [|[field sh] fields IH]; intros Hsub; [done|].
      simpl. rewrite IH by set_solver.
      rewrite (Hopt field sh) by set_solver. done. }
    by apply Hall.
Qed.

Lemma optional_field_names (field : string) (sh : shape) :
  (field, sh) ∈ optional_fields ->
  field ∈ ["type"; "category"; "deterministic"; "characteristic_form";
           "expected_result"; "data"; "source"].
Proof.
  intros Hin. by apply (list_elem_of_fmap_2 fst) in Hin.
Qed.

(** X12. A field that the schema does not know is ignored: adding it to a
    record, with any value, leaves the errors as they were. *)
Theorem X12_unknown_fields_ignored
    (record : gmap string json) (field : string) (v : json) :
  field ∉ ["id"; "text"; "type"; "category"; "deterministic";
           "characteristic_form"; "expected_result"; "data"; "source"] ->
  validate_scenario (<[field := v]> record) = validate_scenario record.
Proof.
  intros Hnew. apply validate_scenario_ext.
  - rewrite lookup_insert_ne; [done|]. intros ->. apply Hnew. set_solver.
  - rewrite lookup_insert_ne; [done|]. intros ->. apply Hnew. set_solver.
  - intros f sh Hf%optional_field_names.
    rewrite lookup_insert_ne; [done|]. intros ->. apply Hnew.
    do 2 right. exact Hf.
Qed.

Lemma X12_witness :
  validate_scenario (<["extra_field" := JStr "should be ignored"]>
                       Examples.scenario_999)
  = validate_scenario Examples.scenario_999.
Proof.
  apply X12_unknown_fields_ignored.
  intros Hin. repeat (apply elem_of_cons in Hin as [[=]|Hin]).
  by apply elem_of_nil in Hin.
Defined.

(** X13. An integer [id] is taken as the string it is coerced to: a record
    has the same errors with an integer [id] as with a string [id]. *)
Theorem X13_integer_id_as_string
    (record : gmap string json) (z : Z) (s : string) :
  validate_scenario (<["id" := JInt z]> record)
  = validate_scenario (<["id" := JStr s]> record).
Proof.
  apply validate_scenario_ext.
  - by rewrite !lookup_insert_eq.
  - by rewrite !lookup_insert_ne.
  - intros f sh Hf%optional_field_names.
    assert (f <> "id").
    { intros ->. repeat (apply elem_of_cons in Hf as [[=]|Hf]).
      by apply elem_of_nil in Hf. }
    by rewrite !lookup_insert_ne.
Qed.

End ValidatorMore.

(** ** More about the constructor (lines 28-43) *)

Module ConstructorSpec.
Import Planner PlannerSpec RunSpec.

(** X14. The constructor returns a workflow exactly for a list of one task
    whose agents are a list that is not empty, and the workflow then holds
    that task and the model id; for every other argument, a value that is
    not a list among them, it raises [ValueError]; and in no case is the
    model called. *)
Theorem X14_constructor_accepts_exactly
    (a : tasks_arg) (model : string) (w : calls) :
  ((exists self, (__init__ a model w).1 = Ok self)
   <-> (exists task roster,
          a = TaskList [task] /\ Planner.agents task = Some roster /\ roster <> []))
  /\ (forall self, (__init__ a model w).1 = Ok self ->
        exists task, a = TaskList [task] /\ Planner.tasks self = [task]
                     /\ llm self = model)
  /\ ((exists self, (__init__ a model w).1 = Ok self)
      \/ (exists msg, (__init__ a model w).1 = Raise (ValueError msg)))
  /\ (__init__ a model w).2 = w.
Proof.
  assert (Hinv : forall self, (__init__ a model w).1 = Ok self ->
            exists task roster,
              a = TaskList [task] /\ self = mkWorkflow [task] [] 10 model 5 /\
              Planner.agents task = Some roster /\ roster <> []).
  { intros self Hself. destruct (__init__ a model w) as [r w'] eqn:Hinit.
    simpl in Hself. subst r. by apply init_Ok_inv in Hinit as [_ ?]. }
  split; [split|split; [|split]].
  - intros [self (task & roster & ? & _ & ? & ?)%Hinv]. by exists task, roster.
  - intros (task & roster & -> & Hr & Hne).
    rewrite (init_Ok task roster model w Hr Hne). by eauto.
  - intros self (task & roster & -> & -> & _)%Hinv. by exists task.
  - unfold __init__, mbind, M_bind, lift, _verify_tasks.
    destruct a as [|l]; [by right; eauto|].
    destruct (Nat.eqb_spec (length l) 1) as [Hlen|_]; simpl; [|by right; eauto].
    destruct l as [|task [|? ?]]; try done. simpl.
    destruct (Planner.agents task) as [[|x roster]|]; simpl;
      [by right; eauto|by left; eauto|by right; eauto].
  - unfold __init__, mbind, M_bind, lift.
    by destruct (_verify_tasks a).
Qed.

Lemma X14_witness :
  (exists msg, (__init__ NotAList "llama" []).1 = Raise (ValueError msg))
  /\ exists self, (__init__ (TaskList [Examples.goal]) "llama" []).1 = Ok self.
Proof.
  split.
  - destruct (X14_constructor_accepts_exactly NotAList "llama" [])
      as ([Hshape _] & _ & [Hok|Hraise] & _); [|exact Hraise].
    destruct (Hshape Hok) as (task & roster & Heq & _). discriminate Heq.
  - apply (X14_constructor_accepts_exactly (TaskList [Examples.goal]) "llama" []).
    exists Examples.goal, [Examples.iot]. repeat split. discriminate.
Defined.

End ConstructorSpec.
